(** * Secbank CBS: the transaction posting engine

    A shallow embedding of the posting code of the repository
    ([server/db.ts], [server/routers.ts], [server/restApi.ts]) together with
    the properties of balances, ledger rows, reference numbers and interbank
    (Instapay) callbacks that the specification states about it.

    Layout of the development:
    - [Number]: the JavaScript numbers the code computes with
      ([parseFloat], [+], [-], comparisons, [toFixed(2)]), as IEEE 754
      binary64 values with round-to-nearest-even written out;
    - the tables of [drizzle/schema.ts] as records and lists, and the
      state-and-exception monad in which the asynchronous functions run;
    - [server/db.ts]: accounts, reference numbers, ledger rows, Instapay
      records;
    - the tRPC procedures ([transaction]) and the REST handlers ([restApi]);
    - the vocabulary of the properties: observations of a database, the
      effects of the functions by name, sample data;
    - more of the code: account status and account creation, the REST
      transfer, the switch procedures, customers, API keys and the
      middleware, the total of the dashboard, the callbacks of a server
      without its database;
    - the properties, those of the specification first. *)

From Stdlib Require Import ZArith Lia String Ascii List Bool.
From Stdlib Require Floats.SpecFloat.
From stdpp Require Import base tactics option list strings pretty gmap.

Local Open Scope Z_scope.

(** ** JavaScript numbers *)

(** Every finite binary64 value is an integer multiple of [2^-1074], the
    smallest subnormal.  A finite [number] [x] is represented by the integer
    [x * 2^1074]; signed zeros are identified, and infinities and NaN are left
    out: the amounts handled here are DECIMAL(18,2) values, far below the
    overflow threshold [2^1024]. *)
Module Number.

Definition number : Type := Z.

Definition scale : Z := 2 ^ 1074.

(** An integer literal of the source, such as [0] or [50000]. *)
Definition of_int (z : Z) : number := z * scale.

(** The integer nearest to [p / q], the even one on a tie ([0 < q]). *)
Definition rne_div (p q : Z) : Z :=
  let f := p / q in
  match 2 * (p mod q) ?= q with
  | Lt => f
  | Gt => f + 1
  | Eq => if Z.even f then f else f + 1
  end.

(** Round-to-nearest, ties-to-even, of the rational [p / q] (in units of
    [2^-1074]) to 53 significant bits.  [e] is the exponent of the last
    place: [0] in the subnormal range. *)
Definition round64 (p q : Z) : number :=
  let e := Z.max (Z.log2 (Z.abs p / q) - 52) 0 in
  rne_div p (q * 2 ^ e) * 2 ^ e.

Definition add (x y : number) : number := round64 (x + y) 1.
Definition sub (x y : number) : number := round64 (x - y) 1.
Definition neg (x : number) : number := - x.

Definition ltb (x y : number) : bool := x <? y.
Definition leb (x y : number) : bool := x <=? y.
Definition gtb (x y : number) : bool := y <? x.

End Number.

Abbreviation number := Number.number.

(** A DECIMAL(18,2) column value, or a decimal string with two fractional
    digits such as ["700.00"]: represented by its number of cents.  The
    amounts a caller passes are taken to be such strings. *)
Definition decimal : Type := Z.

(** [parseFloat(s)] for the decimal string [s] of [d] cents: the number
    nearest to [d / 100]. *)
Definition parseFloat (d : decimal) : number :=
  Number.round64 (d * Number.scale) 100.

(** [x.toFixed(2)]: the integer [n] for which [n / 100 - x] is closest to
    zero, the larger [n] on a tie; a negative [x] is formatted as ["-"]
    followed by the digits of [-x]. *)
Definition toFixed2 (x : number) : decimal :=
  if 0 <=? x
  then (100 * x + Number.scale / 2) / Number.scale
  else - ((100 * (- x) + Number.scale / 2) / Number.scale).

(** ** The tables of [drizzle/schema.ts]

    One record per table row.  The timestamp columns ([createdAt],
    [updatedAt], [sentAt]) are left out: no posting decision reads them. *)

Inductive AccountStatus := active | closed.
Inductive TransactionType := DEPOSIT | WITHDRAWAL | INTERNAL_TRANSFER | INSTAPAY.
Inductive InstapayStatus := PENDING | SUCCESS | FAILED.

Global Instance AccountStatus_eq_dec : EqDecision AccountStatus.
Proof. solve_decision. Defined.
Global Instance TransactionType_eq_dec : EqDecision TransactionType.
Proof. solve_decision. Defined.
Global Instance InstapayStatus_eq_dec : EqDecision InstapayStatus.
Proof. solve_decision. Defined.

Module Account.
Record t := mk {
  id : Z;
  customerId : Z;
  branchCode : string;
  accountNumber : string;
  balance : decimal;
  productType : string;
  status : AccountStatus;
}.

(** [.set({ balance: newBalance })] *)
Definition set_balance (newBalance : decimal) (a : t) : t :=
  mk (id a) (customerId a) (branchCode a) (accountNumber a) newBalance
     (productType a) (status a).
End Account.

Module Transaction.
Record t := mk {
  id : Z;
  referenceNumber : string;
  accountId : Z;
  type : TransactionType;
  amount : decimal;
  balanceAfter : decimal;
  relatedAccountId : option Z;
  relatedAccountNumber : option string;
  description : option string;
}.
End Transaction.

Module InstapayTransaction.
Record t := mk {
  id : Z;
  referenceNumber : string;
  switchReferenceNumber : option string;
  sourceAccountId : Z;
  sourceAccountNumber : string;
  bankName : string;
  bankCode : string;
  accountNumber : string;
  accountName : string;
  amount : decimal;
  status : InstapayStatus;
  statusMessage : option string;
}.

(** [.set({ status, switchReferenceNumber, statusMessage })] *)
Definition set_status (st : InstapayStatus) (sw msg : option string) (r : t) : t :=
  mk (id r) (referenceNumber r) sw (sourceAccountId r) (sourceAccountNumber r)
     (bankName r) (bankCode r) (accountNumber r) (accountName r) (amount r)
     st msg.
End InstapayTransaction.

(** The database: the ledger ([transactions]) and the Instapay records in
    insertion order, each with a UNIQUE [referenceNumber] column that its
    [insert] enforces; the [transactionSequence] table, whose [date] column
    is unique, as a map from the date to [lastSequence]. *)
Record Db := mkDb {
  accounts : list Account.t;
  transactions : list Transaction.t;
  transactionSequence : gmap string Z;
  instapayTransactions : list InstapayTransaction.t;
}.

Definition set_accounts (f : list Account.t -> list Account.t) (db : Db) : Db :=
  mkDb (f (accounts db)) (transactions db) (transactionSequence db)
       (instapayTransactions db).
Definition set_transactions (f : list Transaction.t -> list Transaction.t)
    (db : Db) : Db :=
  mkDb (accounts db) (f (transactions db)) (transactionSequence db)
       (instapayTransactions db).
Definition set_transactionSequence (f : gmap string Z -> gmap string Z)
    (db : Db) : Db :=
  mkDb (accounts db) (transactions db) (f (transactionSequence db))
       (instapayTransactions db).
Definition set_instapayTransactions
    (f : list InstapayTransaction.t -> list InstapayTransaction.t) (db : Db) : Db :=
  mkDb (accounts db) (transactions db) (transactionSequence db)
       (f (instapayTransactions db)).

(** What a call observes of its surroundings: the date [new Date()] yields,
    already formatted as [YYYYMMDD] by
    [toISOString().slice(0, 10).replace(/-/g, '')], and whether the [update]
    and [insert] statements on the [transactionSequence] table go through or
    raise. *)
Record Env := mkEnv {
  today : string;
  sequenceWritable : bool;
}.

(** ** Asynchronous functions: state and exceptions

    No function of [db.ts] opens a database transaction, so what a function
    wrote before it threw stays written: a computation returns its outcome
    together with the database it leaves behind, also when it throws.

    Besides the errors the code throws itself, the database driver rejects a
    statement: [StoreError] when a write to the sequence table fails,
    [DuplicateEntry] when an [insert] violates a UNIQUE constraint. *)

Inductive Error :=
  | TRPCError (code message : string)
  | JsError (message : string)
  | StoreError
  | DuplicateEntry.

Inductive Result (A : Type) :=
  | Ok (a : A)
  | Throw (e : Error).
Arguments Ok {A} a.
Arguments Throw {A} e.

Definition M (A : Type) : Type := Db -> Result A * Db.

Global Instance M_ret : MRet M := fun A a db => (Ok a, db).
Global Instance M_bind : MBind M := fun A B f m db =>
  match m db with
  | (Ok a, db') => f a db'
  | (Throw e, db') => (Throw e, db')
  end.

Definition throw {A} (e : Error) : M A := fun db => (Throw e, db).
Definition gets {A} (f : Db -> A) : M A := fun db => (Ok (f db), db).
Definition modify (f : Db -> Db) : M unit := fun db => (Ok tt, f db).

(** [a || b] on optional strings: [undefined], [null] and the empty string
    are falsy. *)
Definition js_or (a b : option string) : option string :=
  match a with
  | Some s => if decide (s = EmptyString) then b else Some s
  | None => b
  end.

Definition js_or_default (a : option string) (b : string) : string :=
  match a with
  | Some s => if decide (s = EmptyString) then b else s
  | None => b
  end.

(** [s.padStart(n, c)] for a one-character [c]. *)
Fixpoint repeat_char (n : nat) (c : ascii) : string :=
  match n with
  | O => EmptyString
  | S n => String c (repeat_char n c)
  end.

Definition padStart (n : nat) (c : ascii) (s : string) : string :=
  repeat_char (n - String.length s) c +:+ s.

(** The next value of an [AUTO_INCREMENT] primary key. *)
Definition insertId (ids : list Z) : Z := foldr Z.max 0 ids + 1.

(** ** [server/db.ts]

    Every function first asks [getDb()] for the database handle and gives up
    when there is none; the embedding describes a server that has its
    handle.  A [select] that takes the first row of its result is a
    [List.find]; an [update ... where] maps over the rows that match. *)

Definition getAccountById (id : Z) : M (option Account.t) :=
  gets (fun db => List.find (fun a => Account.id a =? id) (accounts db)).

Definition getAccountByNumber (accountNumber : string) : M (option Account.t) :=
  gets (fun db =>
    List.find (fun a => bool_decide (Account.accountNumber a = accountNumber))
              (accounts db)).

Definition updateAccountBalance (accountId : Z) (newBalance : decimal) : M unit :=
  modify (set_accounts (map (fun a =>
    if Account.id a =? accountId then Account.set_balance newBalance a else a))).

Definition generateTransactionReference (env : Env) : M string :=
  let dateStr := today env in
  existing ← gets (fun db => transactionSequence db !! dateStr);
  sequence ←
    match existing with
    | Some lastSequence =>
        let sequence := lastSequence + 1 in
        (if sequenceWritable env
         then modify (set_transactionSequence <[dateStr := sequence]>)
         else throw StoreError);;
        mret sequence
    | None =>
        (if sequenceWritable env
         then modify (set_transactionSequence <[dateStr := 1]>)
         else throw StoreError);;
        mret 1
    end;
  mret ("TXN" +:+ dateStr +:+ padStart 6 "0" (pretty sequence)).

(** The UNIQUE constraints on [transactions.referenceNumber] and
    [instapayTransactions.referenceNumber]: does the table hold a row under
    the reference number already? *)
Definition ledgerHolds (db : Db) (referenceNumber : string) : bool :=
  existsb (fun r => bool_decide (Transaction.referenceNumber r = referenceNumber))
          (transactions db).

Definition instapayHolds (db : Db) (referenceNumber : string) : bool :=
  existsb
    (fun r => bool_decide (InstapayTransaction.referenceNumber r = referenceNumber))
    (instapayTransactions db).

(** [db.insert(transactions).values(...)]: the row receives the next id,
    unless its reference number is taken. *)
Definition insertTransaction (row : Z -> Transaction.t) : M Transaction.t :=
  fun db =>
    let r := row (insertId (map Transaction.id (transactions db))) in
    if ledgerHolds db (Transaction.referenceNumber r)
    then (Throw DuplicateEntry, db)
    else (Ok r, set_transactions (fun l => l ++ [r]) db).

Definition insertInstapayTransaction (row : Z -> InstapayTransaction.t)
    : M InstapayTransaction.t :=
  fun db =>
    let r := row (insertId (map InstapayTransaction.id (instapayTransactions db))) in
    if instapayHolds db (InstapayTransaction.referenceNumber r)
    then (Throw DuplicateEntry, db)
    else (Ok r, set_instapayTransactions (fun l => l ++ [r]) db).

Module CreateTransactionData.
Record t := mk {
  accountId : Z;
  type : TransactionType;
  amount : decimal;
  balanceAfter : decimal;
  relatedAccountId : option Z;
  relatedAccountNumber : option string;
  description : option string;
}.
End CreateTransactionData.

Definition createTransaction (env : Env) (data : CreateTransactionData.t)
    : M (option Transaction.t) :=
  referenceNumber ← generateTransactionReference env;
  transaction ← insertTransaction (fun id =>
    Transaction.mk id referenceNumber
      (CreateTransactionData.accountId data)
      (CreateTransactionData.type data)
      (CreateTransactionData.amount data)
      (CreateTransactionData.balanceAfter data)
      (CreateTransactionData.relatedAccountId data)
      (CreateTransactionData.relatedAccountNumber data)
      (CreateTransactionData.description data));
  mret (Some transaction).

(** *** Instapay (switch integration) *)

Module CreateInstapayTransactionInput.
Record t := mk {
  sourceAccountId : Z;
  sourceAccountNumber : string;
  bankName : string;
  bankCode : string;
  accountNumber : string;
  accountName : string;
  amount : decimal;
}.
End CreateInstapayTransactionInput.

Definition createInstapayTransaction (env : Env)
    (input : CreateInstapayTransactionInput.t) : M (option InstapayTransaction.t) :=
  let sourceAccountId := CreateInstapayTransactionInput.sourceAccountId input in
  referenceNumber ← generateTransactionReference env;
  found ← getAccountById sourceAccountId;
  match found with
  | None => throw (JsError "Source account not found")
  | Some sourceAccount =>
    if negb (bool_decide (Account.status sourceAccount = active))
    then throw (JsError "Source account is not active")
    else
      let currentBalance := parseFloat (Account.balance sourceAccount) in
      let transferAmount :=
        parseFloat (CreateInstapayTransactionInput.amount input) in
      if Number.leb transferAmount (Number.of_int 0)
      then throw (JsError "Transfer amount must be greater than 0")
      else if Number.gtb transferAmount (Number.of_int 50000)
      then throw (JsError "Instapay transfers are limited to ₱50,000 per transaction")
      else if Number.ltb currentBalance transferAmount
      then throw (JsError "Insufficient balance")
      else
        let newBalance := toFixed2 (Number.sub currentBalance transferAmount) in
        updateAccountBalance sourceAccountId newBalance;;
        insertTransaction (fun id =>
          Transaction.mk id referenceNumber sourceAccountId INSTAPAY
            (toFixed2 (Number.neg transferAmount)) newBalance None
            (Some (CreateInstapayTransactionInput.accountNumber input))
            (Some ("Instapay to "
                   +:+ CreateInstapayTransactionInput.accountName input
                   +:+ " at "
                   +:+ CreateInstapayTransactionInput.bankName input)));;
        instapayTx ← insertInstapayTransaction (fun id =>
          InstapayTransaction.mk id referenceNumber None sourceAccountId
            (CreateInstapayTransactionInput.sourceAccountNumber input)
            (CreateInstapayTransactionInput.bankName input)
            (CreateInstapayTransactionInput.bankCode input)
            (CreateInstapayTransactionInput.accountNumber input)
            (CreateInstapayTransactionInput.accountName input)
            (CreateInstapayTransactionInput.amount input)
            PENDING None);
        mret (Some instapayTx)
  end.

Definition getInstapayTransactionByReference (referenceNumber : string)
    : M (option InstapayTransaction.t) :=
  gets (fun db =>
    List.find
      (fun r => bool_decide (InstapayTransaction.referenceNumber r = referenceNumber))
      (instapayTransactions db)).

Definition updateInstapayTransactionStatus (env : Env) (referenceNumber : string)
    (status : InstapayStatus) (switchReferenceNumber statusMessage : option string)
    : M (option InstapayTransaction.t) :=
  found ← getInstapayTransactionByReference referenceNumber;
  match found with
  | None => throw (JsError "Instapay transaction not found")
  | Some existingTx =>
    (if bool_decide (status = FAILED)
        && bool_decide (InstapayTransaction.status existingTx = PENDING)
     then
       let sourceAccountId := InstapayTransaction.sourceAccountId existingTx in
       found ← getAccountById sourceAccountId;
       match found with
       | Some sourceAccount =>
         let currentBalance := parseFloat (Account.balance sourceAccount) in
         let refundAmount := parseFloat (InstapayTransaction.amount existingTx) in
         let newBalance := toFixed2 (Number.add currentBalance refundAmount) in
         updateAccountBalance sourceAccountId newBalance;;
         reversalRef ← generateTransactionReference env;
         insertTransaction (fun id =>
           Transaction.mk id reversalRef sourceAccountId DEPOSIT
             (toFixed2 refundAmount) newBalance None None
             (Some ("Instapay reversal - " +:+ referenceNumber +:+ " failed: "
                    +:+ js_or_default statusMessage "Transaction failed")));;
         mret tt
       | None => mret tt
       end
     else mret tt);;
    modify (set_instapayTransactions (map (fun r =>
      if bool_decide (InstapayTransaction.referenceNumber r = referenceNumber)
      then InstapayTransaction.set_status status
             (js_or switchReferenceNumber
                    (InstapayTransaction.switchReferenceNumber existingTx))
             (js_or statusMessage (InstapayTransaction.statusMessage existingTx))
             r
      else r)));;
    getInstapayTransactionByReference referenceNumber
  end.

(** ** [server/routers.ts]: the tRPC procedures

    The [.input(...)] schema of a procedure is its first guard: a rejected
    input raises [BAD_REQUEST] before the handler runs.  Authentication
    ([protectedProcedure]) is outside the posting engine. *)

Module transaction.

Module Input.
Record t := mk {
  accountId : Z;
  amount : decimal;
  description : option string;
}.
End Input.

Definition amount_is_positive (amount : decimal) : bool :=
  Number.gtb (parseFloat amount) (Number.of_int 0).

Definition deposit (env : Env) (input : Input.t) : M (option Transaction.t) :=
  if negb (amount_is_positive (Input.amount input))
  then throw (TRPCError "BAD_REQUEST" "Amount must be positive")
  else
    found ← getAccountById (Input.accountId input);
    match found with
    | None => throw (TRPCError "NOT_FOUND" "Account not found")
    | Some account =>
      let currentBalance := parseFloat (Account.balance account) in
      let depositAmount := parseFloat (Input.amount input) in
      let newBalance := toFixed2 (Number.add currentBalance depositAmount) in
      updateAccountBalance (Input.accountId input) newBalance;;
      createTransaction env
        (CreateTransactionData.mk (Input.accountId input) DEPOSIT
           (Input.amount input) newBalance None None
           (Some (js_or_default (Input.description input) "Manual Deposit")))
    end.

Definition withdraw (env : Env) (input : Input.t) : M (option Transaction.t) :=
  if negb (amount_is_positive (Input.amount input))
  then throw (TRPCError "BAD_REQUEST" "Amount must be positive")
  else
    found ← getAccountById (Input.accountId input);
    match found with
    | None => throw (TRPCError "NOT_FOUND" "Account not found")
    | Some account =>
      let currentBalance := parseFloat (Account.balance account) in
      let withdrawAmount := parseFloat (Input.amount input) in
      if Number.gtb withdrawAmount currentBalance
      then throw (TRPCError "BAD_REQUEST" "Insufficient balance")
      else
        let newBalance := toFixed2 (Number.sub currentBalance withdrawAmount) in
        updateAccountBalance (Input.accountId input) newBalance;;
        createTransaction env
          (CreateTransactionData.mk (Input.accountId input) WITHDRAWAL
             (- Input.amount input) newBalance None None
             (Some (js_or_default (Input.description input) "Manual Withdrawal")))
    end.

Module TransferInput.
Record t := mk {
  fromAccountId : Z;
  toAccountNumber : string;
  amount : decimal;
  description : option string;
}.
End TransferInput.

(** The two ledger rows are created by two calls of [createTransaction],
    each reading the clock and the sequence table: [env1] and [env2]. *)
Definition internalTransfer (env1 env2 : Env) (input : TransferInput.t)
    : M (option Transaction.t) :=
  if negb (String.length (TransferInput.toAccountNumber input) =? 10)%nat
  then throw (TRPCError "BAD_REQUEST" "String must contain exactly 10 character(s)")
  else if negb (amount_is_positive (TransferInput.amount input))
  then throw (TRPCError "BAD_REQUEST" "Amount must be positive")
  else
    found ← getAccountById (TransferInput.fromAccountId input);
    match found with
    | None => throw (TRPCError "NOT_FOUND" "Source account not found")
    | Some fromAccount =>
      found ← getAccountByNumber (TransferInput.toAccountNumber input);
      match found with
      | None => throw (TRPCError "NOT_FOUND" "Destination account not found")
      | Some toAccount =>
        if Account.id fromAccount =? Account.id toAccount
        then throw (TRPCError "BAD_REQUEST" "Cannot transfer to the same account")
        else
          let transferAmount := parseFloat (TransferInput.amount input) in
          let fromBalance := parseFloat (Account.balance fromAccount) in
          if Number.gtb transferAmount fromBalance
          then throw (TRPCError "BAD_REQUEST" "Insufficient balance")
          else
            let newFromBalance :=
              toFixed2 (Number.sub fromBalance transferAmount) in
            let newToBalance :=
              toFixed2 (Number.add (parseFloat (Account.balance toAccount))
                                   transferAmount) in
            updateAccountBalance (Account.id fromAccount) newFromBalance;;
            updateAccountBalance (Account.id toAccount) newToBalance;;
            senderTx ← createTransaction env1
              (CreateTransactionData.mk (Account.id fromAccount)
                 INTERNAL_TRANSFER (- TransferInput.amount input)
                 newFromBalance
                 (Some (Account.id toAccount))
                 (Some (Account.accountNumber toAccount))
                 (Some (js_or_default (TransferInput.description input)
                          ("Transfer to " +:+ Account.accountNumber toAccount))));
            createTransaction env2
              (CreateTransactionData.mk (Account.id toAccount)
                 INTERNAL_TRANSFER (TransferInput.amount input)
                 newToBalance
                 (Some (Account.id fromAccount))
                 (Some (Account.accountNumber fromAccount))
                 (Some (js_or_default (TransferInput.description input)
                          ("Transfer from " +:+ Account.accountNumber fromAccount))));;
            mret senderTx
      end
    end.

End transaction.

(** ** [server/restApi.ts]: the REST handlers

    A handler answers with an HTTP status and a JSON body; whatever it throws
    is caught and answered with 500 [INTERNAL_ERROR]. *)

Module restApi.

Inductive Message :=
  | Text (s : string)
  | TextNumber (s : string) (n : number).

Inductive Json :=
  | Failure (code : string) (message : Message)
  | Posted (referenceNumber : option string) (type : TransactionType)
           (amount newBalance : number) (message : string).

Record Response := mkResponse {
  status : Z;
  json : Json;
}.

Module Body.
Record t := mk {
  accountNumber : option string;
  amount : option decimal;
  description : option string;
}.
End Body.

(** [!accountNumber || !amount || amount <= 0] *)
Definition invalid (body : Body.t) : bool :=
  match Body.accountNumber body, Body.amount body with
  | Some accountNumber, Some amount =>
      bool_decide (accountNumber = EmptyString)
      || Number.leb (parseFloat amount) (Number.of_int 0)
  | _, _ => true
  end.

Definition try_catch (handler : M Response) (failure : string)
    : Db -> Response * Db :=
  fun db =>
    match handler db with
    | (Ok response, db') => (response, db')
    | (Throw _, db') =>
        (mkResponse 500 (Failure "INTERNAL_ERROR" (Text failure)), db')
    end.

Definition post_transactions_deposit (env : Env) (body : Body.t)
    : Db -> Response * Db :=
  try_catch
    (if invalid body
     then mret (mkResponse 400 (Failure "VALIDATION_ERROR"
            (Text "Valid account number and positive amount are required")))
     else
       let accountNumber := default EmptyString (Body.accountNumber body) in
       let amount := default 0 (Body.amount body) in
       found ← getAccountByNumber accountNumber;
       match found with
       | None =>
           mret (mkResponse 404 (Failure "NOT_FOUND" (Text "Account not found")))
       | Some account =>
         if bool_decide (Account.status account = closed)
         then mret (mkResponse 400 (Failure "ACCOUNT_CLOSED"
                (Text "Cannot deposit to a closed account")))
         else
           let currentBalance := parseFloat (Account.balance account) in
           let depositAmount := parseFloat amount in
           let newBalance := toFixed2 (Number.add currentBalance depositAmount) in
           updateAccountBalance (Account.id account) newBalance;;
           transaction ← createTransaction env
             (CreateTransactionData.mk (Account.id account) DEPOSIT
                (toFixed2 depositAmount) newBalance None None
                (Some (js_or_default (Body.description body) "Deposit via API")));
           mret (mkResponse 201
             (Posted (Transaction.referenceNumber <$> transaction) DEPOSIT
                depositAmount (parseFloat newBalance) "Deposit successful"))
       end)
    "Failed to process deposit".

Definition post_transactions_withdrawal (env : Env) (body : Body.t)
    : Db -> Response * Db :=
  try_catch
    (if invalid body
     then mret (mkResponse 400 (Failure "VALIDATION_ERROR"
            (Text "Valid account number and positive amount are required")))
     else
       let accountNumber := default EmptyString (Body.accountNumber body) in
       let amount := default 0 (Body.amount body) in
       found ← getAccountByNumber accountNumber;
       match found with
       | None =>
           mret (mkResponse 404 (Failure "NOT_FOUND" (Text "Account not found")))
       | Some account =>
         if bool_decide (Account.status account = closed)
         then mret (mkResponse 400 (Failure "ACCOUNT_CLOSED"
                (Text "Cannot withdraw from a closed account")))
         else
           let currentBalance := parseFloat (Account.balance account) in
           let withdrawAmount := parseFloat amount in
           if Number.ltb currentBalance withdrawAmount
           then mret (mkResponse 400 (Failure "INSUFFICIENT_BALANCE"
                  (TextNumber "Insufficient balance. Available: " currentBalance)))
           else
             let newBalance :=
               toFixed2 (Number.sub currentBalance withdrawAmount) in
             updateAccountBalance (Account.id account) newBalance;;
             transaction ← createTransaction env
               (CreateTransactionData.mk (Account.id account) WITHDRAWAL
                  (- toFixed2 withdrawAmount) newBalance None None
                  (Some (js_or_default (Body.description body)
                           "Withdrawal via API")));
             mret (mkResponse 201
               (Posted (Transaction.referenceNumber <$> transaction) WITHDRAWAL
                  withdrawAmount (parseFloat newBalance) "Withdrawal successful"))
       end)
    "Failed to process withdrawal".

End restApi.

(** * Vocabulary of the properties *)

(** ** Observations of a database *)

Definition balanceOf (db : Db) (id : Z) : option decimal :=
  Account.balance <$> List.find (fun a => Account.id a =? id) (accounts db).

Definition lastSequence (db : Db) (dateStr : string) : Z :=
  default 0 (transactionSequence db !! dateStr).

Definition byReference (referenceNumber : string) (r : InstapayTransaction.t)
    : bool :=
  bool_decide (InstapayTransaction.referenceNumber r = referenceNumber).

Definition statusOf (db : Db) (referenceNumber : string) : option InstapayStatus :=
  InstapayTransaction.status
    <$> List.find (byReference referenceNumber) (instapayTransactions db).

(** Everything but the three fields a callback writes. *)
Definition same_but_status (r r' : InstapayTransaction.t) : Prop :=
  InstapayTransaction.id r' = InstapayTransaction.id r
  /\ InstapayTransaction.referenceNumber r'
     = InstapayTransaction.referenceNumber r
  /\ InstapayTransaction.sourceAccountId r'
     = InstapayTransaction.sourceAccountId r
  /\ InstapayTransaction.sourceAccountNumber r'
     = InstapayTransaction.sourceAccountNumber r
  /\ InstapayTransaction.bankName r' = InstapayTransaction.bankName r
  /\ InstapayTransaction.bankCode r' = InstapayTransaction.bankCode r
  /\ InstapayTransaction.accountNumber r' = InstapayTransaction.accountNumber r
  /\ InstapayTransaction.accountName r' = InstapayTransaction.accountName r
  /\ InstapayTransaction.amount r' = InstapayTransaction.amount r.

(** ** Amounts *)

(** The exact-arithmetic range used below: fewer than [10^15] cents, that is
    amounts below 10,000,000,000,000.00. *)
Definition exact_range (d : decimal) : Prop := 0 <= d < 10 ^ 15.

(** One unit in the ninth binary place: [Number.scale = 512 * tick]. *)
Definition tick : Z := 2 ^ 1065.

(** A finite value of [Stdlib.Floats.SpecFloat], mantissa [m] and exponent
    [e], as a [number]. *)
Definition of_spec (f : SpecFloat.spec_float) : number :=
  match f with
  | SpecFloat.S754_finite s m e =>
      (if s then -1 else 1) * Z.pos m * 2 ^ (e + 1074)
  | _ => 0
  end.

(** [d / 100] by the division of [SpecFloat]. *)
Definition spec_of_decimal (d : decimal) : SpecFloat.spec_float :=
  SpecFloat.SFdiv 53 1024
    match d with
    | Z0 => SpecFloat.S754_zero false
    | Zpos p => SpecFloat.S754_finite false p 0
    | Zneg p => SpecFloat.S754_finite true p 0
    end
    (SpecFloat.S754_finite false 100 0).

(** ** Reference numbers *)

(** The reference number of sequence number [sequence] on date [dateStr]:
    [TXN], the date, the sequence number padded with zeros to six digits. *)
Definition reference (dateStr : string) (sequence : Z) : string :=
  "TXN" +:+ dateStr +:+ padStart 6 "0" (pretty sequence).

(** The reference number the counter issues next on the date of [env]. *)
Definition nextReference (env : Env) (db : Db) : string :=
  reference (today env) (lastSequence db (today env) + 1).

(** A reference number is on file when a ledger row or an Instapay record
    carries it. *)
Definition onFile (db : Db) (referenceNumber : string) : Prop :=
  ledgerHolds db referenceNumber = true
  \/ instapayHolds db referenceNumber = true.

(** Every reference number on file was issued by the counter of its date: a
    reference on an eight-character date carries a sequence number that the
    counter of that date has reached. *)
Definition issued (db : Db) : Prop :=
  forall referenceNumber dateStr sequence,
    onFile db referenceNumber ->
    String.length dateStr = 8%nat ->
    referenceNumber = reference dateStr sequence ->
    sequence <= lastSequence db dateStr.

(** Dropping the leading zeros of a string. *)
Fixpoint strip_zeros (s : string) : string :=
  match s with
  | String c r => if decide (c = "0"%char) then strip_zeros r else s
  | EmptyString => s
  end.

Definition is_digit (c : ascii) : bool :=
  bool_decide (is_Some (Ascii.is_nat c)).

Fixpoint all_digits (s : string) : bool :=
  match s with
  | String c r => is_digit c && all_digits r
  | EmptyString => true
  end.

(** Issuing [m] reference numbers in turn. *)
Fixpoint generateMany (env : Env) (m : nat) : M (list string) :=
  match m with
  | O => mret []
  | S m =>
      r ← generateTransactionReference env;
      rs ← generateMany env m;
      mret (r :: rs)
  end.

(** ** The effects of the functions, named *)

(** The row update of [updateAccountBalance]. *)
Definition post (accountId : Z) (newBalance : decimal) (a : Account.t) : Account.t :=
  if Account.id a =? accountId then Account.set_balance newBalance a else a.

(** The sequence table after one more reference on the date of [env]. *)
Definition advance (env : Env) (db : Db) : Db :=
  set_transactionSequence
    <[today env := lastSequence db (today env) + 1]> db.

(** The ledger row [createTransaction] inserts. *)
Definition ledgerRow (env : Env) (db : Db) (data : CreateTransactionData.t)
    : Transaction.t :=
  Transaction.mk (insertId (map Transaction.id (transactions db)))
    (nextReference env db)
    (CreateTransactionData.accountId data)
    (CreateTransactionData.type data)
    (CreateTransactionData.amount data)
    (CreateTransactionData.balanceAfter data)
    (CreateTransactionData.relatedAccountId data)
    (CreateTransactionData.relatedAccountNumber data)
    (CreateTransactionData.description data).

Definition append (row : Transaction.t) : Db -> Db :=
  set_transactions (fun l => l ++ [row]).

Definition record (r : InstapayTransaction.t) : Db -> Db :=
  set_instapayTransactions (fun l => l ++ [r]).

(** What the tRPC procedures pass to [createTransaction]. *)
Definition depositData (input : transaction.Input.t) (account : Account.t)
    : CreateTransactionData.t :=
  CreateTransactionData.mk (transaction.Input.accountId input) DEPOSIT
    (transaction.Input.amount input)
    (toFixed2 (Number.add (parseFloat (Account.balance account))
                          (parseFloat (transaction.Input.amount input))))
    None None
    (Some (js_or_default (transaction.Input.description input) "Manual Deposit")).

Definition withdrawData (input : transaction.Input.t) (account : Account.t)
    : CreateTransactionData.t :=
  CreateTransactionData.mk (transaction.Input.accountId input) WITHDRAWAL
    (- transaction.Input.amount input)
    (toFixed2 (Number.sub (parseFloat (Account.balance account))
                          (parseFloat (transaction.Input.amount input))))
    None None
    (Some (js_or_default (transaction.Input.description input)
             "Manual Withdrawal")).

Definition senderData (input : transaction.TransferInput.t)
    (fromAccount toAccount : Account.t) : CreateTransactionData.t :=
  CreateTransactionData.mk (Account.id fromAccount) INTERNAL_TRANSFER
    (- transaction.TransferInput.amount input)
    (toFixed2 (Number.sub (parseFloat (Account.balance fromAccount))
                          (parseFloat (transaction.TransferInput.amount input))))
    (Some (Account.id toAccount))
    (Some (Account.accountNumber toAccount))
    (Some (js_or_default (transaction.TransferInput.description input)
             ("Transfer to " +:+ Account.accountNumber toAccount))).

Definition receiverData (input : transaction.TransferInput.t)
    (fromAccount toAccount : Account.t) : CreateTransactionData.t :=
  CreateTransactionData.mk (Account.id toAccount) INTERNAL_TRANSFER
    (transaction.TransferInput.amount input)
    (toFixed2 (Number.add (parseFloat (Account.balance toAccount))
                          (parseFloat (transaction.TransferInput.amount input))))
    (Some (Account.id fromAccount))
    (Some (Account.accountNumber fromAccount))
    (Some (js_or_default (transaction.TransferInput.description input)
             ("Transfer from " +:+ Account.accountNumber fromAccount))).

(** What the REST handlers pass to [createTransaction]. *)
Definition restDepositData (body : restApi.Body.t) (amount : decimal)
    (account : Account.t) : CreateTransactionData.t :=
  CreateTransactionData.mk (Account.id account) DEPOSIT
    (toFixed2 (parseFloat amount))
    (toFixed2 (Number.add (parseFloat (Account.balance account))
                          (parseFloat amount)))
    None None
    (Some (js_or_default (restApi.Body.description body) "Deposit via API")).

Definition restWithdrawalData (body : restApi.Body.t) (amount : decimal)
    (account : Account.t) : CreateTransactionData.t :=
  CreateTransactionData.mk (Account.id account) WITHDRAWAL
    (- toFixed2 (parseFloat amount))
    (toFixed2 (Number.sub (parseFloat (Account.balance account))
                          (parseFloat amount)))
    None None
    (Some (js_or_default (restApi.Body.description body) "Withdrawal via API")).

(** The ledger row and the record [createInstapayTransaction] inserts. *)
Definition instapayRow (env : Env) (db : Db)
    (input : CreateInstapayTransactionInput.t) (sourceAccount : Account.t)
    : Transaction.t :=
  Transaction.mk (insertId (map Transaction.id (transactions db)))
    (nextReference env db)
    (CreateInstapayTransactionInput.sourceAccountId input) INSTAPAY
    (toFixed2 (Number.neg
       (parseFloat (CreateInstapayTransactionInput.amount input))))
    (toFixed2 (Number.sub (parseFloat (Account.balance sourceAccount))
       (parseFloat (CreateInstapayTransactionInput.amount input))))
    None
    (Some (CreateInstapayTransactionInput.accountNumber input))
    (Some ("Instapay to "
           +:+ CreateInstapayTransactionInput.accountName input
           +:+ " at "
           +:+ CreateInstapayTransactionInput.bankName input)).

Definition instapayRecord (env : Env) (db : Db)
    (input : CreateInstapayTransactionInput.t) : InstapayTransaction.t :=
  InstapayTransaction.mk
    (insertId (map InstapayTransaction.id (instapayTransactions db)))
    (nextReference env db)
    None
    (CreateInstapayTransactionInput.sourceAccountId input)
    (CreateInstapayTransactionInput.sourceAccountNumber input)
    (CreateInstapayTransactionInput.bankName input)
    (CreateInstapayTransactionInput.bankCode input)
    (CreateInstapayTransactionInput.accountNumber input)
    (CreateInstapayTransactionInput.accountName input)
    (CreateInstapayTransactionInput.amount input)
    PENDING None.

(** The row update of [updateInstapayTransactionStatus]. *)
Definition settle (referenceNumber : string) (status : InstapayStatus)
    (switchReferenceNumber statusMessage : option string)
    (existingTx r : InstapayTransaction.t) : InstapayTransaction.t :=
  if bool_decide (InstapayTransaction.referenceNumber r = referenceNumber)
  then InstapayTransaction.set_status status
         (js_or switchReferenceNumber
                (InstapayTransaction.switchReferenceNumber existingTx))
         (js_or statusMessage (InstapayTransaction.statusMessage existingTx))
         r
  else r.

(** The ledger row of a reversal. *)
Definition reversalRow (env : Env) (db : Db) (referenceNumber : string)
    (statusMessage : option string) (existingTx : InstapayTransaction.t)
    (sourceAccount : Account.t) : Transaction.t :=
  Transaction.mk (insertId (map Transaction.id (transactions db)))
    (nextReference env db)
    (InstapayTransaction.sourceAccountId existingTx) DEPOSIT
    (toFixed2 (parseFloat (InstapayTransaction.amount existingTx)))
    (toFixed2 (Number.add (parseFloat (Account.balance sourceAccount))
                          (parseFloat (InstapayTransaction.amount existingTx))))
    None None
    (Some ("Instapay reversal - " +:+ referenceNumber +:+ " failed: "
           +:+ js_or_default statusMessage "Transaction failed")).

(** The last two statements of [updateInstapayTransactionStatus]: write the
    status, read the record back. *)
Definition finish (referenceNumber : string) (status : InstapayStatus)
    (switchReferenceNumber statusMessage : option string)
    (existingTx : InstapayTransaction.t) (db : Db)
    : Result (option InstapayTransaction.t) * Db :=
  let db' :=
    set_instapayTransactions
      (map (settle referenceNumber status switchReferenceNumber statusMessage
                   existingTx)) db in
  (Ok (List.find
         (fun r => bool_decide
            (InstapayTransaction.referenceNumber r = referenceNumber))
         (instapayTransactions db')), db').

(** ** Sample data

    One customer account at branch 001, a second account at branch 002, and
    one Instapay transfer of 600.00 from the first, sent on 2026-01-15 as the
    first reference of the day. *)

Definition env_20260115 : Env := mkEnv "20260115" true.

(** The clock of 2026-01-15 with the [transactionSequence] table refusing
    writes. *)
Definition env_store_down : Env := mkEnv "20260115" false.

Definition db_empty : Db := mkDb [] [] ∅ [].

Definition sample_account (balance : decimal) (status : AccountStatus) : Account.t :=
  Account.mk 1 1 "001" "0011234567" balance "REGULAR_SAVING" status.

Definition second_account (balance : decimal) : Account.t :=
  Account.mk 2 2 "002" "0027654321" balance "REGULAR_SAVING" active.

Definition db_account (balance : decimal) (status : AccountStatus) : Db :=
  mkDb [sample_account balance status] [] ∅ [].

Definition sample_input (amount : decimal) : CreateInstapayTransactionInput.t :=
  CreateInstapayTransactionInput.mk 1 "0011234567" "BDO Unibank" "BDO"
    "1234567890" "Juan Dela Cruz" amount.

Definition sample_instapay_row : Transaction.t :=
  Transaction.mk 1 "TXN20260115000001" 1 INSTAPAY (-60000) 10000 None
    (Some "1234567890") (Some "Instapay to Juan Dela Cruz at BDO Unibank").

Definition sample_instapay (status : InstapayStatus) : InstapayTransaction.t :=
  InstapayTransaction.mk 1 "TXN20260115000001" None 1 "0011234567"
    "BDO Unibank" "BDO" "1234567890" "Juan Dela Cruz" 60000 status None.

(** The database after that transfer was sent from a balance of 700.00, with
    the Instapay record in status [status]. *)
Definition db_sent (status : InstapayStatus) : Db :=
  mkDb [sample_account 10000 active] [sample_instapay_row]
       {["20260115" := 1]} [sample_instapay status].

(** * More of the code: accounts, transfers, the switch, administration *)

(** ** [server/db.ts]: account status, account numbers, account creation *)

(** [.set({ status })] *)
Definition set_account_status (status : AccountStatus) (a : Account.t)
    : Account.t :=
  Account.mk (Account.id a) (Account.customerId a) (Account.branchCode a)
    (Account.accountNumber a) (Account.balance a) (Account.productType a)
    status.

Definition updateAccountStatus (accountId : Z) (status : AccountStatus)
    : M (option Account.t) :=
  modify (set_accounts (map (fun a =>
    if Account.id a =? accountId then set_account_status status a else a)));;
  getAccountById accountId.

(** [generateAccountNumber] draws random parts until the account number is
    free, at most [maxAttempts = 100] times.  [random k] stands for the value
    of [Math.floor(1000000 + Math.random() * 9000000)] at the turn of the loop
    that starts with [attempts = k]; [remaining] counts the turns left. *)
Fixpoint drawAccountNumber (random : nat -> Z) (branchCode : string)
    (attempts remaining : nat) : M string :=
  match remaining with
  | O => throw (JsError "Failed to generate unique account number")
  | S remaining =>
      let randomPart := pretty (random attempts) in
      let accountNumber := branchCode +:+ randomPart in
      existing ← getAccountByNumber accountNumber;
      match existing with
      | None => mret accountNumber
      | Some _ => drawAccountNumber random branchCode (S attempts) remaining
      end
  end.

Definition generateAccountNumber (random : nat -> Z) (branchCode : string)
    : M string :=
  drawAccountNumber random branchCode 0 100.

(** The UNIQUE constraint on [accounts.accountNumber]. *)
Definition accountsHold (db : Db) (accountNumber : string) : bool :=
  existsb (fun a => bool_decide (Account.accountNumber a = accountNumber))
          (accounts db).

(** [db.insert(accounts).values(...)]: returns the [insertId].  The values
    are taken to fit their columns, [branchCode] a varchar(3) and
    [accountNumber] a varchar(10). *)
Definition insertAccount (row : Z -> Account.t) : M Z :=
  fun db =>
    let r := row (insertId (map Account.id (accounts db))) in
    if accountsHold db (Account.accountNumber r)
    then (Throw DuplicateEntry, db)
    else (Ok (Account.id r), set_accounts (fun l => l ++ [r]) db).

(** The columns left out of [values] take their defaults: [status] is
    [active]. *)
Definition createAccount (random : nat -> Z) (customerId : Z)
    (branchCode : string) : M (option Account.t) :=
  accountNumber ← generateAccountNumber random branchCode;
  insertId ← insertAccount (fun id =>
    Account.mk id customerId branchCode accountNumber 0 "REGULAR_SAVING"
      active);
  getAccountById insertId.

(** ** [server/routers.ts]: the account and switch procedures *)

(** [try { body } catch (error) { handler }] *)
Definition tryCatch {A} (body : M A) (handler : Error -> M A) : M A :=
  fun db =>
    match body db with
    | (Ok a, db') => (Ok a, db')
    | (Throw e, db') => handler e db'
    end.

(** A rejected [.input(...)] is a [BAD_REQUEST].  Its message is the text
    zod makes of the issues; it is represented by the messages of the checks
    that failed, in the order of the schema, and no property depends on
    it. *)
Definition zod (issues : list string) : M unit :=
  match issues with
  | [] => mret tt
  | _ => throw (TRPCError "BAD_REQUEST" (String.concat "; " issues))
  end.

(** [z.string().min(1, message)] *)
Definition min1 (s message : string) : list string :=
  if bool_decide (s = EmptyString) then [message] else [].

Module account.

Definition updateStatus (id : Z) (status : AccountStatus) : M Account.t :=
  account ← updateAccountStatus id status;
  match account with
  | None => throw (TRPCError "NOT_FOUND" "Account not found")
  | Some account => mret account
  end.

End account.

(** [error.message] of a caught error.  [driver] is the text the database
    driver gives to the error it raises. *)
Definition message_of (driver : string) (e : Error) : string :=
  match e with
  | TRPCError _ message => message
  | JsError message => message
  | StoreError => driver
  | DuplicateEntry => driver
  end.

(** The [catch] block of the switch procedures: a [TRPCError] is thrown on,
    anything else becomes an [INTERNAL_SERVER_ERROR] with the message of the
    error. *)
Definition rethrow {A} (driver : string) (e : Error) : M A :=
  match e with
  | TRPCError _ _ => throw e
  | _ => throw (TRPCError "INTERNAL_SERVER_ERROR" (message_of driver e))
  end.

Module switch.

Module SendInput.
Record t := mk {
  sourceAccountId : Z;
  bankCode : string;
  bankName : string;
  accountNumber : string;
  accountName : string;
  amount : decimal;
}.
End SendInput.

(** [switchPayload], without [sentAt]. *)
Module SwitchPayload.
Record t := mk {
  referenceNumber : string;
  sourceAccountNumber : string;
  bankCode : string;
  bankName : string;
  accountNumber : string;
  accountName : string;
  amount : decimal;
}.
End SwitchPayload.

Module SendOutput.
Record t := mk {
  referenceNumber : string;
  status : InstapayStatus;
  message : string;
  switchPayload : SwitchPayload.t;
}.
End SendOutput.

(** [parseFloat(val) > 0 && parseFloat(val) <= 50000] *)
Definition amount_in_limits (amount : decimal) : bool :=
  Number.gtb (parseFloat amount) (Number.of_int 0)
  && Number.leb (parseFloat amount) (Number.of_int 50000).

Definition instapaySend (env : Env) (driver : string) (input : SendInput.t)
    : M SendOutput.t :=
  zod (min1 (SendInput.bankCode input) "Bank code is required"
       ++ min1 (SendInput.bankName input) "Bank name is required"
       ++ min1 (SendInput.accountNumber input) "Account number is required"
       ++ min1 (SendInput.accountName input) "Account name is required"
       ++ (if amount_in_limits (SendInput.amount input) then []
           else ["Amount must be between 0.01 and 50,000"]));;
  tryCatch
    (found ← getAccountById (SendInput.sourceAccountId input);
     match found with
     | None => throw (TRPCError "NOT_FOUND" "Source account not found")
     | Some sourceAccount =>
       created ← createInstapayTransaction env
         (CreateInstapayTransactionInput.mk
            (SendInput.sourceAccountId input)
            (Account.accountNumber sourceAccount)
            (SendInput.bankName input)
            (SendInput.bankCode input)
            (SendInput.accountNumber input)
            (SendInput.accountName input)
            (SendInput.amount input));
       match created with
       | None =>
           throw (TRPCError "INTERNAL_SERVER_ERROR"
                    "Failed to create Instapay transaction")
       | Some instapayTx =>
           mret (SendOutput.mk
             (InstapayTransaction.referenceNumber instapayTx)
             (InstapayTransaction.status instapayTx)
             "Transaction created and pending switch processing"
             (SwitchPayload.mk
                (InstapayTransaction.referenceNumber instapayTx)
                (InstapayTransaction.sourceAccountNumber instapayTx)
                (InstapayTransaction.bankCode instapayTx)
                (InstapayTransaction.bankName instapayTx)
                (InstapayTransaction.accountNumber instapayTx)
                (InstapayTransaction.accountName instapayTx)
                (InstapayTransaction.amount instapayTx)))
       end
     end)
    (rethrow driver).

Module CallbackInput.
Record t := mk {
  referenceNumber : string;
  status : InstapayStatus;
  switchReferenceNumber : option string;
  message : option string;
}.
End CallbackInput.

Definition status_name (status : InstapayStatus) : string :=
  match status with
  | PENDING => "PENDING"
  | SUCCESS => "SUCCESS"
  | FAILED => "FAILED"
  end.

Module CallbackOutput.
Record t := mk {
  referenceNumber : string;
  status : InstapayStatus;
  message : string;
}.
End CallbackOutput.

Definition instapayCallback (env : Env) (driver : string)
    (input : CallbackInput.t) : M CallbackOutput.t :=
  zod (min1 (CallbackInput.referenceNumber input)
            "Reference number is required");;
  tryCatch
    (updated ← updateInstapayTransactionStatus env
       (CallbackInput.referenceNumber input)
       (CallbackInput.status input)
       (CallbackInput.switchReferenceNumber input)
       (CallbackInput.message input);
     match updated with
     | None => throw (TRPCError "NOT_FOUND" "Transaction not found")
     | Some updatedTx =>
         mret (CallbackOutput.mk
           (InstapayTransaction.referenceNumber updatedTx)
           (InstapayTransaction.status updatedTx)
           ("Transaction status updated to "
            +:+ status_name (InstapayTransaction.status updatedTx)))
     end)
    (rethrow driver).

(** What [instapayStatus] returns of the record ([sentAt] and [updatedAt]
    are not modelled). *)
Module StatusOutput.
Record t := mk {
  referenceNumber : string;
  switchReferenceNumber : option string;
  status : InstapayStatus;
  statusMessage : option string;
  sourceAccountNumber : string;
  bankCode : string;
  bankName : string;
  accountNumber : string;
  accountName : string;
  amount : decimal;
}.
End StatusOutput.

Definition instapayStatus (referenceNumber : string) : M StatusOutput.t :=
  zod (min1 referenceNumber "Reference number is required");;
  found ← getInstapayTransactionByReference referenceNumber;
  match found with
  | None => throw (TRPCError "NOT_FOUND" "Transaction not found")
  | Some tx =>
      mret (StatusOutput.mk
        (InstapayTransaction.referenceNumber tx)
        (InstapayTransaction.switchReferenceNumber tx)
        (InstapayTransaction.status tx)
        (InstapayTransaction.statusMessage tx)
        (InstapayTransaction.sourceAccountNumber tx)
        (InstapayTransaction.bankCode tx)
        (InstapayTransaction.bankName tx)
        (InstapayTransaction.accountNumber tx)
        (InstapayTransaction.accountName tx)
        (InstapayTransaction.amount tx))
  end.

End switch.

(** ** [server/restApi.ts]: transfers, account status, the Instapay callback *)

Module restApiRouter.

Inductive Data :=
  | Transferred (referenceNumber : option string) (amount : number)
      (sourceAccountNumber : string) (sourceNewBalance : number)
      (destinationAccountNumber : string) (destinationNewBalance : number)
  | Acknowledged (referenceNumber : string) (status : InstapayStatus)
  | AccountData (account : option Account.t)
  | NoData.

Inductive Json :=
  | Failure (code : string) (message : restApi.Message)
  | Success (data : Data) (message : option string).

Record Response := mkResponse {
  status : Z;
  json : Json;
}.

Definition failure (status : Z) (code message : string) : Response :=
  mkResponse status (Failure code (restApi.Text message)).

(** The [try ... catch] of a handler: whatever is thrown is answered with
    500 [INTERNAL_ERROR]. *)
Definition handle (handler : M Response) (message : string)
    : Db -> Response * Db :=
  fun db =>
    match handler db with
    | (Ok response, db') => (response, db')
    | (Throw _, db') => (failure 500 "INTERNAL_ERROR" message, db')
    end.

Module TransferBody.
Record t := mk {
  sourceAccountNumber : option string;
  destinationAccountNumber : option string;
  amount : option decimal;
  description : option string;
}.
End TransferBody.

(** [!s] for a string that may be missing. *)
Definition missing (s : option string) : bool :=
  match s with
  | Some s => bool_decide (s = EmptyString)
  | None => true
  end.

(** [!amount || amount <= 0] *)
Definition not_positive (amount : option decimal) : bool :=
  match amount with
  | Some amount => Number.leb (parseFloat amount) (Number.of_int 0)
  | None => true
  end.

Definition post_transactions_transfer (env1 env2 : Env) (body : TransferBody.t)
    : Db -> Response * Db :=
  handle
    (if missing (TransferBody.sourceAccountNumber body)
        || missing (TransferBody.destinationAccountNumber body)
        || not_positive (TransferBody.amount body)
     then mret (failure 400 "VALIDATION_ERROR"
       "Valid source account, destination account, and positive amount are required")
     else
       let sourceAccountNumber :=
         default EmptyString (TransferBody.sourceAccountNumber body) in
       let destinationAccountNumber :=
         default EmptyString (TransferBody.destinationAccountNumber body) in
       let amount := default 0 (TransferBody.amount body) in
       if bool_decide (sourceAccountNumber = destinationAccountNumber)
       then mret (failure 400 "VALIDATION_ERROR"
              "Source and destination accounts must be different")
       else
         foundSource ← getAccountByNumber sourceAccountNumber;
         foundDest ← getAccountByNumber destinationAccountNumber;
         match foundSource, foundDest with
         | None, _ => mret (failure 404 "NOT_FOUND" "Source account not found")
         | Some _, None =>
             mret (failure 404 "NOT_FOUND" "Destination account not found")
         | Some sourceAccount, Some destAccount =>
           if bool_decide (Account.status sourceAccount = closed)
           then mret (failure 400 "ACCOUNT_CLOSED"
                  "Cannot transfer from a closed account")
           else if bool_decide (Account.status destAccount = closed)
           then mret (failure 400 "ACCOUNT_CLOSED"
                  "Cannot transfer to a closed account")
           else
             let transferAmount := parseFloat amount in
             let sourceBalance := parseFloat (Account.balance sourceAccount) in
             if Number.ltb sourceBalance transferAmount
             then mret (mkResponse 400 (Failure "INSUFFICIENT_BALANCE"
                    (restApi.TextNumber "Insufficient balance. Available: "
                       sourceBalance)))
             else
               let newSourceBalance :=
                 toFixed2 (Number.sub sourceBalance transferAmount) in
               let newDestBalance :=
                 toFixed2 (Number.add (parseFloat (Account.balance destAccount))
                                      transferAmount) in
               updateAccountBalance (Account.id sourceAccount) newSourceBalance;;
               updateAccountBalance (Account.id destAccount) newDestBalance;;
               senderTx ← createTransaction env1
                 (CreateTransactionData.mk (Account.id sourceAccount)
                    INTERNAL_TRANSFER (- toFixed2 transferAmount)
                    newSourceBalance
                    (Some (Account.id destAccount))
                    (Some (Account.accountNumber destAccount))
                    (Some (js_or_default (TransferBody.description body)
                       ("Transfer to " +:+ Account.accountNumber destAccount))));
               createTransaction env2
                 (CreateTransactionData.mk (Account.id destAccount)
                    INTERNAL_TRANSFER (toFixed2 transferAmount)
                    newDestBalance
                    (Some (Account.id sourceAccount))
                    (Some (Account.accountNumber sourceAccount))
                    (Some (js_or_default (TransferBody.description body)
                       ("Transfer from "
                        +:+ Account.accountNumber sourceAccount))));;
               mret (mkResponse 201 (Success
                 (Transferred (Transaction.referenceNumber <$> senderTx)
                    transferAmount
                    sourceAccountNumber (parseFloat newSourceBalance)
                    destinationAccountNumber (parseFloat newDestBalance))
                 (Some "Transfer successful")))
         end)
    "Failed to process transfer".

Module StatusBody.
Record t := mk {
  status : option string;
}.
End StatusBody.

(** [["active", "closed"].includes(status)] *)
Definition account_status (s : string) : option AccountStatus :=
  if bool_decide (s = "active") then Some active
  else if bool_decide (s = "closed") then Some closed
  else None.

(** [PUT /accounts/:id/status], with [id] the value of
    [parseInt(req.params.id)]. *)
Definition put_accounts_status (id : Z) (body : StatusBody.t)
    : Db -> Response * Db :=
  handle
    (match account_status (default EmptyString (StatusBody.status body)) with
     | None => mret (failure 400 "VALIDATION_ERROR"
                 "Valid status (active/closed) is required")
     | Some status =>
         account ← updateAccountStatus id status;
         match account with
         | None => mret (failure 404 "NOT_FOUND" "Account not found")
         | Some account =>
             mret (mkResponse 200 (Success (AccountData (Some account))
                     (Some "Account status updated successfully")))
         end
     end)
    "Failed to update account status".

Module CallbackBody.
Record t := mk {
  referenceNumber : option string;
  status : option string;
  switchReferenceNumber : option string;
  message : option string;
}.
End CallbackBody.

(** [["SUCCESS", "FAILED", "PENDING"].includes(status)] *)
Definition instapay_status (s : string) : option InstapayStatus :=
  if bool_decide (s = "SUCCESS") then Some SUCCESS
  else if bool_decide (s = "FAILED") then Some FAILED
  else if bool_decide (s = "PENDING") then Some PENDING
  else None.

Definition post_instapay_callback (env : Env) (body : CallbackBody.t)
    : Db -> Response * Db :=
  handle
    (if missing (CallbackBody.referenceNumber body)
        || missing (CallbackBody.status body)
     then mret (failure 400 "VALIDATION_ERROR"
            "Reference number and status are required")
     else
       let referenceNumber :=
         default EmptyString (CallbackBody.referenceNumber body) in
       match instapay_status (default EmptyString (CallbackBody.status body)) with
       | None => mret (failure 400 "VALIDATION_ERROR"
                   "Invalid status. Must be SUCCESS, FAILED, or PENDING")
       | Some status =>
           result ← updateInstapayTransactionStatus env referenceNumber status
             (CallbackBody.switchReferenceNumber body)
             (CallbackBody.message body);
           match result with
           | None =>
               mret (failure 404 "NOT_FOUND" "Instapay transaction not found")
           | Some result =>
               mret (mkResponse 200 (Success
                 (Acknowledged referenceNumber
                    (InstapayTransaction.status result))
                 None))
           end
       end)
    "Failed to process callback".

End restApiRouter.

(** ** Administration: customers and API keys

    The posting tables are one part of the database; the customers and the
    API keys of [drizzle/schema.ts] and [drizzle/0003_conscious_valkyrie.sql]
    are kept beside them. *)

Module Customer.
Record t := mk {
  id : Z;
  name : string;
}.
End Customer.

Inductive Permissions := read | write | admin.

Global Instance Permissions_eq_dec : EqDecision Permissions.
Proof. solve_decision. Defined.

(** A row of [apiKeys].  [isActive] is an [int] column; the timestamps
    [lastUsedAt] and [expiresAt] are points on the clock, [None] for NULL. *)
Module ApiKey.
Record t := mk {
  id : Z;
  keyHash : string;
  keyPrefix : string;
  name : string;
  description : option string;
  permissions : Permissions;
  isActive : Z;
  lastUsedAt : option Z;
  expiresAt : option Z;
  createdBy : option Z;
}.

(** [.set({ lastUsedAt })] and [.set({ isActive })] *)
Definition set_lastUsedAt (at_ : Z) (k : t) : t :=
  mk (id k) (keyHash k) (keyPrefix k) (name k) (description k)
     (permissions k) (isActive k) (Some at_) (expiresAt k) (createdBy k).

Definition set_isActive (flag : Z) (k : t) : t :=
  mk (id k) (keyHash k) (keyPrefix k) (name k) (description k)
     (permissions k) flag (lastUsedAt k) (expiresAt k) (createdBy k).
End ApiKey.

Record Store := mkStore {
  core : Db;
  customers : list Customer.t;
  apiKeys : list ApiKey.t;
}.

Definition set_core (f : Db -> Db) (st : Store) : Store :=
  mkStore (f (core st)) (customers st) (apiKeys st).
Definition set_customers (f : list Customer.t -> list Customer.t)
    (st : Store) : Store :=
  mkStore (core st) (f (customers st)) (apiKeys st).
Definition set_apiKeys (f : list ApiKey.t -> list ApiKey.t) (st : Store)
    : Store :=
  mkStore (core st) (customers st) (f (apiKeys st)).

(** An asynchronous function over the whole store. *)
Definition Admin (A : Type) : Type := Store -> Result A * Store.

(** A function of the posting tables, run on the store. *)
Definition onCore {A} (m : M A) : Admin A :=
  fun st =>
    let (r, db') := m (core st) in
    (r, set_core (fun _ => db') st).

(** *** [server/db.ts]: deleting a customer *)

Definition deleteCustomer (id : Z) : Admin bool :=
  fun st =>
    let customerAccounts :=
      List.filter (fun a => Account.customerId a =? id)
                  (accounts (core st)) in
    if (0 <? length customerAccounts)%nat
    then (Throw (JsError "Cannot delete customer with existing accounts"), st)
    else
      (Ok true,
       set_customers (List.filter (fun c => negb (Customer.id c =? id))) st).

(** *** [server/routers.ts]: deleting a customer *)

Module customer.

(** [delete]: whatever [deleteCustomer] throws becomes a [BAD_REQUEST]
    carrying its message. *)
Definition delete (driver : string) (id : Z) : Admin unit :=
  fun st =>
    match deleteCustomer id st with
    | (Ok _, st') => (Ok tt, st')
    | (Throw e, st') =>
        (Throw (TRPCError "BAD_REQUEST" (message_of driver e)), st')
    end.

End customer.

(** *** [server/restApi.ts]: API keys and the middleware *)

(** [toString("hex")] *)
Definition hex_digit (n : N) : ascii :=
  match n with
  | 0 => "0" | 1 => "1" | 2 => "2" | 3 => "3" | 4 => "4" | 5 => "5"
  | 6 => "6" | 7 => "7" | 8 => "8" | 9 => "9" | 10 => "a" | 11 => "b"
  | 12 => "c" | 13 => "d" | 14 => "e" | _ => "f"
  end%N%char.

Fixpoint hex (bytes : list Byte.byte) : string :=
  match bytes with
  | [] => EmptyString
  | b :: bytes =>
      String (hex_digit (Byte.to_N b / 16))
        (String (hex_digit (Byte.to_N b mod 16)) (hex bytes))
  end.

Module Generated.
Record t := mk {
  key : string;
  hash : string;
  prefix : string;
}.
End Generated.

(** [generateApiKey], with [randomBytes] for the value of
    [crypto.randomBytes(32)] and [sha256] for the SHA-256 digest in
    hexadecimal. *)
Definition generateApiKey (sha256 : string -> string)
    (randomBytes : list Byte.byte) : Generated.t :=
  let key := "sb_" +:+ hex randomBytes in
  Generated.mk key (sha256 key) (String.substring 0 11 key).

Definition hashApiKey (sha256 : string -> string) (key : string) : string :=
  sha256 key.

(** [req.apiKey] *)
Module ApiKeyInfo.
Record t := mk {
  id : Z;
  name : string;
  permissions : Permissions;
}.
End ApiKeyInfo.

(** The outcome of a middleware: it answers the request itself, or calls
    [next()]. *)
Inductive Step (A : Type) :=
  | Answered (response : restApiRouter.Response)
  | Next (a : A).
Arguments Answered {A} response.
Arguments Next {A} a.

(** [authenticateApiKey].  [header] is [req.headers["x-api-key"]]; the two
    readings of the clock are [now], in the expiry check, and [usedAt], in
    the update of [lastUsedAt]. *)
Definition authenticateApiKey (sha256 : string -> string) (now usedAt : Z)
    (header : option string) : Store -> Step ApiKeyInfo.t * Store :=
  fun st =>
    if restApiRouter.missing header
    then (Answered (restApiRouter.failure 401 "UNAUTHORIZED"
                      "Missing X-API-Key header"), st)
    else
      let keyHash := hashApiKey sha256 (default EmptyString header) in
      match List.find (fun k => bool_decide (ApiKey.keyHash k = keyHash))
                      (apiKeys st) with
      | None =>
          (Answered (restApiRouter.failure 401 "UNAUTHORIZED"
                       "Invalid API key"), st)
      | Some keyRecord =>
        if ApiKey.isActive keyRecord =? 0
        then (Answered (restApiRouter.failure 401 "UNAUTHORIZED"
                          "API key is inactive"), st)
        else if match ApiKey.expiresAt keyRecord with
                | Some expiresAt => expiresAt <? now
                | None => false
                end
        then (Answered (restApiRouter.failure 401 "UNAUTHORIZED"
                          "API key has expired"), st)
        else
          (Next (ApiKeyInfo.mk (ApiKey.id keyRecord) (ApiKey.name keyRecord)
                   (ApiKey.permissions keyRecord)),
           set_apiKeys
             (map (fun k => if ApiKey.id k =? ApiKey.id keyRecord
                            then ApiKey.set_lastUsedAt usedAt k else k))
             st)
      end.

(** [req.apiKey?.permissions === "read"] *)
Definition requireWritePermission (apiKey : option ApiKeyInfo.t) : Step unit :=
  match ApiKeyInfo.permissions <$> apiKey with
  | Some read =>
      Answered (restApiRouter.failure 403 "FORBIDDEN"
                  "API key lacks write permission")
  | _ => Next tt
  end.

(** [req.apiKey?.permissions !== "admin"] *)
Definition requireAdminPermission (apiKey : option ApiKeyInfo.t) : Step unit :=
  match ApiKeyInfo.permissions <$> apiKey with
  | Some admin => Next tt
  | _ =>
      Answered (restApiRouter.failure 403 "FORBIDDEN"
                  "API key lacks admin permission")
  end.

(** A route registered without a middleware of its own. *)
Definition unguarded (apiKey : option ApiKeyInfo.t) : Step unit := Next tt.

(** What a request gets: the answer of a middleware, or that of the
    handler. *)
Inductive Served (R : Type) :=
  | Refused (response : restApiRouter.Response)
  | Handled (response : R).
Arguments Refused {R} response.
Arguments Handled {R} response.

(** A route of [restApiRouter]: [restApiRouter.use(authenticateApiKey)],
    then the middleware of the route, then its handler. *)
Definition route {R} (sha256 : string -> string) (now usedAt : Z)
    (gate : option ApiKeyInfo.t -> Step unit) (handler : Store -> R * Store)
    (header : option string) : Store -> Served R * Store :=
  fun st =>
    match authenticateApiKey sha256 now usedAt header st with
    | (Answered response, st') => (Refused response, st')
    | (Next info, st') =>
        match gate (Some info) with
        | Answered response => (Refused response, st')
        | Next _ =>
            let (response, st'') := handler st' in
            (Handled response, st'')
        end
    end.

(** A handler that works on the posting tables. *)
Definition posting {R} (handler : Db -> R * Db) : Store -> R * Store :=
  fun st =>
    let (response, db') := handler (core st) in
    (response, set_core (fun _ => db') st).

(** [DELETE /api-keys/:id], the handler: the key is switched off, and the
    answer is the same whether or not a key has the id ([id] is the value of
    [parseInt(req.params.id)]). *)
Definition revoke (id : Z) : Store -> restApiRouter.Response * Store :=
  fun st =>
    (restApiRouter.mkResponse 200
       (restApiRouter.Success restApiRouter.NoData
          (Some "API key revoked successfully")),
     set_apiKeys
       (map (fun k => if ApiKey.id k =? id then ApiKey.set_isActive 0 k else k))
       st).

(** [DELETE /customers/:id], the handler. *)
Definition delete_customer (id : Z) : Store -> restApiRouter.Response * Store :=
  fun st =>
    match deleteCustomer id st with
    | (Ok _, st') =>
        (restApiRouter.mkResponse 200
           (restApiRouter.Success restApiRouter.NoData
              (Some "Customer deleted successfully")), st')
    | (Throw _, st') =>
        (restApiRouter.failure 500 "INTERNAL_ERROR" "Failed to delete customer",
         st')
    end.

(** The routes as they are registered on [restApiRouter]. *)
Module routes.

Definition post_transactions_deposit sha256 now usedAt env body :=
  route sha256 now usedAt requireWritePermission
    (posting (restApi.post_transactions_deposit env body)).

Definition post_transactions_withdrawal sha256 now usedAt env body :=
  route sha256 now usedAt requireWritePermission
    (posting (restApi.post_transactions_withdrawal env body)).

Definition post_transactions_transfer sha256 now usedAt env1 env2 body :=
  route sha256 now usedAt requireWritePermission
    (posting (restApiRouter.post_transactions_transfer env1 env2 body)).

Definition put_accounts_status sha256 now usedAt id body :=
  route sha256 now usedAt requireWritePermission
    (posting (restApiRouter.put_accounts_status id body)).

Definition post_instapay_callback sha256 now usedAt env body :=
  route sha256 now usedAt unguarded
    (posting (restApiRouter.post_instapay_callback env body)).

Definition delete_customers sha256 now usedAt id :=
  route sha256 now usedAt requireAdminPermission (delete_customer id).

Definition delete_api_keys sha256 now usedAt id :=
  route sha256 now usedAt requireAdminPermission (revoke id).

End routes.

(** *** [server/db.ts]: the total on the dashboard *)

(** [SUM(balance)] over the rows with [status = 'active']; the sum of a
    DECIMAL column is exact. *)
Definition sumActive (rows : list Account.t) : decimal :=
  foldr Z.add 0
    (map Account.balance
       (List.filter (fun a => bool_decide (Account.status a = active)) rows)).

(** [getDashboardStats], the field [totalBalance]:
    [COALESCE(SUM(balance), 0)] over the active accounts. *)
Definition totalBalance (db : Db) : decimal := sumActive (accounts db).

(** ** The callbacks of a server without its database

    [getDb()] returns [null] when [DATABASE_URL] is not set or the connection
    could not be set up; [updateInstapayTransactionStatus] then returns
    [null] at once.  Here [database] says whether [getDb()] gives a handle:
    with a handle the functions are those above. *)

Module getDb.

(** [const db = await getDb(); if (!db) return null;] and then the body. *)
Definition updateInstapayTransactionStatus (database : bool) (env : Env)
    (referenceNumber : string) (status : InstapayStatus)
    (switchReferenceNumber statusMessage : option string)
    : M (option InstapayTransaction.t) :=
  if database
  then updateInstapayTransactionStatus env referenceNumber status
         switchReferenceNumber statusMessage
  else mret None.

(** [switch.instapayCallback] *)
Definition instapayCallback (database : bool) (env : Env) (driver : string)
    (input : switch.CallbackInput.t) : M switch.CallbackOutput.t :=
  zod (min1 (switch.CallbackInput.referenceNumber input)
            "Reference number is required");;
  tryCatch
    (updated ← updateInstapayTransactionStatus database env
       (switch.CallbackInput.referenceNumber input)
       (switch.CallbackInput.status input)
       (switch.CallbackInput.switchReferenceNumber input)
       (switch.CallbackInput.message input);
     match updated with
     | None => throw (TRPCError "NOT_FOUND" "Transaction not found")
     | Some updatedTx =>
         mret (switch.CallbackOutput.mk
           (InstapayTransaction.referenceNumber updatedTx)
           (InstapayTransaction.status updatedTx)
           ("Transaction status updated to "
            +:+ switch.status_name (InstapayTransaction.status updatedTx)))
     end)
    (rethrow driver).

(** [POST /instapay/callback], the handler. *)
Definition post_instapay_callback (database : bool) (env : Env)
    (body : restApiRouter.CallbackBody.t)
    : Db -> restApiRouter.Response * Db :=
  restApiRouter.handle
    (if restApiRouter.missing (restApiRouter.CallbackBody.referenceNumber body)
        || restApiRouter.missing (restApiRouter.CallbackBody.status body)
     then mret (restApiRouter.failure 400 "VALIDATION_ERROR"
            "Reference number and status are required")
     else
       let referenceNumber :=
         default EmptyString (restApiRouter.CallbackBody.referenceNumber body) in
       match restApiRouter.instapay_status
               (default EmptyString (restApiRouter.CallbackBody.status body)) with
       | None => mret (restApiRouter.failure 400 "VALIDATION_ERROR"
                   "Invalid status. Must be SUCCESS, FAILED, or PENDING")
       | Some status =>
           result ← updateInstapayTransactionStatus database env
             referenceNumber status
             (restApiRouter.CallbackBody.switchReferenceNumber body)
             (restApiRouter.CallbackBody.message body);
           match result with
           | None =>
               mret (restApiRouter.failure 404 "NOT_FOUND"
                       "Instapay transaction not found")
           | Some result =>
               mret (restApiRouter.mkResponse 200 (restApiRouter.Success
                 (restApiRouter.Acknowledged referenceNumber
                    (InstapayTransaction.status result))
                 None))
           end
       end)
    "Failed to process callback".

End getDb.

(** ** Vocabulary for the properties of this part *)

(** The row update of [updateAccountStatus]. *)
Definition mark (accountId : Z) (status : AccountStatus) (a : Account.t)
    : Account.t :=
  if Account.id a =? accountId then set_account_status status a else a.

(** The primary key of [accounts]. *)
Definition accountIdsUnique (db : Db) : Prop :=
  NoDup (map Account.id (accounts db)).

(** What [POST /transactions/transfer] passes to [createTransaction]. *)
Definition restSenderData (body : restApiRouter.TransferBody.t)
    (amount : decimal) (sourceAccount destAccount : Account.t)
    : CreateTransactionData.t :=
  CreateTransactionData.mk (Account.id sourceAccount) INTERNAL_TRANSFER
    (- toFixed2 (parseFloat amount))
    (toFixed2 (Number.sub (parseFloat (Account.balance sourceAccount))
                          (parseFloat amount)))
    (Some (Account.id destAccount))
    (Some (Account.accountNumber destAccount))
    (Some (js_or_default (restApiRouter.TransferBody.description body)
             ("Transfer to " +:+ Account.accountNumber destAccount))).

Definition restReceiverData (body : restApiRouter.TransferBody.t)
    (amount : decimal) (sourceAccount destAccount : Account.t)
    : CreateTransactionData.t :=
  CreateTransactionData.mk (Account.id destAccount) INTERNAL_TRANSFER
    (toFixed2 (parseFloat amount))
    (toFixed2 (Number.add (parseFloat (Account.balance destAccount))
                          (parseFloat amount)))
    (Some (Account.id sourceAccount))
    (Some (Account.accountNumber sourceAccount))
    (Some (js_or_default (restApiRouter.TransferBody.description body)
             ("Transfer from " +:+ Account.accountNumber sourceAccount))).

(** The two balance updates of a transfer of [amount]. *)
Definition moved (amount : decimal) (sourceAccount destAccount : Account.t)
    (db : Db) : Db :=
  set_accounts
    (map (post (Account.id destAccount)
            (toFixed2 (Number.add (parseFloat (Account.balance destAccount))
                                  (parseFloat amount)))))
    (set_accounts
       (map (post (Account.id sourceAccount)
               (toFixed2 (Number.sub
                  (parseFloat (Account.balance sourceAccount))
                  (parseFloat amount)))))
       db).

(** ** More sample data *)

(** The two sample accounts, holding 1000.00 and 50.00. *)
Definition db_two_accounts : Db :=
  mkDb [sample_account 100000 active; second_account 5000] [] ∅ [].

(** A transfer of 300.00 from the first sample account to the second. *)
Definition sample_transfer : restApiRouter.TransferBody.t :=
  restApiRouter.TransferBody.mk (Some "0011234567") (Some "0027654321")
    (Some 30000) None.

(** A deposit or withdrawal of 300.00 on the first sample account. *)
Definition sample_posting : restApi.Body.t :=
  restApi.Body.mk (Some "0011234567") (Some 30000) None.

(** A callback from the switch on the sample transfer. *)
Definition sample_callback (status : string) : restApiRouter.CallbackBody.t :=
  restApiRouter.CallbackBody.mk (Some "TXN20260115000001") (Some status)
    (Some "SW-0001") None.


(** Every account belongs to a customer on file. *)
Definition everyAccountOwned (st : Store) : Prop :=
  forall a, In a (accounts (core st)) ->
    exists c, In c (customers st) /\ Customer.id c = Account.customerId a.

(** The update of [revoke] and the one of [authenticateApiKey]. *)
Definition switchOff (id : Z) (k : ApiKey.t) : ApiKey.t :=
  if ApiKey.id k =? id then ApiKey.set_isActive 0 k else k.

Definition touch (id usedAt : Z) (k : ApiKey.t) : ApiKey.t :=
  if ApiKey.id k =? id then ApiKey.set_lastUsedAt usedAt k else k.

(** A sample store: the first sample account of customer 1, customers 1 and
    2, and one API key of each permission; the digest is the sample's own
    stand-in, which leaves a key as it is. *)
Definition sample_digest (key : string) : string := key.

Definition sample_key (id : Z) (key : string) (permissions : Permissions)
    : ApiKey.t :=
  ApiKey.mk id key "sb_" "integration" None permissions 1 None None None.

Definition sample_store : Store :=
  mkStore (db_account 70000 active)
    [Customer.mk 1 "Juan Dela Cruz"; Customer.mk 2 "Maria Clara"]
    [sample_key 1 "sb_reader" read; sample_key 2 "sb_writer" write;
     sample_key 3 "sb_admin" admin].

(** The UNIQUE constraint of [accounts.accountNumber]. *)
Definition accountNumbersUnique (db : Db) : Prop :=
  NoDup (map Account.accountNumber (accounts db)).

(** The two refusals of the permission middleware. *)
Definition needsWrite {R} : Served R :=
  Refused (restApiRouter.failure 403 "FORBIDDEN"
             "API key lacks write permission").

Definition needsAdmin {R} : Served R :=
  Refused (restApiRouter.failure 403 "FORBIDDEN"
             "API key lacks admin permission").

(** Thirty-two bytes from the random source. *)
Definition sample_bytes : list Byte.byte := List.repeat Byte.xab 32.


(** ** Proof automation *)

(** Unfolds the monad of the asynchronous functions. *)
Ltac run :=
  cbv [mbind M_bind mret M_ret gets modify throw
       insertTransaction insertInstapayTransaction
       getAccountById getAccountByNumber getInstapayTransactionByReference];
  cbn [negb andb orb].

(** * Properties *)

(** ** Rounding to binary64 *)

Section NumberFacts.

Import Number.

Lemma rne_div_err p q :
  0 < q -> - q <= 2 * (rne_div p q * q - p) <= q.
Proof.
  intros Hq. unfold rne_div.
  pose proof (Z.div_mod p q ltac:(lia)) as Hdm.
  pose proof (Z.mod_pos_bound p q Hq) as Hm.
  destruct (Z.compare_spec (2 * (p mod q)) q) as [He|He|He].
  - destruct (Z.even (p / q)); nia.
  - nia.
  - nia.
Qed.

Lemma round64_exponent v k :
  0 <= v < 2 ^ k -> 53 <= k -> 0 <= Z.max (Z.log2 v - 52) 0 <= k - 53.
Proof.
  intros [Hv0 Hv] Hk. split; [lia|].
  destruct (Z.eq_dec v 0) as [->|Hne].
  - simpl. lia.
  - assert (Z.log2 v < k) by (apply Z.log2_lt_pow2; lia). lia.
Qed.

Lemma round64_err p q k :
  0 < q -> 53 <= k -> Z.abs p < q * 2 ^ k ->
  - (q * 2 ^ (k - 53)) <= 2 * (round64 p q * q - p) <= q * 2 ^ (k - 53).
Proof.
  intros Hq Hk Hp. unfold round64.
  set (v := Z.abs p / q).
  assert (Hv : 0 <= v < 2 ^ k).
  { split; [apply Z.div_pos; lia|].
    apply Z.div_lt_upper_bound; lia. }
  pose proof (round64_exponent v k Hv Hk) as He.
  set (e := Z.max (Z.log2 v - 52) 0) in *.
  assert (Hpe : 0 < 2 ^ e) by (apply Z.pow_pos_nonneg; lia).
  assert (Hmono : 2 ^ e <= 2 ^ (k - 53)) by (apply Z.pow_le_mono_r; lia).
  pose proof (rne_div_err p (q * 2 ^ e) ltac:(nia)) as Hr.
  set (m := rne_div p (q * 2 ^ e)) in *.
  assert (q * 2 ^ e <= q * 2 ^ (k - 53)) by nia.
  replace (m * 2 ^ e * q) with (m * (q * 2 ^ e)) by ring.
  lia.
Qed.

(** The sign of a rounded quotient is the sign of its numerator. *)
Lemma round64_pos p q : 0 < q -> q <= p -> 0 < round64 p q.
Proof.
  intros Hq Hp. unfold round64.
  rewrite (Z.abs_eq p) by lia.
  set (v := p / q).
  assert (Hv : 1 <= v) by (apply Z.div_le_lower_bound; lia).
  set (e := Z.max (Z.log2 v - 52) 0).
  assert (He : 0 <= e <= Z.log2 v) by (pose proof (Z.log2_nonneg v); lia).
  assert (Hpe : 0 < 2 ^ e) by (apply Z.pow_pos_nonneg; lia).
  assert (Hve : 2 ^ e <= v).
  { transitivity (2 ^ Z.log2 v).
    - apply Z.pow_le_mono_r; lia.
    - apply Z.log2_spec; lia. }
  assert (Hge : q * 2 ^ e <= p).
  { pose proof (Z.mul_div_le p q Hq). fold v in H. nia. }
  assert (1 <= p / (q * 2 ^ e)) by (apply Z.div_le_lower_bound; nia).
  assert (1 <= rne_div p (q * 2 ^ e)).
  { unfold rne_div. destruct (_ ?= _); [destruct (Z.even _)|..]; lia. }
  nia.
Qed.

Lemma round64_nonpos p q : 0 < q -> p <= 0 -> round64 p q <= 0.
Proof.
  intros Hq Hp. unfold round64.
  set (e := Z.max _ 0).
  assert (Hpe : 0 < 2 ^ e) by (apply Z.pow_pos_nonneg; lia).
  assert (HQ : 0 < q * 2 ^ e) by nia.
  assert (rne_div p (q * 2 ^ e) <= 0); [|nia].
  unfold rne_div.
  pose proof (Z.div_mod p (q * 2 ^ e) ltac:(lia)) as Hdm.
  pose proof (Z.mod_pos_bound p (q * 2 ^ e) HQ) as Hm.
  assert (p / (q * 2 ^ e) <= 0) by nia.
  destruct (Z.compare_spec (2 * (p mod (q * 2 ^ e))) (q * 2 ^ e));
    [destruct (Z.even _)|..]; nia.
Qed.

Lemma scale_tick : scale = 512 * tick.
Proof. reflexivity. Qed.

Lemma tick_pos : 0 < tick.
Proof. reflexivity. Qed.

End NumberFacts.

(** ** Exact results in the exact range *)

Section Exactness.

Import Number.

Lemma parseFloat_pos d : 0 < d -> 0 < parseFloat d.
Proof.
  intros Hd. unfold parseFloat. apply round64_pos; [lia|].
  pose proof scale_tick. pose proof tick_pos. nia.
Qed.

Lemma parseFloat_nonpos d : d <= 0 -> parseFloat d <= 0.
Proof.
  intros Hd. unfold parseFloat. apply round64_nonpos; [lia|].
  pose proof scale_tick. pose proof tick_pos. nia.
Qed.

(** Below [10^15] cents [parseFloat] is off by at most [2^-10]. *)
Lemma parseFloat_err d :
  - 10 ^ 15 < d < 10 ^ 15 ->
  - (50 * tick) <= 100 * parseFloat d - d * scale <= 50 * tick.
Proof.
  intros Hd. unfold parseFloat.
  pose proof (round64_err (d * scale) 100 1118 ltac:(lia) ltac:(lia)) as H.
  replace (2 ^ (1118 - 53)) with tick in H by reflexivity.
  replace (2 ^ 1118) with (17592186044416 * scale) in H by reflexivity.
  pose proof scale_tick as Hs. pose proof tick_pos as Ht.
  assert (Hlt : Z.abs (d * scale) < 100 * (17592186044416 * scale)).
  { rewrite Z.abs_mul, (Z.abs_eq scale) by lia. nia. }
  specialize (H Hlt). lia.
Qed.

(** Sums and differences below [2^45] are off by at most [2^-9]. *)
Lemma round_sum_err x :
  Z.abs x < 35184372088832 * scale ->
  - tick <= round64 x 1 - x <= tick.
Proof.
  intros Hx.
  pose proof (round64_err x 1 1119 ltac:(lia) ltac:(lia)) as H.
  replace (2 ^ (1119 - 53)) with (2 * tick) in H by reflexivity.
  replace (2 ^ 1119) with (35184372088832 * scale) in H by reflexivity.
  specialize (H ltac:(lia)). lia.
Qed.

Lemma toFixed2_near x n :
  - (256 * tick) < 100 * x - n * scale < 256 * tick -> toFixed2 x = n.
Proof.
  intros Hx. unfold toFixed2.
  pose proof scale_tick as Hs. pose proof tick_pos as Ht.
  replace (scale / 2) with (256 * tick) by reflexivity.
  destruct (Z.leb_spec 0 x).
  - symmetry. apply (Z.div_unique _ _ _ (100 * x + 256 * tick - n * scale)); lia.
  - enough ((100 * - x + 256 * tick) / scale = - n) by lia.
    symmetry.
    apply (Z.div_unique _ _ _ (100 * - x + 256 * tick + n * scale)); lia.
Qed.

Lemma toFixed2_parseFloat d :
  - 10 ^ 15 < d < 10 ^ 15 -> toFixed2 (parseFloat d) = d.
Proof.
  intros Hd. apply toFixed2_near.
  pose proof (parseFloat_err d Hd). pose proof tick_pos. lia.
Qed.

Lemma toFixed2_neg_parseFloat d :
  - 10 ^ 15 < d < 10 ^ 15 -> toFixed2 (neg (parseFloat d)) = - d.
Proof.
  intros Hd. apply toFixed2_near. unfold neg.
  pose proof (parseFloat_err d Hd). pose proof tick_pos. lia.
Qed.

Lemma toFixed2_add b a :
  exact_range b -> exact_range a ->
  toFixed2 (add (parseFloat b) (parseFloat a)) = b + a.
Proof.
  unfold exact_range. intros Hb Ha. apply toFixed2_near. unfold add.
  pose proof (parseFloat_err b ltac:(lia)) as Eb.
  pose proof (parseFloat_err a ltac:(lia)) as Ea.
  pose proof scale_tick as Hs. pose proof tick_pos as Ht.
  pose proof (round_sum_err (parseFloat b + parseFloat a)) as Er.
  assert (Z.abs (parseFloat b + parseFloat a) < 35184372088832 * scale) by nia.
  specialize (Er ltac:(assumption)). nia.
Qed.

Lemma toFixed2_sub b a :
  exact_range b -> exact_range a ->
  toFixed2 (sub (parseFloat b) (parseFloat a)) = b - a.
Proof.
  unfold exact_range. intros Hb Ha. apply toFixed2_near. unfold sub.
  pose proof (parseFloat_err b ltac:(lia)) as Eb.
  pose proof (parseFloat_err a ltac:(lia)) as Ea.
  pose proof scale_tick as Hs. pose proof tick_pos as Ht.
  pose proof (round_sum_err (parseFloat b - parseFloat a)) as Er.
  assert (Z.abs (parseFloat b - parseFloat a) < 35184372088832 * scale) by nia.
  specialize (Er ltac:(assumption)). nia.
Qed.

(** In the exact range [parseFloat] preserves the order of amounts. *)
Lemma parseFloat_lt b a :
  exact_range b -> exact_range a -> (parseFloat b < parseFloat a <-> b < a).
Proof.
  unfold exact_range. intros Hb Ha.
  pose proof (parseFloat_err b ltac:(lia)) as Eb.
  pose proof (parseFloat_err a ltac:(lia)) as Ea.
  pose proof scale_tick as Hs. pose proof tick_pos as Ht.
  split; intros H.
  - destruct (Z.lt_ge_cases b a) as [|Hge]; [done|].
    destruct (Z.eq_dec a b) as [->|]; [lia|].
    assert (a + 1 <= b) by lia. nia.
  - assert (b + 1 <= a) by lia. nia.
Qed.

End Exactness.

(** ** The number model against the Standard Library's IEEE 754

    [Stdlib.Floats.SpecFloat] specifies the binary64 operations on mantissa
    and exponent.  On the amounts used in the examples and counterexamples
    below, [parseFloat], [Number.add] and [Number.sub] return what that
    specification returns. *)

Section NumberValidation.

Example parseFloat_agrees :
  forallb (fun d => parseFloat d =? of_spec (spec_of_decimal d))
    [0; 1; 10; 20; 100; 30000; 60000; 70000; 100000; 5000000;
     12345678901234567; 10000000000000001; 10000000000000002;
     900719925474099200; 900719925474099300] = true.
Proof. vm_compute. reflexivity. Qed.

Example add_agrees :
  forallb (fun '(b, a) =>
             Number.add (parseFloat b) (parseFloat a)
             =? of_spec (SpecFloat.SFadd 53 1024 (spec_of_decimal b)
                                         (spec_of_decimal a)))
    [(10, 20); (0, 100000); (10000, 60000); (12345678901234567, 1);
     (900719925474099200, 100); (900719925474099100, 100)] = true.
Proof. vm_compute. reflexivity. Qed.

Example sub_agrees :
  forallb (fun '(b, a) =>
             Number.sub (parseFloat b) (parseFloat a)
             =? of_spec (SpecFloat.SFsub 53 1024 (spec_of_decimal b)
                                         (spec_of_decimal a)))
    [(100000, 30000); (70000, 60000); (900719925474099300, 100);
     (10000000000000001, 10000000000000002)] = true.
Proof. vm_compute. reflexivity. Qed.

(** [0.1 + 0.2] is [0.30000000000000004], that is [5404319552844596 * 2^-54],
    and prints as ["0.30"]. *)
Example one_tenth_plus_two_tenths :
  Number.add (parseFloat 10) (parseFloat 20)
  = 5404319552844596 * 2 ^ (1074 - 54)
  /\ toFixed2 (Number.add (parseFloat 10) (parseFloat 20)) = 30.
Proof. vm_compute. split; reflexivity. Qed.

End NumberValidation.

(** ** Reference numbers *)

Section References.

Lemma strip_zeros_repeat n s :
  strip_zeros (repeat_char n "0" +:+ s) = strip_zeros s.
Proof. induction n as [|n IH]; simpl; done. Qed.

Lemma pretty_N_go_head (x : N) s :
  (0 < x)%N -> exists c r, pretty_N_go x s = String c r /\ c <> "0"%char.
Proof.
  revert s. induction (N.lt_wf_0 x) as [x _ IH]. intros s Hx.
  rewrite pretty_N_go_step by done.
  destruct (decide (x < 10)%N) as [Hlt|Hge].
  - rewrite N.div_small, pretty_N_go_0 by done.
    rewrite N.mod_small by done.
    eexists _, _. split; [done|].
    assert (x = 1 \/ x = 2 \/ x = 3 \/ x = 4 \/ x = 5 \/ x = 6
            \/ x = 7 \/ x = 8 \/ x = 9)%N as Hc by lia.
    destruct Hc as [->|[->|[->|[->|[->|[->|[->|[->| ->]]]]]]]]; done.
  - apply IH.
    + apply N.div_lt; lia.
    + apply N.div_str_pos; lia.
Qed.

Lemma pretty_Z_head (z : Z) :
  z <> 0 -> exists c r, pretty z = String c r /\ c <> "0"%char.
Proof.
  destruct z as [|p|p]; intros Hz; [done|..].
  - unfold pretty, pretty_Z, pretty, pretty_positive, pretty, pretty_N.
    rewrite decide_False by done. apply pretty_N_go_head. lia.
  - unfold pretty, pretty_Z. simpl. eexists _, _. split; done.
Qed.

Lemma strip_zeros_pretty (z : Z) :
  strip_zeros (pretty z) = if decide (z = 0) then EmptyString else pretty z.
Proof.
  destruct (decide (z = 0)) as [->|Hz]; [done|].
  destruct (pretty_Z_head z Hz) as (c & r & -> & Hc).
  simpl. by rewrite decide_False.
Qed.

Lemma padStart_pretty_inj n (a b : Z) :
  padStart n "0" (pretty a) = padStart n "0" (pretty b) -> a = b.
Proof.
  unfold padStart. intros H.
  apply (f_equal strip_zeros) in H.
  rewrite !strip_zeros_repeat, !strip_zeros_pretty in H.
  destruct (decide (a = 0)) as [->|Ha], (decide (b = 0)) as [->|Hb]; [done|..].
  - destruct (pretty_Z_head b Hb) as (c & r & Hp & _). congruence.
  - destruct (pretty_Z_head a Ha) as (c & r & Hp & _). congruence.
  - by apply (inj pretty).
Qed.

Lemma reference_inj dateStr (a b : Z) :
  reference dateStr a = reference dateStr b -> a = b.
Proof.
  unfold reference. intros H.
  apply (inj (String.app "TXN")), (inj (String.app dateStr)) in H.
  by apply padStart_pretty_inj in H.
Qed.

(** Two strings with equal-length prefixes agree only if the prefixes do. *)
Lemma app_eq_length (s1 s2 t1 t2 : string) :
  String.length s1 = String.length s2 ->
  s1 +:+ t1 = s2 +:+ t2 -> s1 = s2 /\ t1 = t2.
Proof.
  revert s2. induction s1 as [|c s1 IH]; intros [|c' s2]; simpl; try done.
  intros [= Hl] [= -> H]. destruct (IH _ Hl H) as [-> ->]. done.
Qed.

Lemma reference_inj_date d1 d2 (a b : Z) :
  String.length d1 = String.length d2 ->
  reference d1 a = reference d2 b -> d1 = d2 /\ a = b.
Proof.
  unfold reference. intros Hl H.
  apply (inj (String.app "TXN")) in H.
  destruct (app_eq_length _ _ _ _ Hl H) as [-> H'].
  split; [done|]. by apply padStart_pretty_inj in H'.
Qed.

Lemma generateTransactionReference_ok env db :
  sequenceWritable env = true ->
  generateTransactionReference env db =
    (Ok (reference (today env) (lastSequence db (today env) + 1)),
     set_transactionSequence
       <[today env := lastSequence db (today env) + 1]> db).
Proof.
  intros Hw. unfold generateTransactionReference, lastSequence. run.
  rewrite Hw. destruct (transactionSequence db !! today env); done.
Qed.

Lemma generateTransactionReference_fails env db :
  sequenceWritable env = false ->
  generateTransactionReference env db = (Throw StoreError, db).
Proof.
  intros Hw. unfold generateTransactionReference. run.
  rewrite Hw. destruct (transactionSequence db !! today env); done.
Qed.

Lemma lastSequence_set db d n :
  lastSequence (set_transactionSequence <[d := n]> db) d = n.
Proof. unfold lastSequence. simpl. by rewrite lookup_insert_eq. Qed.

End References.

(** ** The shape of a reference number *)

Section ReferenceShape.

Lemma all_digits_app s1 s2 :
  all_digits (s1 +:+ s2) = all_digits s1 && all_digits s2.
Proof.
  induction s1 as [|c s1 IH]; simpl; [done|].
  by rewrite IH, andb_assoc.
Qed.

Lemma pretty_N_char_digit x : is_digit (pretty_N_char x) = true.
Proof. unfold pretty_N_char. by repeat case_match. Qed.

Lemma pretty_N_go_digits (x : N) s :
  all_digits s = true -> all_digits (pretty_N_go x s) = true.
Proof.
  revert s. induction (N.lt_wf_0 x) as [x _ IH]. intros s Hs.
  destruct (decide (x = 0)%N) as [->|Hx]; [by rewrite pretty_N_go_0|].
  rewrite pretty_N_go_step by lia. apply IH.
  - apply N.div_lt; lia.
  - simpl. by rewrite pretty_N_char_digit.
Qed.

Lemma pretty_N_go_length (k : nat) (x : N) s :
  (x < 10 ^ N.of_nat k)%N ->
  (String.length (pretty_N_go x s) <= String.length s + k)%nat.
Proof.
  revert x s. induction k as [|k IH]; intros x s Hx.
  - assert (x = 0%N) as -> by (simpl in Hx; lia).
    rewrite pretty_N_go_0. lia.
  - destruct (decide (x = 0)%N) as [->|Hne]; [rewrite pretty_N_go_0; lia|].
    rewrite pretty_N_go_step by lia.
    etransitivity; [apply IH|simpl; lia].
    apply N.Div0.div_lt_upper_bound.
    rewrite Nat2N.inj_succ, N.pow_succ_r' in Hx. lia.
Qed.

Lemma pretty_Z_digits (k : nat) (z : Z) :
  0 <= z < 10 ^ Z.of_nat (S k) ->
  all_digits (pretty z) = true /\ (String.length (pretty z) <= S k)%nat.
Proof.
  intros Hz. destruct z as [|p|p]; [simpl; split; [done|lia]| |lia].
  unfold pretty, pretty_Z, pretty, pretty_positive, pretty, pretty_N.
  rewrite decide_False by done. split.
  - by apply pretty_N_go_digits.
  - apply (pretty_N_go_length (S k) (N.pos p) EmptyString).
    apply N2Z.inj_lt. rewrite N2Z.inj_pow, nat_N_Z. simpl (Z.of_N 10). lia.
Qed.

Lemma length_app (s1 s2 : string) :
  String.length (s1 +:+ s2) = (String.length s1 + String.length s2)%nat.
Proof. induction s1 as [|c s1 IH]; simpl; [done|by rewrite IH]. Qed.

Lemma repeat_char_length n c : String.length (repeat_char n c) = n.
Proof. induction n; simpl; congruence. Qed.

Lemma repeat_char_digits n : all_digits (repeat_char n "0") = true.
Proof. induction n; simpl; done. Qed.

Lemma padStart_shape (z : Z) :
  0 <= z < 10 ^ 6 ->
  String.length (padStart 6 "0" (pretty z)) = 6%nat
  /\ all_digits (padStart 6 "0" (pretty z)) = true.
Proof.
  intros Hz. destruct (pretty_Z_digits 5 z Hz) as [Hd Hl].
  unfold padStart. split.
  - rewrite length_app, repeat_char_length. lia.
  - by rewrite all_digits_app, repeat_char_digits, Hd.
Qed.

(** [TXN] followed by fourteen digits, as long as fewer than a million
    references are issued on the date. *)
Lemma reference_shape dateStr (sequence : Z) :
  String.length dateStr = 8%nat -> all_digits dateStr = true ->
  0 <= sequence < 10 ^ 6 ->
  exists digits, reference dateStr sequence = "TXN" +:+ digits
    /\ String.length digits = 14%nat /\ all_digits digits = true.
Proof.
  intros Hl Hd Hs. destruct (padStart_shape sequence Hs) as [Hpl Hpd].
  exists (dateStr +:+ padStart 6 "0" (pretty sequence)). split; [done|].
  rewrite length_app, all_digits_app, Hl, Hpl, Hd, Hpd. done.
Qed.

End ReferenceShape.

Lemma generateMany_ok env m : forall db,
  sequenceWritable env = true ->
  exists db',
    generateMany env m db =
      (Ok (map (fun k => reference (today env)
                           (lastSequence db (today env) + Z.of_nat k))
               (seq 1 m)), db')
    /\ lastSequence db' (today env) = lastSequence db (today env) + Z.of_nat m.
Proof.
  induction m as [|m IH]; intros db Hw.
  - exists db. split; [done|]. lia.
  - simpl generateMany. run.
    rewrite generateTransactionReference_ok by done.
    destruct (IH (set_transactionSequence
                    <[today env := lastSequence db (today env) + 1]> db) Hw)
      as (db' & Hrun & Hlast).
    rewrite lastSequence_set in Hrun, Hlast.
    exists db'. split.
    + rewrite Hrun. do 2 f_equal. simpl. f_equal.
      rewrite <- (seq_shift m 1), map_map.
      apply map_ext. intros k. f_equal. lia.
    + rewrite Hlast. lia.
Qed.

Global Instance reference_Inj dateStr : Inj (=) (=) (reference dateStr).
Proof. intros a b. apply reference_inj. Qed.

(** C7 as stated fails from the millionth reference of a date on:
    [padStart(6, "0")] pads and never cuts, so after 999999 references the
    next one carries a sequence number of seven digits. *)
Lemma C7_millionth_reference :
  let db := mkDb [] [] {["20260115" := 999999]} [] in
  fst (generateMany env_20260115 1 db) = Ok ["TXN202601151000000"]
  /\ ~ (exists digits, "TXN202601151000000" = "TXN" +:+ digits
          /\ String.length digits = 14%nat /\ all_digits digits = true).
Proof.
  split; [by vm_compute|].
  intros (digits & Heq & Hlen & _). vm_compute in Heq.
  injection Heq as Heq. subst digits. discriminate Hlen.
Qed.

(** C7, amended.  Generating [m] reference numbers in turn on one date
    yields [m] distinct values; the [k]-th is [TXN], the date and the
    sequence number [lastSequence + k] padded with zeros to six digits, so
    the sequence numbers increase strictly, and they start at [000001] when
    the date has no counter row.  With an eight-digit date and fewer than a
    million references on it, each value is [TXN] followed by fourteen
    digits. *)
Theorem C7_reference_numbers env db m :
  sequenceWritable env = true ->
  let dateStr := today env in
  let s0 := lastSequence db dateStr in
  let sequences := map (fun k => s0 + Z.of_nat k) (seq 1 m) in
  exists db',
    generateMany env m db = (Ok (map (reference dateStr) sequences), db')
    /\ length (map (reference dateStr) sequences) = m
    /\ NoDup (map (reference dateStr) sequences)
    /\ (forall i j a b, (i < j)%nat ->
         sequences !! i = Some a -> sequences !! j = Some b -> a < b)
    /\ (transactionSequence db !! dateStr = None ->
         s0 = 0 /\ reference dateStr (s0 + 1) = "TXN" +:+ dateStr +:+ "000001")
    /\ (String.length dateStr = 8%nat -> all_digits dateStr = true ->
        0 <= s0 -> s0 + Z.of_nat m < 10 ^ 6 ->
        Forall (fun r => exists digits, r = "TXN" +:+ digits
                  /\ String.length digits = 14%nat /\ all_digits digits = true)
               (map (reference dateStr) sequences)).
Proof.
  intros Hw dateStr s0 sequences.
  destruct (generateMany_ok env m db Hw) as (db' & Hrun & _).
  exists db'. split; [|split; [|split; [|split; [|split]]]].
  - rewrite Hrun. unfold sequences. by rewrite map_map.
  - unfold sequences. by rewrite !length_map, length_seq.
  - apply (NoDup_fmap_2 (reference dateStr)).
    apply (NoDup_fmap_2_strong (fun k => s0 + Z.of_nat k)); [|apply NoDup_seq].
    intros ? ? _ _ ?. lia.
  - intros i j a b Hij Ha Hb. unfold sequences in Ha, Hb.
    change (((fun k => s0 + Z.of_nat k) <$> seq 1 m) !! i = Some a) in Ha.
    change (((fun k => s0 + Z.of_nat k) <$> seq 1 m) !! j = Some b) in Hb.
    rewrite list_lookup_fmap in Ha, Hb.
    destruct (seq 1 m !! i) as [x|] eqn:Hx; [|done].
    destruct (seq 1 m !! j) as [y|] eqn:Hy; [|done].
    apply lookup_seq in Hx as [-> _]. apply lookup_seq in Hy as [-> _].
    simpl in Ha, Hb. simplify_eq. lia.
  - intros Hnone. unfold s0, lastSequence. rewrite Hnone. done.
  - intros Hl Hd Hs0 Hm. apply Forall_forall. intros r Hr.
    apply list_elem_of_In, in_map_iff in Hr as (s & <- & Hs).
    unfold sequences in Hs. apply in_map_iff in Hs as (k & <- & Hk).
    apply in_seq in Hk. apply reference_shape; [done..|lia].
Qed.

Lemma C7_reference_numbers_witness :
  exists db',
    generateMany env_20260115 3 db_empty =
      (Ok ["TXN20260115000001"; "TXN20260115000002"; "TXN20260115000003"], db').
Proof.
  destruct (C7_reference_numbers env_20260115 db_empty 3 eq_refl)
    as (db' & Hrun & _).
  exists db'. exact Hrun.
Defined.

(** ** Accounts and balances *)

Section Accounts.

Lemma updateAccountBalance_run accountId newBalance db :
  updateAccountBalance accountId newBalance db =
    (Ok tt, set_accounts (map (post accountId newBalance)) db).
Proof. reflexivity. Qed.

Lemma find_post_same accountId newBalance l :
  List.find (fun a => Account.id a =? accountId)
            (map (post accountId newBalance) l) =
  Account.set_balance newBalance
    <$> List.find (fun a => Account.id a =? accountId) l.
Proof.
  unfold post. induction l as [|a l IH]; simpl; [done|].
  destruct (Account.id a =? accountId) eqn:E; simpl; rewrite E; done.
Qed.

Lemma find_post_other accountId other newBalance l :
  accountId <> other ->
  List.find (fun a => Account.id a =? other)
            (map (post accountId newBalance) l) =
  List.find (fun a => Account.id a =? other) l.
Proof.
  intros Hne. unfold post. induction l as [|a l IH]; simpl; [done|].
  destruct (Account.id a =? accountId) eqn:E; simpl.
  - assert ((Account.id a =? other) = false) as -> by lia. done.
  - destruct (Account.id a =? other); done.
Qed.

Lemma find_id_In i l a :
  List.find (fun a => Account.id a =? i) l = Some a -> Account.id a = i.
Proof. intros H. apply find_some in H as [_ H]. lia. Qed.

Lemma find_number_In (n : string) l a :
  List.find (fun a => bool_decide (Account.accountNumber a = n)) l = Some a ->
  In a l /\ Account.accountNumber a = n.
Proof.
  intros H. apply find_some in H as [Hin H].
  by apply bool_decide_eq_true in H.
Qed.

Lemma find_id_exists i l a :
  In a l -> Account.id a = i ->
  exists a', List.find (fun a => Account.id a =? i) l = Some a'.
Proof.
  intros Hin Hid.
  destruct (List.find (fun a => Account.id a =? i) l) as [a'|] eqn:E; [eauto|].
  eapply find_none in E; [|done]. simpl in E. lia.
Qed.

Lemma balanceOf_post_same accountId newBalance db :
  balanceOf (set_accounts (map (post accountId newBalance)) db) accountId =
    (fun _ => newBalance) <$> balanceOf db accountId.
Proof.
  unfold balanceOf. simpl. rewrite find_post_same.
  destruct (List.find _ (accounts db)); done.
Qed.

Lemma balanceOf_post_other accountId other newBalance db :
  accountId <> other ->
  balanceOf (set_accounts (map (post accountId newBalance)) db) other =
    balanceOf db other.
Proof. intros Hne. unfold balanceOf. simpl. by rewrite find_post_other. Qed.

End Accounts.

(** ** What each function does, case by case *)

Section Runs.

Lemma createTransaction_run env data db :
  createTransaction env data db =
    if sequenceWritable env
    then
      if ledgerHolds db (nextReference env db)
      then (Throw DuplicateEntry, advance env db)
      else (Ok (Some (ledgerRow env db data)),
            append (ledgerRow env db data) (advance env db))
    else (Throw StoreError, db).
Proof.
  unfold createTransaction. run.
  destruct (sequenceWritable env) eqn:Hw.
  - rewrite generateTransactionReference_ok by done.
    change (ledgerHolds _ _) with (ledgerHolds db (nextReference env db)).
    destruct (ledgerHolds db (nextReference env db)); reflexivity.
  - rewrite generateTransactionReference_fails by done. reflexivity.
Qed.

Lemma amount_is_positive_iff amount :
  transaction.amount_is_positive amount = true <-> 0 < amount.
Proof.
  unfold transaction.amount_is_positive, Number.gtb, Number.of_int.
  rewrite Z.ltb_lt. simpl (0 * _). split.
  - intros H. destruct (Z.lt_ge_cases 0 amount) as [|Hle]; [done|].
    pose proof (parseFloat_nonpos amount Hle). lia.
  - apply parseFloat_pos.
Qed.

Lemma deposit_run env input db account :
  0 < transaction.Input.amount input ->
  List.find (fun a => Account.id a =? transaction.Input.accountId input)
            (accounts db) = Some account ->
  let data := depositData input account in
  let db1 := set_accounts
               (map (post (transaction.Input.accountId input)
                          (CreateTransactionData.balanceAfter data))) db in
  transaction.deposit env input db =
    if sequenceWritable env
    then
      if ledgerHolds db (nextReference env db)
      then (Throw DuplicateEntry, advance env db1)
      else (Ok (Some (ledgerRow env db1 data)),
            append (ledgerRow env db1 data) (advance env db1))
    else (Throw StoreError, db1).
Proof.
  intros Hpos Hfind. unfold transaction.deposit.
  apply amount_is_positive_iff in Hpos. rewrite Hpos. run. rewrite Hfind.
  rewrite updateAccountBalance_run, createTransaction_run. reflexivity.
Qed.

Lemma withdraw_run env input db account :
  0 < transaction.Input.amount input ->
  List.find (fun a => Account.id a =? transaction.Input.accountId input)
            (accounts db) = Some account ->
  let data := withdrawData input account in
  let db1 := set_accounts
               (map (post (transaction.Input.accountId input)
                          (CreateTransactionData.balanceAfter data))) db in
  transaction.withdraw env input db =
    if Number.gtb (parseFloat (transaction.Input.amount input))
                  (parseFloat (Account.balance account))
    then (Throw (TRPCError "BAD_REQUEST" "Insufficient balance"), db)
    else if sequenceWritable env
    then
      if ledgerHolds db (nextReference env db)
      then (Throw DuplicateEntry, advance env db1)
      else (Ok (Some (ledgerRow env db1 data)),
            append (ledgerRow env db1 data) (advance env db1))
    else (Throw StoreError, db1).
Proof.
  intros Hpos Hfind. unfold transaction.withdraw.
  apply amount_is_positive_iff in Hpos. rewrite Hpos. run. rewrite Hfind.
  destruct (Number.gtb _ _); [done|].
  rewrite updateAccountBalance_run, createTransaction_run. reflexivity.
Qed.

Lemma internalTransfer_run env1 env2 input db :
  transaction.internalTransfer env1 env2 input db =
    if negb (String.length (transaction.TransferInput.toAccountNumber input)
             =? 10)%nat
    then (Throw (TRPCError "BAD_REQUEST"
                   "String must contain exactly 10 character(s)"), db)
    else if negb (transaction.amount_is_positive
                    (transaction.TransferInput.amount input))
    then (Throw (TRPCError "BAD_REQUEST" "Amount must be positive"), db)
    else
      match List.find
              (fun a => Account.id a
                        =? transaction.TransferInput.fromAccountId input)
              (accounts db) with
      | None => (Throw (TRPCError "NOT_FOUND" "Source account not found"), db)
      | Some fromAccount =>
        match List.find
                (fun a => bool_decide
                   (Account.accountNumber a
                    = transaction.TransferInput.toAccountNumber input))
                (accounts db) with
        | None =>
            (Throw (TRPCError "NOT_FOUND" "Destination account not found"), db)
        | Some toAccount =>
          if Account.id fromAccount =? Account.id toAccount
          then (Throw (TRPCError "BAD_REQUEST"
                         "Cannot transfer to the same account"), db)
          else if Number.gtb
                    (parseFloat (transaction.TransferInput.amount input))
                    (parseFloat (Account.balance fromAccount))
          then (Throw (TRPCError "BAD_REQUEST" "Insufficient balance"), db)
          else
            let sender := senderData input fromAccount toAccount in
            let receiver := receiverData input fromAccount toAccount in
            let db1 :=
              set_accounts
                (map (post (Account.id toAccount)
                           (CreateTransactionData.balanceAfter receiver)))
                (set_accounts
                   (map (post (Account.id fromAccount)
                              (CreateTransactionData.balanceAfter sender)))
                   db) in
            if sequenceWritable env1
            then
              if ledgerHolds db (nextReference env1 db)
              then (Throw DuplicateEntry, advance env1 db1)
              else
                let senderTx := ledgerRow env1 db1 sender in
                let db2 := append senderTx (advance env1 db1) in
                if sequenceWritable env2
                then
                  if ledgerHolds db2 (nextReference env2 db2)
                  then (Throw DuplicateEntry, advance env2 db2)
                  else (Ok (Some senderTx),
                        append (ledgerRow env2 db2 receiver) (advance env2 db2))
                else (Throw StoreError, db2)
            else (Throw StoreError, db1)
        end
      end.
Proof.
  unfold transaction.internalTransfer.
  destruct (negb (_ =? _)%nat); [done|].
  destruct (negb (transaction.amount_is_positive _)); [done|].
  run. destruct (List.find _ (accounts db)) as [fromAccount|]; [|done].
  destruct (List.find _ (accounts db)) as [toAccount|]; [|done].
  destruct (_ =? _); [done|]. destruct (Number.gtb _ _); [done|].
  rewrite !updateAccountBalance_run, createTransaction_run.
  destruct (sequenceWritable env1); [|done].
  change (ledgerHolds (set_accounts _ (set_accounts _ db)))
    with (ledgerHolds db).
  change (nextReference env1 (set_accounts _ (set_accounts _ db)))
    with (nextReference env1 db).
  destruct (ledgerHolds db (nextReference env1 db)); [done|].
  rewrite createTransaction_run.
  destruct (sequenceWritable env2); [|done].
  destruct (ledgerHolds _ _); done.
Qed.

Lemma createInstapayTransaction_run env input db :
  createInstapayTransaction env input db =
    if sequenceWritable env
    then
      let db0 := advance env db in
      match List.find
              (fun a => Account.id a
                        =? CreateInstapayTransactionInput.sourceAccountId input)
              (accounts db) with
      | None => (Throw (JsError "Source account not found"), db0)
      | Some sourceAccount =>
        let transferAmount :=
          parseFloat (CreateInstapayTransactionInput.amount input) in
        let currentBalance := parseFloat (Account.balance sourceAccount) in
        if negb (bool_decide (Account.status sourceAccount = active))
        then (Throw (JsError "Source account is not active"), db0)
        else if Number.leb transferAmount (Number.of_int 0)
        then (Throw (JsError "Transfer amount must be greater than 0"), db0)
        else if Number.gtb transferAmount (Number.of_int 50000)
        then (Throw (JsError
                "Instapay transfers are limited to ₱50,000 per transaction"),
              db0)
        else if Number.ltb currentBalance transferAmount
        then (Throw (JsError "Insufficient balance"), db0)
        else
          let row := instapayRow env db input sourceAccount in
          let db1 :=
            set_accounts
              (map (post (CreateInstapayTransactionInput.sourceAccountId input)
                         (Transaction.balanceAfter row)))
              db0 in
          if ledgerHolds db (nextReference env db)
          then (Throw DuplicateEntry, db1)
          else if instapayHolds db (nextReference env db)
          then (Throw DuplicateEntry, append row db1)
          else (Ok (Some (instapayRecord env db input)),
                record (instapayRecord env db input) (append row db1))
      end
    else (Throw StoreError, db).
Proof.
  unfold createInstapayTransaction. run.
  destruct (sequenceWritable env) eqn:Hw.
  - rewrite generateTransactionReference_ok by done.
    change (accounts (set_transactionSequence _ db)) with (accounts db).
    destruct (List.find _ (accounts db)) as [sourceAccount|]; [|done].
    destruct (negb _); [done|]. destruct (Number.leb _ _); [done|].
    destruct (Number.gtb _ _); [done|]. destruct (Number.ltb _ _); [done|].
    rewrite updateAccountBalance_run.
    change (ledgerHolds (set_accounts _ (set_transactionSequence _ db))
              (Transaction.referenceNumber _))
      with (ledgerHolds db (nextReference env db)).
    destruct (ledgerHolds db (nextReference env db)); [done|].
    change (instapayHolds (set_transactions _ _)
              (InstapayTransaction.referenceNumber _))
      with (instapayHolds db (nextReference env db)).
    destruct (instapayHolds db (nextReference env db)); reflexivity.
  - rewrite generateTransactionReference_fails by done. reflexivity.
Qed.

Lemma updateInstapayTransactionStatus_run env referenceNumber status
    switchReferenceNumber statusMessage db :
  updateInstapayTransactionStatus env referenceNumber status
      switchReferenceNumber statusMessage db =
    match List.find
            (fun r => bool_decide
               (InstapayTransaction.referenceNumber r = referenceNumber))
            (instapayTransactions db) with
    | None => (Throw (JsError "Instapay transaction not found"), db)
    | Some existingTx =>
      let finish :=
        finish referenceNumber status switchReferenceNumber statusMessage
               existingTx in
      if bool_decide (status = FAILED)
         && bool_decide (InstapayTransaction.status existingTx = PENDING)
      then
        match List.find
                (fun a => Account.id a
                          =? InstapayTransaction.sourceAccountId existingTx)
                (accounts db) with
        | None => finish db
        | Some sourceAccount =>
          let db1 :=
            set_accounts
              (map (post (InstapayTransaction.sourceAccountId existingTx)
                 (toFixed2
                    (Number.add
                       (parseFloat (Account.balance sourceAccount))
                       (parseFloat (InstapayTransaction.amount existingTx))))))
              db in
          if sequenceWritable env
          then
            if ledgerHolds db (nextReference env db)
            then (Throw DuplicateEntry, advance env db1)
            else finish
                   (append (reversalRow env db1 referenceNumber statusMessage
                                        existingTx sourceAccount)
                           (advance env db1))
          else (Throw StoreError, db1)
        end
      else finish db
    end.
Proof.
  unfold updateInstapayTransactionStatus. run.
  destruct (List.find _ (instapayTransactions db)) as [existingTx|]; [|done].
  destruct (bool_decide (status = FAILED)); [|done].
  destruct (bool_decide (InstapayTransaction.status existingTx = PENDING));
    [|done].
  cbn [andb].
  destruct (List.find _ (accounts db)) as [sourceAccount|]; [|done].
  rewrite updateAccountBalance_run.
  destruct (sequenceWritable env) eqn:Hw.
  - rewrite generateTransactionReference_ok by done.
    change (ledgerHolds (set_transactionSequence _ (set_accounts _ db))
              (Transaction.referenceNumber _))
      with (ledgerHolds db (nextReference env db)).
    destruct (ledgerHolds db (nextReference env db)); reflexivity.
  - rewrite generateTransactionReference_fails by done. reflexivity.
Qed.

End Runs.

(** ** Interbank callbacks *)

Section Callbacks.

Lemma same_but_status_refl r : same_but_status r r.
Proof. repeat split. Qed.

Lemma settle_same_but_status ref st sw msg ex r :
  same_but_status r (settle ref st sw msg ex r)
  /\ (InstapayTransaction.referenceNumber r <> ref ->
      settle ref st sw msg ex r = r).
Proof.
  unfold settle. case_bool_decide; split; try done; repeat split.
Qed.

Lemma settle_Forall2 ref st sw msg ex l :
  Forall2 (fun r r' => same_but_status r r'
             /\ (InstapayTransaction.referenceNumber r <> ref -> r' = r))
          l (map (settle ref st sw msg ex) l).
Proof.
  induction l as [|r l IH]; simpl; constructor; [|done].
  apply settle_same_but_status.
Qed.

Lemma id_Forall2 ref (l : list InstapayTransaction.t) :
  Forall2 (fun r r' => same_but_status r r'
             /\ (InstapayTransaction.referenceNumber r <> ref -> r' = r))
          l l.
Proof.
  induction l; constructor; [|done]. split; [apply same_but_status_refl|done].
Qed.

Lemma settle_reference ref st sw msg ex r :
  InstapayTransaction.referenceNumber (settle ref st sw msg ex r)
  = InstapayTransaction.referenceNumber r.
Proof. unfold settle. by case_bool_decide. Qed.

Lemma find_settle ref st sw msg ex l :
  List.find (fun r => bool_decide (InstapayTransaction.referenceNumber r = ref))
            (map (settle ref st sw msg ex) l) =
  settle ref st sw msg ex
    <$> List.find
          (fun r => bool_decide (InstapayTransaction.referenceNumber r = ref)) l.
Proof.
  induction l as [|r l IH]; simpl; [done|].
  rewrite settle_reference.
  destruct (bool_decide (InstapayTransaction.referenceNumber r = ref)); done.
Qed.

Lemma settle_status ref st sw msg ex r :
  InstapayTransaction.referenceNumber r = ref ->
  InstapayTransaction.status (settle ref st sw msg ex r) = st.
Proof. intros H. unfold settle. by rewrite bool_decide_eq_true_2. Qed.

Lemma find_reference_In ref l (r : InstapayTransaction.t) :
  List.find (fun r => bool_decide (InstapayTransaction.referenceNumber r = ref)) l
    = Some r ->
  InstapayTransaction.referenceNumber r = ref.
Proof.
  intros H. apply find_some in H as [_ H]. by apply bool_decide_eq_true in H.
Qed.

(** What an acknowledged callback returns: the record under the reference,
    now in the status the callback carried. *)
Lemma finish_record ref st sw msg ex db res db' :
  List.find (fun r => bool_decide (InstapayTransaction.referenceNumber r = ref))
            (instapayTransactions db) = Some ex ->
  finish ref st sw msg ex db = (res, db') ->
  res = Ok (Some (settle ref st sw msg ex ex))
  /\ List.find
       (fun r => bool_decide (InstapayTransaction.referenceNumber r = ref))
       (instapayTransactions db') = Some (settle ref st sw msg ex ex)
  /\ accounts db' = accounts db
  /\ transactions db' = transactions db
  /\ transactionSequence db' = transactionSequence db
  /\ instapayTransactions db'
     = map (settle ref st sw msg ex) (instapayTransactions db).
Proof.
  intros Hfind. unfold finish. intros [= <- <-]. simpl.
  rewrite find_settle, Hfind. done.
Qed.

End Callbacks.

(** ** Interbank callbacks: frame, status, redelivery *)

Section CallbackTheorems.

Local Tactic Notation "callback_cases" hyp(H) ident(ex) :=
  rewrite updateInstapayTransactionStatus_run in H;
  destruct (List.find _ (instapayTransactions _)) as [ex|] eqn:?;
  cbv zeta in H.

(** C10. A callback whose status is SUCCESS or PENDING changes no account,
    no ledger row and no sequence counter, whatever the status of the
    record was: in each Instapay record only [status],
    [switchReferenceNumber] and [statusMessage] may differ afterwards, and
    records under other reference numbers are left as they were.  Accounts
    or ledger change only under a FAILED callback on a PENDING record. *)
Theorem C10_callback_frame env db referenceNumber status
    switchReferenceNumber statusMessage res db' :
  updateInstapayTransactionStatus env referenceNumber status
    switchReferenceNumber statusMessage db = (res, db') ->
  (status = SUCCESS \/ status = PENDING ->
     accounts db' = accounts db
     /\ transactions db' = transactions db
     /\ transactionSequence db' = transactionSequence db
     /\ Forall2 (fun r r' => same_but_status r r'
           /\ (InstapayTransaction.referenceNumber r <> referenceNumber ->
               r' = r))
          (instapayTransactions db) (instapayTransactions db'))
  /\ (accounts db' <> accounts db \/ transactions db' <> transactions db ->
      status = FAILED
      /\ exists existingTx,
           List.find (byReference referenceNumber) (instapayTransactions db)
             = Some existingTx
           /\ InstapayTransaction.status existingTx = PENDING).
Proof.
  intros H. callback_cases H ex; cycle 1.
  { inversion H; subst. split.
    - intros _. repeat split; try done. apply id_Forall2.
    - intros [?|?]; done. }
  destruct (bool_decide (status = FAILED)) eqn:Hst;
    destruct (bool_decide (InstapayTransaction.status ex = PENDING)) eqn:Hex;
    cbn [andb] in H.
  1: { apply bool_decide_eq_true in Hst, Hex. split.
       - intros [?|?]; congruence.
       - intros _. split; [done|]. exists ex. done. }
  all: apply finish_record in H as (_ & _ & Ha & Ht & Hs & Hi); [|done].
  all: rewrite Ha, Ht, Hs, Hi.
  all: split; [intros _; repeat split; apply settle_Forall2|intros [?|?]; done].
Qed.

Lemma C10_callback_frame_witness :
  let db := db_sent PENDING in
  let out := updateInstapayTransactionStatus env_20260115 "TXN20260115000001"
               SUCCESS (Some "SWITCH-12345")
               (Some "Transaction completed successfully") db in
  accounts (snd out) = accounts db /\ transactions (snd out) = transactions db.
Proof.
  intros db out.
  destruct (C10_callback_frame env_20260115 db "TXN20260115000001" SUCCESS
              (Some "SWITCH-12345") (Some "Transaction completed successfully")
              (fst out) (snd out)) as [H _].
  - reflexivity.
  - destruct (H (or_introl eq_refl)) as (Ha & Ht & _). split; assumption.
Defined.

(** C2 as stated fails: a FAILED callback moves a record out of SUCCESS, and
    a PENDING callback moves it back to PENDING. *)
Lemma C2_terminal_status_overwritten :
  let db := db_sent SUCCESS in
  statusOf db "TXN20260115000001" = Some SUCCESS
  /\ statusOf
       (snd (updateInstapayTransactionStatus env_20260115 "TXN20260115000001"
               FAILED None (Some "Recipient account not found") db))
       "TXN20260115000001" = Some FAILED
  /\ statusOf
       (snd (updateInstapayTransactionStatus env_20260115 "TXN20260115000001"
               PENDING None None db))
       "TXN20260115000001" = Some PENDING.
Proof. repeat split. Qed.

(** C2, amended.  A callback that returns leaves the record under its
    reference number in the status the callback carried, whatever the
    record's status was before: a record in SUCCESS or FAILED keeps its
    status exactly when the later callback carries that same status. *)
Theorem C2_callback_sets_status env db referenceNumber status
    switchReferenceNumber statusMessage existingTx res db' :
  List.find (byReference referenceNumber) (instapayTransactions db)
    = Some existingTx ->
  updateInstapayTransactionStatus env referenceNumber status
    switchReferenceNumber statusMessage db = (Ok res, db') ->
  exists updatedTx,
    res = Some updatedTx
    /\ List.find (byReference referenceNumber) (instapayTransactions db')
       = Some updatedTx
    /\ InstapayTransaction.status updatedTx = status
    /\ (InstapayTransaction.status updatedTx
        = InstapayTransaction.status existingTx
        <-> status = InstapayTransaction.status existingTx).
Proof.
  intros Hfind H. unfold byReference in Hfind.
  rewrite updateInstapayTransactionStatus_run, Hfind in H. cbv zeta in H.
  pose proof (find_reference_In _ _ _ Hfind) as Href.
  assert (Hfin : exists db0,
    List.find (fun r => bool_decide
                 (InstapayTransaction.referenceNumber r = referenceNumber))
              (instapayTransactions db0) = Some existingTx
    /\ finish referenceNumber status switchReferenceNumber statusMessage
         existingTx db0 = (Ok res, db')).
  { destruct (_ && _); [|by eauto].
    destruct (List.find _ (accounts db)); [|by eauto].
    destruct (sequenceWritable env); [|done].
    destruct (ledgerHolds db (nextReference env db)); [done|].
    eexists. split; [|exact H]. exact Hfind. }
  destruct Hfin as (db0 & Hfind0 & Hfin).
  apply finish_record in Hfin as (Hres & Hfind' & _); [|done].
  injection Hres as ->.
  eexists. split; [reflexivity|]. split; [exact Hfind'|].
  rewrite settle_status by done. done.
Qed.

Lemma C2_callback_sets_status_witness :
  exists updatedTx,
    fst (updateInstapayTransactionStatus env_20260115 "TXN20260115000001"
           FAILED None None (db_sent SUCCESS)) = Ok (Some updatedTx)
    /\ InstapayTransaction.status updatedTx = FAILED.
Proof.
  destruct (C2_callback_sets_status env_20260115 (db_sent SUCCESS)
              "TXN20260115000001" FAILED None None (sample_instapay SUCCESS)
              (Some (sample_instapay FAILED))
              (snd (updateInstapayTransactionStatus env_20260115
                      "TXN20260115000001" FAILED None None (db_sent SUCCESS))))
    as (updatedTx & Hres & _ & Hst & _).
  - reflexivity.
  - reflexivity.
  - exists updatedTx. split; [|exact Hst].
    injection Hres as <-. reflexivity.
Defined.




End CallbackTheorems.

(** ** The REST handlers, case by case *)

Section RestRuns.

Import restApi.

Lemma invalid_false body accountNumber amount :
  Body.accountNumber body = Some accountNumber -> accountNumber <> EmptyString ->
  Body.amount body = Some amount -> 0 < amount ->
  invalid body = false.
Proof.
  intros Hn Hne Ha Hpos. unfold invalid. rewrite Hn, Ha.
  rewrite bool_decide_eq_false_2 by done. simpl.
  unfold Number.leb, Number.of_int. apply Z.leb_gt.
  simpl (0 * _). by apply parseFloat_pos.
Qed.

Lemma post_transactions_deposit_run env body db accountNumber amount :
  Body.accountNumber body = Some accountNumber -> accountNumber <> EmptyString ->
  Body.amount body = Some amount -> 0 < amount ->
  post_transactions_deposit env body db =
    match List.find
            (fun a => bool_decide (Account.accountNumber a = accountNumber))
            (accounts db) with
    | None =>
        (mkResponse 404 (Failure "NOT_FOUND" (Text "Account not found")), db)
    | Some account =>
      if bool_decide (Account.status account = closed)
      then (mkResponse 400 (Failure "ACCOUNT_CLOSED"
              (Text "Cannot deposit to a closed account")), db)
      else
        let data := restDepositData body amount account in
        let db1 :=
          set_accounts
            (map (post (Account.id account)
                       (CreateTransactionData.balanceAfter data))) db in
        let failed :=
          mkResponse 500 (Failure "INTERNAL_ERROR"
            (Text "Failed to process deposit")) in
        if sequenceWritable env
        then
          if ledgerHolds db (nextReference env db)
          then (failed, advance env db1)
          else
            (mkResponse 201
               (Posted (Some (nextReference env db))
                  DEPOSIT (parseFloat amount)
                  (parseFloat (CreateTransactionData.balanceAfter data))
                  "Deposit successful"),
             append (ledgerRow env db1 data) (advance env db1))
        else (failed, db1)
    end.
Proof.
  intros Hn Hne Ha Hpos.
  unfold post_transactions_deposit, try_catch.
  rewrite (invalid_false body accountNumber amount) by done.
  rewrite Hn, Ha. cbn [default]. run.
  destruct (List.find _ (accounts db)) as [account|]; [|done].
  destruct (bool_decide (Account.status account = closed)); [done|].
  rewrite updateAccountBalance_run, createTransaction_run.
  destruct (sequenceWritable env); [|done].
  change (ledgerHolds (set_accounts _ db) (nextReference env (set_accounts _ db)))
    with (ledgerHolds db (nextReference env db)).
  destruct (ledgerHolds db (nextReference env db)); done.
Qed.

Lemma post_transactions_withdrawal_run env body db accountNumber amount :
  Body.accountNumber body = Some accountNumber -> accountNumber <> EmptyString ->
  Body.amount body = Some amount -> 0 < amount ->
  post_transactions_withdrawal env body db =
    match List.find
            (fun a => bool_decide (Account.accountNumber a = accountNumber))
            (accounts db) with
    | None =>
        (mkResponse 404 (Failure "NOT_FOUND" (Text "Account not found")), db)
    | Some account =>
      if bool_decide (Account.status account = closed)
      then (mkResponse 400 (Failure "ACCOUNT_CLOSED"
              (Text "Cannot withdraw from a closed account")), db)
      else if Number.ltb (parseFloat (Account.balance account))
                         (parseFloat amount)
      then (mkResponse 400 (Failure "INSUFFICIENT_BALANCE"
              (TextNumber "Insufficient balance. Available: "
                 (parseFloat (Account.balance account)))), db)
      else
        let data := restWithdrawalData body amount account in
        let db1 :=
          set_accounts
            (map (post (Account.id account)
                       (CreateTransactionData.balanceAfter data))) db in
        let failed :=
          mkResponse 500 (Failure "INTERNAL_ERROR"
            (Text "Failed to process withdrawal")) in
        if sequenceWritable env
        then
          if ledgerHolds db (nextReference env db)
          then (failed, advance env db1)
          else
            (mkResponse 201
               (Posted (Some (nextReference env db))
                  WITHDRAWAL (parseFloat amount)
                  (parseFloat (CreateTransactionData.balanceAfter data))
                  "Withdrawal successful"),
             append (ledgerRow env db1 data) (advance env db1))
        else (failed, db1)
    end.
Proof.
  intros Hn Hne Ha Hpos.
  unfold post_transactions_withdrawal, try_catch.
  rewrite (invalid_false body accountNumber amount) by done.
  rewrite Hn, Ha. cbn [default]. run.
  destruct (List.find _ (accounts db)) as [account|]; [|done].
  destruct (bool_decide (Account.status account = closed)); [done|].
  destruct (Number.ltb _ _); [done|].
  rewrite updateAccountBalance_run, createTransaction_run.
  destruct (sequenceWritable env); [|done].
  change (ledgerHolds (set_accounts _ db) (nextReference env (set_accounts _ db)))
    with (ledgerHolds db (nextReference env db)).
  destruct (ledgerHolds db (nextReference env db)); done.
Qed.

End RestRuns.

(** ** Deposits and withdrawals when the counter update fails *)

Section Postings.

Import transaction.

(** C8 as stated fails: with the sequence table refusing writes, a deposit
    of 1000.00 throws, no ledger row is written, and the balance has gone
    from 0.00 to 1000.00. *)
Lemma C8_balance_written_before_counter_failure :
  let out := deposit env_store_down (Input.mk 1 100000 None)
               (db_account 0 active) in
  fst out = Throw StoreError
  /\ transactions (snd out) = []
  /\ balanceOf (db_account 0 active) 1 = Some 0
  /\ balanceOf (snd out) 1 = Some 100000.
Proof. repeat split. Qed.

(** C8, amended.  When the counter update fails, a deposit or a withdrawal
    that passed its checks fails as a whole and writes neither a ledger row
    nor a sequence number, but the balance write, which precedes the
    reference number, stays: the account holds the new balance, [balance +
    amount] respectively [balance - amount] in the exact range. *)
Theorem C8_counter_failure_keeps_balance_write env db input account :
  sequenceWritable env = false ->
  0 < Input.amount input ->
  List.find (fun a => Account.id a =? Input.accountId input) (accounts db)
    = Some account ->
  (let newBalance :=
     toFixed2 (Number.add (parseFloat (Account.balance account))
                          (parseFloat (Input.amount input))) in
   exists db',
     deposit env input db = (Throw StoreError, db')
     /\ transactions db' = transactions db
     /\ transactionSequence db' = transactionSequence db
     /\ balanceOf db' (Input.accountId input) = Some newBalance
     /\ (exact_range (Account.balance account) ->
         exact_range (Input.amount input) ->
         newBalance = Account.balance account + Input.amount input))
  /\ (Number.gtb (parseFloat (Input.amount input))
                 (parseFloat (Account.balance account)) = false ->
      let newBalance :=
        toFixed2 (Number.sub (parseFloat (Account.balance account))
                             (parseFloat (Input.amount input))) in
      exists db',
        withdraw env input db = (Throw StoreError, db')
        /\ transactions db' = transactions db
        /\ transactionSequence db' = transactionSequence db
        /\ balanceOf db' (Input.accountId input) = Some newBalance
        /\ (exact_range (Account.balance account) ->
            exact_range (Input.amount input) ->
            newBalance = Account.balance account - Input.amount input)).
Proof.
  intros Hw Hpos Hfind. split.
  - intros newBalance. eexists. rewrite (deposit_run _ _ _ _ Hpos Hfind), Hw.
    split; [reflexivity|]. split; [done|]. split; [done|]. split.
    + rewrite balanceOf_post_same. unfold balanceOf. by rewrite Hfind.
    + intros. by apply toFixed2_add.
  - intros Hle newBalance. eexists.
    rewrite (withdraw_run _ _ _ _ Hpos Hfind), Hle, Hw.
    split; [reflexivity|]. split; [done|]. split; [done|]. split.
    + rewrite balanceOf_post_same. unfold balanceOf. by rewrite Hfind.
    + intros. by apply toFixed2_sub.
Qed.

Lemma C8_counter_failure_keeps_balance_write_witness :
  exists db',
    withdraw env_store_down (Input.mk 1 30000 None) (db_account 100000 active)
      = (Throw StoreError, db')
    /\ transactions db' = []
    /\ balanceOf db' 1 = Some 70000.
Proof.
  destruct (C8_counter_failure_keeps_balance_write env_store_down
              (db_account 100000 active) (Input.mk 1 30000 None)
              (sample_account 100000 active))
    as [_ Hwithdraw]; [reflexivity|reflexivity|reflexivity|].
  destruct (Hwithdraw eq_refl) as (db' & Hrun & Ht & _ & Hb & _).
  exists db'. split; [exact Hrun|]. split; [exact Ht|exact Hb].
Defined.

(** The REST handlers order the two writes the same way. *)
Lemma rest_counter_failure_keeps_balance_write env db body accountNumber
    amount account :
  sequenceWritable env = false ->
  restApi.Body.accountNumber body = Some accountNumber -> accountNumber <> EmptyString ->
  restApi.Body.amount body = Some amount -> 0 < amount ->
  List.find (fun a => bool_decide (Account.accountNumber a = accountNumber))
            (accounts db) = Some account ->
  Account.status account <> closed ->
  exists db',
    restApi.post_transactions_deposit env body db =
      (restApi.mkResponse 500
         (restApi.Failure "INTERNAL_ERROR"
            (restApi.Text "Failed to process deposit")), db')
    /\ transactions db' = transactions db
    /\ accounts db' =
         map (post (Account.id account)
                (toFixed2 (Number.add (parseFloat (Account.balance account))
                                      (parseFloat amount))))
             (accounts db).
Proof.
  intros Hw Hn Hne Ha Hpos Hfind Hst. eexists.
  rewrite (post_transactions_deposit_run _ _ _ _ _ Hn Hne Ha Hpos), Hfind.
  rewrite bool_decide_eq_false_2 by done. cbv zeta. rewrite Hw. done.
Qed.

End Postings.

(** ** Withdrawals that must be refused *)

Section Refusals.

Import transaction.

(** C4 as stated fails in three ways.  The tRPC error is the same value
    whatever the balance is, so it does not tell the available balance; the
    REST handler reports a closed account before it looks at the balance;
    and beyond the exact range two amounts one cent apart can parse to the
    same number, so that withdrawing 100000000000000.02 from
    100000000000000.01 goes through. *)
Lemma C4_insufficient_balance_deviations :
  (withdraw env_20260115 (Input.mk 1 100000 None) (db_account 70000 active)
     = (Throw (TRPCError "BAD_REQUEST" "Insufficient balance"),
        db_account 70000 active)
   /\ withdraw env_20260115 (Input.mk 1 100000 None) (db_account 90000 active)
     = (Throw (TRPCError "BAD_REQUEST" "Insufficient balance"),
        db_account 90000 active))
  /\ restApi.post_transactions_withdrawal env_20260115
       (restApi.Body.mk (Some "0011234567") (Some 100000) None)
       (db_account 70000 closed)
     = (restApi.mkResponse 400
          (restApi.Failure "ACCOUNT_CLOSED"
             (restApi.Text "Cannot withdraw from a closed account")),
        db_account 70000 closed)
  /\ (let out := withdraw env_20260115 (Input.mk 1 10000000000000002 None)
                   (db_account 10000000000000001 active) in
      (exists row, fst out = Ok (Some row)
                   /\ Transaction.amount row = -10000000000000002)
      /\ balanceOf (snd out) 1 = Some 0).
Proof.
  vm_compute. split; [split; reflexivity|]. split; [reflexivity|].
  split; [eexists; split; reflexivity|reflexivity].
Qed.

(** C4, amended.  In the exact range, a withdrawal of more than the balance
    of an existing account fails and leaves the database, hence the balance
    and the ledger, as it was.  The REST handler answers 400
    [INSUFFICIENT_BALANCE] with the available balance in its message when
    the account is not closed, and 400 [ACCOUNT_CLOSED] when it is; the tRPC
    procedure throws [BAD_REQUEST] "Insufficient balance", which carries no
    balance. *)
Theorem C4_withdraw_insufficient env db account amount :
  exact_range (Account.balance account) -> exact_range amount ->
  Account.balance account < amount ->
  (forall input,
     Input.amount input = amount ->
     List.find (fun a => Account.id a =? Input.accountId input) (accounts db)
       = Some account ->
     withdraw env input db
       = (Throw (TRPCError "BAD_REQUEST" "Insufficient balance"), db))
  /\ (forall body accountNumber,
       restApi.Body.accountNumber body = Some accountNumber ->
       accountNumber <> EmptyString ->
       restApi.Body.amount body = Some amount ->
       List.find (fun a => bool_decide (Account.accountNumber a = accountNumber))
                 (accounts db) = Some account ->
       restApi.post_transactions_withdrawal env body db
         = (if bool_decide (Account.status account = closed)
            then restApi.mkResponse 400
                   (restApi.Failure "ACCOUNT_CLOSED"
                      (restApi.Text "Cannot withdraw from a closed account"))
            else restApi.mkResponse 400
                   (restApi.Failure "INSUFFICIENT_BALANCE"
                      (restApi.TextNumber "Insufficient balance. Available: "
                         (parseFloat (Account.balance account)))),
            db)
       /\ toFixed2 (parseFloat (Account.balance account))
          = Account.balance account).
Proof.
  intros Hb Ha Hlt.
  assert (Hpos : 0 < amount) by (unfold exact_range in *; lia).
  assert (Hcmp : parseFloat (Account.balance account) < parseFloat amount)
    by by apply parseFloat_lt.
  split.
  - intros input <- Hfind. rewrite (withdraw_run _ _ _ _ Hpos Hfind).
    unfold Number.gtb. by rewrite (proj2 (Z.ltb_lt _ _) Hcmp).
  - intros body accountNumber Hn Hne Hamt Hfind. split.
    + rewrite (post_transactions_withdrawal_run _ _ _ _ _ Hn Hne Hamt Hpos).
      rewrite Hfind. destruct (bool_decide _); [done|].
      unfold Number.ltb. by rewrite (proj2 (Z.ltb_lt _ _) Hcmp).
    + apply toFixed2_parseFloat. unfold exact_range in Hb. lia.
Qed.

Lemma C4_withdraw_insufficient_witness :
  withdraw env_20260115 (Input.mk 1 100000 None) (db_account 70000 active)
    = (Throw (TRPCError "BAD_REQUEST" "Insufficient balance"),
       db_account 70000 active).
Proof.
  destruct (C4_withdraw_insufficient env_20260115 (db_account 70000 active)
              (sample_account 70000 active) 100000) as [Htrpc _].
  - unfold exact_range. simpl. lia.
  - unfold exact_range. lia.
  - simpl. lia.
  - apply (Htrpc (Input.mk 1 100000 None)); reflexivity.
Defined.

(** C5 fails on the tRPC procedure: it never reads the status of the
    account, and withdraws 300.00 from a closed account holding 1000.00. *)
Theorem C5_trpc_withdraw_from_closed_account :
  let db := db_account 100000 closed in
  let out := withdraw env_20260115 (Input.mk 1 30000 None) db in
  exists row,
    fst out = Ok (Some row)
    /\ Transaction.type row = WITHDRAWAL
    /\ Transaction.amount row = -30000
    /\ transactions (snd out) = [row]
    /\ balanceOf db 1 = Some 100000
    /\ balanceOf (snd out) 1 = Some 70000.
Proof. vm_compute. eexists. repeat split. Qed.

(** The REST handler does what C5 says: a closed account is refused with
    [ACCOUNT_CLOSED] and the database stays as it was. *)
Lemma rest_withdrawal_refuses_closed_account env db body accountNumber amount
    account :
  restApi.Body.accountNumber body = Some accountNumber -> accountNumber <> EmptyString ->
  restApi.Body.amount body = Some amount -> 0 < amount ->
  List.find (fun a => bool_decide (Account.accountNumber a = accountNumber))
            (accounts db) = Some account ->
  Account.status account = closed ->
  restApi.post_transactions_withdrawal env body db
    = (restApi.mkResponse 400
         (restApi.Failure "ACCOUNT_CLOSED"
            (restApi.Text "Cannot withdraw from a closed account")), db).
Proof.
  intros Hn Hne Ha Hpos Hfind Hst.
  rewrite (post_transactions_withdrawal_run _ _ _ _ _ Hn Hne Ha Hpos), Hfind.
  by rewrite bool_decide_eq_true_2.
Qed.

(** The tRPC procedure treats a closed account like any other. *)
Lemma trpc_withdraw_ignores_status env db input account :
  0 < Input.amount input ->
  List.find (fun a => Account.id a =? Input.accountId input) (accounts db)
    = Some account ->
  Number.gtb (parseFloat (Input.amount input))
             (parseFloat (Account.balance account)) = false ->
  sequenceWritable env = true ->
  ledgerHolds db (nextReference env db) = false ->
  exists row db',
    withdraw env input db = (Ok (Some row), db')
    /\ transactions db' = transactions db ++ [row]
    /\ Transaction.type row = WITHDRAWAL.
Proof.
  intros Hpos Hfind Hle Hw Hfresh. eexists _, _.
  rewrite (withdraw_run _ _ _ _ Hpos Hfind), Hle, Hw, Hfresh. done.
Qed.

End Refusals.

(** ** The UNIQUE constraints and the sequence counter *)

Section Unique.

Lemma ledgerHolds_append row db referenceNumber :
  ledgerHolds (append row db) referenceNumber
  = ledgerHolds db referenceNumber
    || bool_decide (Transaction.referenceNumber row = referenceNumber).
Proof.
  unfold ledgerHolds. simpl. rewrite existsb_app. simpl.
  by rewrite orb_false_r.
Qed.

Lemma instapayHolds_record r db referenceNumber :
  instapayHolds (record r db) referenceNumber
  = instapayHolds db referenceNumber
    || bool_decide (InstapayTransaction.referenceNumber r = referenceNumber).
Proof.
  unfold instapayHolds. simpl. rewrite existsb_app. simpl.
  by rewrite orb_false_r.
Qed.

Lemma instapayHolds_settle ref st sw msg ex db referenceNumber :
  instapayHolds
    (set_instapayTransactions (map (settle ref st sw msg ex)) db)
    referenceNumber
  = instapayHolds db referenceNumber.
Proof.
  unfold instapayHolds. simpl.
  induction (instapayTransactions db) as [|r l IH]; simpl; [done|].
  by rewrite settle_reference, IH.
Qed.

Lemma instapayHolds_find db referenceNumber :
  instapayHolds db referenceNumber = false ->
  List.find (byReference referenceNumber) (instapayTransactions db) = None.
Proof.
  unfold instapayHolds, byReference.
  induction (instapayTransactions db) as [|r l IH]; simpl; [done|].
  destruct (bool_decide _); [done|]. exact IH.
Qed.

Lemma lastSequence_advance env db :
  lastSequence (advance env db) (today env)
  = lastSequence db (today env) + 1.
Proof. unfold lastSequence. simpl. by rewrite lookup_insert_eq. Qed.

Lemma lastSequence_advance_le env db dateStr :
  lastSequence db dateStr <= lastSequence (advance env db) dateStr.
Proof.
  destruct (decide (today env = dateStr)) as [<-|Hne].
  - rewrite lastSequence_advance. lia.
  - unfold lastSequence, advance. simpl.
    rewrite lookup_insert_ne by done. lia.
Qed.

Lemma issued_empty : issued db_empty.
Proof. by intros r d n [H|H]. Qed.

(** The counter's next reference number is on neither table. *)
Lemma issued_fresh env db :
  String.length (today env) = 8%nat -> issued db ->
  ledgerHolds db (nextReference env db) = false
  /\ instapayHolds db (nextReference env db) = false.
Proof.
  intros Hlen Hi. split; apply not_true_is_false; intros H.
  - pose proof (Hi _ (today env) (lastSequence db (today env) + 1)
                  (or_introl H) Hlen eq_refl). lia.
  - pose proof (Hi _ (today env) (lastSequence db (today env) + 1)
                  (or_intror H) Hlen eq_refl). lia.
Qed.

(** [issued] survives when the counters do not go down and every new
    reference number is one that a counter has reached. *)
Lemma issued_extend db db' :
  (forall dateStr, lastSequence db dateStr <= lastSequence db' dateStr) ->
  (forall referenceNumber,
     onFile db' referenceNumber ->
     onFile db referenceNumber
     \/ exists dateStr sequence,
          String.length dateStr = 8%nat
          /\ referenceNumber = reference dateStr sequence
          /\ sequence <= lastSequence db' dateStr) ->
  issued db -> issued db'.
Proof.
  intros Hseq Hfile Hi r d n Hr Hlen Href.
  destruct (Hfile r Hr) as [Hold|(d' & n' & Hlen' & Href' & Hle)].
  - etrans; [exact (Hi r d n Hold Hlen Href)|apply Hseq].
  - rewrite Href' in Href.
    apply reference_inj_date in Href as [-> ->]; [done|congruence].
Qed.

Lemma issued_advance env db : issued db -> issued (advance env db).
Proof.
  apply issued_extend; [apply lastSequence_advance_le|].
  intros r Hr. by left.
Qed.

(** Appending a ledger row under the reference number just drawn. *)
Lemma issued_append env db row :
  String.length (today env) = 8%nat ->
  Transaction.referenceNumber row = nextReference env db ->
  issued db -> issued (append row (advance env db)).
Proof.
  intros Hlen Href. apply issued_extend.
  - intros d. apply lastSequence_advance_le.
  - intros r [Hr|Hr].
    + rewrite ledgerHolds_append in Hr.
      apply orb_true_iff in Hr as [Hr|Hr]; [by left; left|].
      apply bool_decide_eq_true in Hr. right.
      exists (today env), (lastSequence db (today env) + 1).
      split; [done|]. split; [by rewrite <- Hr, Href|].
      change (lastSequence (append row (advance env db)) (today env))
        with (lastSequence (advance env db) (today env)).
      rewrite lastSequence_advance. lia.
    + by left; right.
Qed.

(** Recording an Instapay transfer under a reference number already
    drawn. *)
Lemma issued_record db r dateStr sequence :
  String.length dateStr = 8%nat ->
  InstapayTransaction.referenceNumber r = reference dateStr sequence ->
  sequence <= lastSequence db dateStr ->
  issued db -> issued (record r db).
Proof.
  intros Hlen Href Hle. apply issued_extend; [done|].
  intros ref [Hr|Hr]; [by left; left|].
  rewrite instapayHolds_record in Hr.
  apply orb_true_iff in Hr as [Hr|Hr]; [by left; right|].
  apply bool_decide_eq_true in Hr. right.
  exists dateStr, sequence. by rewrite <- Hr.
Qed.

Lemma issued_set_accounts f db : issued db -> issued (set_accounts f db).
Proof. done. Qed.

(** Every function of [db.ts] that inserts keeps [issued], whatever its
    outcome. *)
Lemma createTransaction_issued env data db :
  String.length (today env) = 8%nat -> issued db ->
  issued (snd (createTransaction env data db)).
Proof.
  intros Hlen Hi. rewrite createTransaction_run.
  destruct (sequenceWritable env); [|done].
  destruct (ledgerHolds _ _); simpl.
  - by apply issued_advance.
  - by apply issued_append.
Qed.

Lemma createInstapayTransaction_issued env input db :
  String.length (today env) = 8%nat -> issued db ->
  issued (snd (createInstapayTransaction env input db)).
Proof.
  intros Hlen Hi. rewrite createInstapayTransaction_run.
  destruct (sequenceWritable env); [|done]. cbv zeta.
  pose proof (issued_advance env db Hi) as Hi0.
  destruct (List.find _ (accounts db)) as [sourceAccount|]; [|done].
  destruct (negb _); [done|].
  destruct (Number.leb _ _); [done|].
  destruct (Number.gtb _ _); [done|].
  destruct (Number.ltb _ _); [done|].
  destruct (ledgerHolds _ _); [done|].
  assert (issued (append (instapayRow env db input sourceAccount)
                         (advance env db))) as Hi1
    by by apply issued_append.
  destruct (instapayHolds _ _); [done|]. simpl.
  apply (issued_record _ _ (today env) (lastSequence db (today env) + 1));
    [done|done| |done].
  by rewrite <- lastSequence_advance.
Qed.

Lemma finish_issued ref st sw msg ex db :
  issued db -> issued (snd (finish ref st sw msg ex db)).
Proof.
  apply issued_extend; [done|]. intros r [Hr|Hr]; left; [by left|right].
  unfold finish in Hr. simpl in Hr. by rewrite instapayHolds_settle in Hr.
Qed.

Lemma updateInstapayTransactionStatus_issued env referenceNumber status
    switchReferenceNumber statusMessage db :
  String.length (today env) = 8%nat -> issued db ->
  issued (snd (updateInstapayTransactionStatus env referenceNumber status
                 switchReferenceNumber statusMessage db)).
Proof.
  intros Hlen Hi. rewrite updateInstapayTransactionStatus_run.
  destruct (List.find _ (instapayTransactions db)) as [existingTx|];
    [|done]. cbv zeta.
  destruct (_ && _); [|by apply finish_issued].
  destruct (List.find _ (accounts db)) as [sourceAccount|];
    [|by apply finish_issued].
  destruct (sequenceWritable env); [|done].
  destruct (ledgerHolds _ _); simpl.
  - by apply issued_advance.
  - apply finish_issued. by apply issued_append.
Qed.

End Unique.

(** ** Intrabank transfers *)

Section Transfers.

Import transaction.

(** C6 as stated fails beyond the exact range: a transfer of 1.00 to an
    account holding 9007199254740992.00 (that is [2^53]) succeeds, debits
    the source and leaves the destination balance where it was. *)
Lemma C6_destination_not_credited :
  let db := mkDb [sample_account 100000 active;
                  second_account 900719925474099200] [] ∅ [] in
  let out := internalTransfer env_20260115 env_20260115
               (TransferInput.mk 1 "0027654321" 100 None) db in
  (exists senderTx, fst out = Ok (Some senderTx))
  /\ balanceOf (snd out) 1 = Some 99900
  /\ balanceOf db 2 = Some 900719925474099200
  /\ balanceOf (snd out) 2 = Some 900719925474099200.
Proof. vm_compute. split; [eexists; reflexivity|]. repeat split. Qed.

(** C6, amended.  A successful intrabank transfer of amount [A] appends
    exactly two ledger rows, the sender's then the receiver's, both of type
    INTERNAL_TRANSFER: the first on the source account with amount [-A] and
    the destination's id and account number as related account, the second
    on the destination account with amount [A] and the source's id and
    account number; the accounts are distinct; the two reference numbers
    differ; and when both balances and [A] are in the exact range, the
    source balance goes down by [A] and the destination balance up by
    [A]. *)
Theorem C6_internal_transfer env1 env2 db input tx db' :
  internalTransfer env1 env2 input db = (Ok tx, db') ->
  exists fromAccount toAccount senderTx receiverTx,
    let A := TransferInput.amount input in
    List.find (fun a => Account.id a =? TransferInput.fromAccountId input)
              (accounts db) = Some fromAccount
    /\ List.find (fun a => bool_decide
                    (Account.accountNumber a = TransferInput.toAccountNumber input))
                 (accounts db) = Some toAccount
    /\ Account.id fromAccount <> Account.id toAccount
    /\ tx = Some senderTx
    /\ transactions db' = transactions db ++ [senderTx; receiverTx]
    /\ (Transaction.accountId senderTx = Account.id fromAccount
        /\ Transaction.type senderTx = INTERNAL_TRANSFER
        /\ Transaction.amount senderTx = - A
        /\ Transaction.relatedAccountId senderTx = Some (Account.id toAccount)
        /\ Transaction.relatedAccountNumber senderTx
           = Some (Account.accountNumber toAccount))
    /\ (Transaction.accountId receiverTx = Account.id toAccount
        /\ Transaction.type receiverTx = INTERNAL_TRANSFER
        /\ Transaction.amount receiverTx = A
        /\ Transaction.relatedAccountId receiverTx = Some (Account.id fromAccount)
        /\ Transaction.relatedAccountNumber receiverTx
           = Some (Account.accountNumber fromAccount))
    /\ Transaction.referenceNumber senderTx
       <> Transaction.referenceNumber receiverTx
    /\ (exact_range (Account.balance fromAccount) ->
        exact_range (Account.balance toAccount) ->
        exact_range A ->
        balanceOf db' (Account.id fromAccount)
          = Some (Account.balance fromAccount - A)
        /\ balanceOf db' (Account.id toAccount)
          = Some (Account.balance toAccount + A)).
Proof.
  intros H. rewrite internalTransfer_run in H.
  destruct (negb (_ =? _)%nat); [done|].
  destruct (negb (amount_is_positive _)); [done|].
  destruct (List.find _ (accounts db)) as [fromAccount|] eqn:Hfrom; [|done].
  destruct (List.find (fun a => bool_decide _) (accounts db))
    as [toAccount|] eqn:Hto; [|done].
  destruct (Account.id fromAccount =? Account.id toAccount) eqn:Hid; [done|].
  apply Z.eqb_neq in Hid.
  destruct (Number.gtb _ _); [done|]. cbv zeta in H.
  destruct (sequenceWritable env1); [|done].
  destruct (ledgerHolds db (nextReference env1 db)); [done|].
  destruct (sequenceWritable env2); [|done].
  destruct (ledgerHolds _ (nextReference env2 _)) eqn:Hfresh; [done|].
  injection H as <- <-.
  eexists fromAccount, toAccount, _, _. cbv zeta.
  split; [done|]. split; [done|]. split; [done|]. split; [reflexivity|].
  split; [simpl; by rewrite <- app_assoc|].
  split; [done|]. split; [done|]. split.
  - intros Href. rewrite ledgerHolds_append in Hfresh.
    apply orb_false_elim in Hfresh as [_ Hfresh].
    by apply bool_decide_eq_false in Hfresh.
  - intros Hf Ht HA. unfold balanceOf. simpl accounts.
    pose proof (find_id_In _ _ _ Hfrom) as Hfid.
    destruct (find_number_In _ _ _ Hto) as [Hin _].
    destruct (find_id_exists (Account.id toAccount) _ _ Hin eq_refl)
      as [a' Ha'].
    split.
    + rewrite find_post_other by done.
      rewrite find_post_same, Hfid, Hfrom. simpl.
      f_equal. by apply toFixed2_sub.
    + rewrite find_post_same, find_post_other by done. rewrite Ha'. simpl.
      f_equal. by apply toFixed2_add.
Qed.

Lemma C6_internal_transfer_witness :
  let db := mkDb [sample_account 100000 active; second_account 5000] [] ∅ [] in
  let out := internalTransfer env_20260115 env_20260115
               (TransferInput.mk 1 "0027654321" 30000 None) db in
  balanceOf (snd out) 1 = Some 70000 /\ balanceOf (snd out) 2 = Some 35000.
Proof.
  intros db out.
  destruct (C6_internal_transfer env_20260115 env_20260115 db
              (TransferInput.mk 1 "0027654321" 30000 None)
              (match fst out with Ok tx => tx | Throw _ => None end)
              (snd out))
    as (fromAccount & toAccount & senderTx & receiverTx & Hfrom & Hto & _
        & _ & _ & _ & _ & _ & Hbal).
  - vm_compute. reflexivity.
  - vm_compute in Hfrom, Hto.
    injection Hfrom as <-. injection Hto as <-.
    apply Hbal; unfold exact_range; simpl; lia.
Defined.

End Transfers.

(** ** Interbank transfers: send, then succeed or fail *)

Section Interbank.

Lemma parseFloat_50000 : parseFloat 5000000 = Number.of_int 50000.
Proof. vm_compute. reflexivity. Qed.

(** In the exact range the three amount checks of
    [createInstapayTransaction] decide what they are written to decide. *)
Lemma instapay_guards B A :
  exact_range B -> 0 < A <= 5000000 -> A <= B ->
  Number.leb (parseFloat A) (Number.of_int 0) = false
  /\ Number.gtb (parseFloat A) (Number.of_int 50000) = false
  /\ Number.ltb (parseFloat B) (parseFloat A) = false.
Proof.
  intros HB HA HAB.
  assert (exact_range A) as HrA by (unfold exact_range in *; lia).
  unfold Number.leb, Number.gtb, Number.ltb. repeat split.
  - apply Z.leb_gt. unfold Number.of_int. simpl (0 * _).
    apply parseFloat_pos. lia.
  - apply Z.ltb_ge. rewrite <- parseFloat_50000.
    apply Z.le_ngt. rewrite parseFloat_lt; [lia| |done].
    unfold exact_range. lia.
  - apply Z.ltb_ge. apply Z.le_ngt. rewrite parseFloat_lt by done. lia.
Qed.

Lemma find_record_fresh ref l (r : InstapayTransaction.t) :
  List.find (byReference ref) l = None ->
  InstapayTransaction.referenceNumber r = ref ->
  List.find (byReference ref) (l ++ [r]) = Some r.
Proof.
  intros Hnone Href. induction l as [|x l IH]; simpl in *.
  - unfold byReference. by rewrite bool_decide_eq_true_2.
  - destruct (byReference ref x); [done|]. by apply IH.
Qed.

(** C1 as stated fails beyond the exact range: sending 1.00 from a balance
    of 9007199254740993.00 (that is [2^53 + 1]) leaves 9007199254740991.00,
    one unit less than [B - A], and the FAILED callback then restores
    9007199254740992.00, not [B]. *)
Lemma C1_balance_not_restored :
  let B := 900719925474099300 in
  let db := db_account B active in
  let input := CreateInstapayTransactionInput.mk 1 "0011234567" "BDO Unibank"
                 "BDO" "1234567890" "Juan Dela Cruz" 100 in
  let sent := createInstapayTransaction env_20260115 input db in
  let failed := updateInstapayTransactionStatus env_20260115
                  "TXN20260115000001" FAILED None None (snd sent) in
  (exists instapayTx, fst sent = Ok (Some instapayTx)
     /\ InstapayTransaction.referenceNumber instapayTx = "TXN20260115000001")
  /\ balanceOf (snd sent) 1 = Some (B - 100 - 100)
  /\ statusOf (snd failed) "TXN20260115000001" = Some FAILED
  /\ balanceOf (snd failed) 1 = Some (B - 100).
Proof. vm_compute. split; [eexists; split; reflexivity|]. repeat split. Qed.

(** C1, amended.  For an active account with balance [B] in the exact
    range and an amount [A] with [0 < A <= 50000.00] not exceeding [B],
    [createInstapayTransaction] leaves the balance at [B - A], appends one
    INSTAPAY ledger row with amount [-A] and balance-after [B - A], and
    creates a PENDING record under the same reference number.  A FAILED
    callback on that reference then restores the balance to [B] and appends
    one DEPOSIT row for [A] whose description names the reference; a SUCCESS
    callback instead leaves the balance at [B - A] and the ledger as it
    is. *)
Theorem C1_interbank_reversal env env' db input account
    switchReferenceNumber statusMessage :
  let id := CreateInstapayTransactionInput.sourceAccountId input in
  let A := CreateInstapayTransactionInput.amount input in
  let B := Account.balance account in
  let ref := reference (today env) (lastSequence db (today env) + 1) in
  issued db ->
  String.length (today env) = 8%nat -> sequenceWritable env = true ->
  List.find (fun a => Account.id a =? id) (accounts db) = Some account ->
  Account.status account = active ->
  0 < A <= 5000000 -> A <= B -> B < 10 ^ 15 ->
  exists instapayTx row db1,
    createInstapayTransaction env input db = (Ok (Some instapayTx), db1)
    /\ balanceOf db1 id = Some (B - A)
    /\ transactions db1 = transactions db ++ [row]
    /\ (Transaction.type row = INSTAPAY
        /\ Transaction.accountId row = id
        /\ Transaction.amount row = - A
        /\ Transaction.balanceAfter row = B - A
        /\ Transaction.referenceNumber row = ref)
    /\ (InstapayTransaction.referenceNumber instapayTx = ref
        /\ InstapayTransaction.status instapayTx = PENDING
        /\ InstapayTransaction.amount instapayTx = A
        /\ List.find (byReference ref) (instapayTransactions db1)
           = Some instapayTx)
    /\ (String.length (today env') = 8%nat -> sequenceWritable env' = true ->
        exists failedTx reversal db2,
          updateInstapayTransactionStatus env' ref FAILED
            switchReferenceNumber statusMessage db1 = (Ok (Some failedTx), db2)
          /\ InstapayTransaction.status failedTx = FAILED
          /\ balanceOf db2 id = Some B
          /\ transactions db2 = transactions db1 ++ [reversal]
          /\ Transaction.type reversal = DEPOSIT
          /\ Transaction.accountId reversal = id
          /\ Transaction.amount reversal = A
          /\ Transaction.balanceAfter reversal = B
          /\ Transaction.description reversal
             = Some ("Instapay reversal - " +:+ ref +:+ " failed: "
                     +:+ js_or_default statusMessage "Transaction failed"))
    /\ (exists succeededTx db2,
          updateInstapayTransactionStatus env' ref SUCCESS
            switchReferenceNumber statusMessage db1
            = (Ok (Some succeededTx), db2)
          /\ InstapayTransaction.status succeededTx = SUCCESS
          /\ balanceOf db2 id = Some (B - A)
          /\ transactions db2 = transactions db1).
Proof.
  intros id A B ref Hi Hlen Hw Hfind Hactive HA HAB HB.
  destruct (issued_fresh env db Hlen Hi) as [Hledger Hinstapay].
  pose proof (instapayHolds_find _ _ Hinstapay) as Hfresh.
  assert (HrB : exact_range B) by (unfold exact_range; lia).
  assert (HrA : exact_range A) by (unfold exact_range; lia).
  assert (HrBA : exact_range (B - A)) by (unfold exact_range; lia).
  destruct (instapay_guards B A HrB HA HAB) as (Hg1 & Hg2 & Hg3).
  pose proof (toFixed2_sub B A HrB HrA) as Hsub.
  rewrite createInstapayTransaction_run, Hw. cbv zeta.
  fold id A B. rewrite Hfind. fold B ref.
  rewrite bool_decide_eq_true_2 by done. cbn [negb].
  rewrite Hg1, Hg2, Hg3, Hledger, Hinstapay.
  set (instapayTx := instapayRecord env db input).
  set (row := instapayRow env db input account).
  assert (Hba : Transaction.balanceAfter row = B - A) by exact Hsub.
  rewrite Hba.
  set (db1 := record instapayTx _).
  assert (Hacc1 : List.find (fun a => Account.id a =? id) (accounts db1)
                  = Some (Account.set_balance (B - A) account)).
  { subst db1. simpl accounts. by rewrite find_post_same, Hfind. }
  assert (Hrec1 : List.find (byReference ref) (instapayTransactions db1)
                  = Some instapayTx).
  { subst db1. simpl instapayTransactions. by apply find_record_fresh. }
  assert (Hi1 : issued db1).
  { subst db1.
    apply (issued_record _ _ (today env) (lastSequence db (today env) + 1));
      [done|done|by rewrite <- lastSequence_advance|].
    by apply (issued_append env db row). }
  exists instapayTx, row, db1.
  split; [reflexivity|]. split.
  { unfold balanceOf. by rewrite Hacc1. }
  split; [reflexivity|]. split.
  { repeat split; [|done]. unfold row, instapayRow. simpl.
    fold A. apply toFixed2_neg_parseFloat. unfold exact_range in HrA. lia. }
  split; [done|]. split.
  - intros Hlen' Hw'.
    destruct (issued_fresh env' db1 Hlen' Hi1) as [Hledger1 _].
    destruct (updateInstapayTransactionStatus env' ref FAILED
                switchReferenceNumber statusMessage db1)
      as [res db2] eqn:Hrun.
    rewrite updateInstapayTransactionStatus_run in Hrun.
    unfold byReference in Hrec1. rewrite Hrec1 in Hrun. cbv zeta in Hrun.
    rewrite !bool_decide_eq_true_2 in Hrun by done. cbn [andb] in Hrun.
    change (InstapayTransaction.sourceAccountId instapayTx) with id in Hrun.
    change (InstapayTransaction.amount instapayTx) with A in Hrun.
    rewrite Hacc1, Hw', Hledger1 in Hrun.
    change (Account.balance (Account.set_balance (B - A) account))
      with (B - A) in Hrun.
    rewrite (toFixed2_add (B - A) A HrBA HrA) in Hrun.
    replace (B - A + A) with B in Hrun by lia.
    set (db1' := set_accounts (map (post id B)) db1) in Hrun.
    set (reversal := reversalRow env' db1' ref statusMessage instapayTx
                       (Account.set_balance (B - A) account)) in Hrun.
    apply finish_record in Hrun as (-> & _ & Ha & Ht & _); [|exact Hrec1].
    eexists _, reversal, db2. split; [reflexivity|].
    split; [by apply settle_status|]. split.
    { unfold balanceOf. rewrite Ha.
      change (accounts (append reversal (advance env' db1')))
        with (map (post id B) (accounts db1)).
      by rewrite find_post_same, Hacc1. }
    split; [by rewrite Ht|]. split; [done|]. split; [done|]. split.
    { unfold reversal, reversalRow. simpl. fold A.
      apply toFixed2_parseFloat. unfold exact_range in HrA. lia. }
    split; [|done].
    unfold reversal, reversalRow. simpl. fold A.
    rewrite (toFixed2_add (B - A) A HrBA HrA). lia.
  - destruct (updateInstapayTransactionStatus env' ref SUCCESS
                switchReferenceNumber statusMessage db1)
      as [res db2] eqn:Hrun.
    rewrite updateInstapayTransactionStatus_run in Hrun.
    unfold byReference in Hrec1. rewrite Hrec1 in Hrun. cbv zeta in Hrun.
    rewrite (bool_decide_eq_false_2 (SUCCESS = FAILED)) in Hrun by done.
    cbn [andb] in Hrun.
    apply finish_record in Hrun as (-> & _ & Ha & Ht & _); [|exact Hrec1].
    eexists _, db2. split; [reflexivity|].
    split; [by apply settle_status|]. split; [|done].
    unfold balanceOf. by rewrite Ha, Hacc1.
Qed.

(** The scenario of the specification: 600.00 sent from 700.00, then a
    FAILED callback. *)
Lemma C1_interbank_reversal_witness :
  exists instapayTx db1,
    createInstapayTransaction env_20260115 (sample_input 60000)
      (db_account 70000 active) = (Ok (Some instapayTx), db1)
    /\ balanceOf db1 1 = Some 10000
    /\ exists failedTx db2,
         updateInstapayTransactionStatus env_20260115 "TXN20260115000001"
           FAILED None (Some "Recipient account not found") db1
           = (Ok (Some failedTx), db2)
         /\ balanceOf db2 1 = Some 70000.
Proof.
  destruct (C1_interbank_reversal env_20260115 env_20260115
              (db_account 70000 active) (sample_input 60000)
              (sample_account 70000 active) None
              (Some "Recipient account not found"))
    as (instapayTx & row & db1 & Hrun & Hbal & _ & _ & _ & Hfailed & _);
    [by intros r d n [H|H]|reflexivity|reflexivity|reflexivity|reflexivity
    |simpl; lia|simpl; lia|simpl; lia|].
  destruct (Hfailed eq_refl eq_refl) as (failedTx & reversal & db2 & Hrun2 & _ & Hbal2 & _).
  exists instapayTx, db1. split; [exact Hrun|]. split; [exact Hbal|].
  exists failedTx, db2. split; [exact Hrun2|exact Hbal2].
Defined.

End Interbank.

(** ** Exactness of the posted balances *)

Section ExactPostings.

Import transaction.

Lemma positive_of_guard amount :
  negb (amount_is_positive amount) = false -> 0 < amount.
Proof.
  intros H. apply amount_is_positive_iff. by destruct (amount_is_positive _).
Qed.

Lemma deposit_exact env input db account tx db' :
  List.find (fun a => Account.id a =? Input.accountId input) (accounts db)
    = Some account ->
  deposit env input db = (Ok tx, db') ->
  exact_range (Account.balance account) -> exact_range (Input.amount input) ->
  balanceOf db' (Input.accountId input)
    = Some (Account.balance account + Input.amount input).
Proof.
  intros Hfind Hrun Hb Ha.
  assert (Hpos : 0 < Input.amount input).
  { apply positive_of_guard. unfold deposit in Hrun.
    destruct (negb _); [done|reflexivity]. }
  rewrite (deposit_run _ _ _ _ Hpos Hfind) in Hrun. cbv zeta in Hrun.
  destruct (sequenceWritable env); [|done].
  destruct (ledgerHolds _ _); [done|]. injection Hrun as _ <-.
  unfold balanceOf. simpl accounts. rewrite find_post_same, Hfind. simpl.
  f_equal. by apply toFixed2_add.
Qed.

Lemma withdraw_exact env input db account tx db' :
  List.find (fun a => Account.id a =? Input.accountId input) (accounts db)
    = Some account ->
  withdraw env input db = (Ok tx, db') ->
  exact_range (Account.balance account) -> exact_range (Input.amount input) ->
  balanceOf db' (Input.accountId input)
    = Some (Account.balance account - Input.amount input).
Proof.
  intros Hfind Hrun Hb Ha.
  assert (Hpos : 0 < Input.amount input).
  { apply positive_of_guard. unfold withdraw in Hrun.
    destruct (negb _); [done|reflexivity]. }
  rewrite (withdraw_run _ _ _ _ Hpos Hfind) in Hrun. cbv zeta in Hrun.
  destruct (Number.gtb _ _); [done|].
  destruct (sequenceWritable env); [|done].
  destruct (ledgerHolds _ _); [done|]. injection Hrun as _ <-.
  unfold balanceOf. simpl accounts. rewrite find_post_same, Hfind. simpl.
  f_equal. by apply toFixed2_sub.
Qed.

Lemma internalTransfer_exact env1 env2 input db fromAccount toAccount tx db' :
  List.find (fun a => Account.id a =? TransferInput.fromAccountId input)
            (accounts db) = Some fromAccount ->
  List.find (fun a => bool_decide
               (Account.accountNumber a = TransferInput.toAccountNumber input))
            (accounts db) = Some toAccount ->
  internalTransfer env1 env2 input db = (Ok tx, db') ->
  exact_range (Account.balance fromAccount) ->
  exact_range (Account.balance toAccount) ->
  exact_range (TransferInput.amount input) ->
  balanceOf db' (Account.id fromAccount)
    = Some (Account.balance fromAccount - TransferInput.amount input)
  /\ balanceOf db' (Account.id toAccount)
    = Some (Account.balance toAccount + TransferInput.amount input).
Proof.
  intros Hfrom Hto H Hf Ht HA. rewrite internalTransfer_run in H.
  destruct (negb (_ =? _)%nat); [done|].
  destruct (negb (amount_is_positive _)); [done|].
  rewrite Hfrom, Hto in H.
  destruct (Account.id fromAccount =? Account.id toAccount) eqn:Hid; [done|].
  apply Z.eqb_neq in Hid.
  destruct (Number.gtb _ _); [done|]. cbv zeta in H.
  destruct (sequenceWritable env1); [|done].
  destruct (ledgerHolds _ _); [done|].
  destruct (sequenceWritable env2); [|done].
  destruct (ledgerHolds _ _); [done|].
  injection H as _ <-. unfold balanceOf. simpl accounts.
  pose proof (find_id_In _ _ _ Hfrom) as Hfid.
  destruct (find_number_In _ _ _ Hto) as [Hin _].
  destruct (find_id_exists (Account.id toAccount) _ _ Hin eq_refl) as [a' Ha'].
  split.
  - rewrite find_post_other by done.
    rewrite find_post_same, Hfid, Hfrom. simpl. f_equal. by apply toFixed2_sub.
  - rewrite find_post_same, find_post_other by done. rewrite Ha'. simpl.
    f_equal. by apply toFixed2_add.
Qed.

Lemma createInstapayTransaction_exact env input db account res db' :
  List.find (fun a => Account.id a
                      =? CreateInstapayTransactionInput.sourceAccountId input)
            (accounts db) = Some account ->
  createInstapayTransaction env input db = (Ok res, db') ->
  exact_range (Account.balance account) ->
  exact_range (CreateInstapayTransactionInput.amount input) ->
  balanceOf db' (CreateInstapayTransactionInput.sourceAccountId input)
    = Some (Account.balance account
            - CreateInstapayTransactionInput.amount input).
Proof.
  intros Hfind H Hb Ha. rewrite createInstapayTransaction_run in H.
  destruct (sequenceWritable env); [|done]. cbv zeta in H. rewrite Hfind in H.
  destruct (negb _); [done|]. destruct (Number.leb _ _); [done|].
  destruct (Number.gtb _ _); [done|]. destruct (Number.ltb _ _); [done|].
  destruct (ledgerHolds _ _); [done|]. destruct (instapayHolds _ _); [done|].
  injection H as _ <-. unfold balanceOf. simpl accounts.
  rewrite find_post_same, Hfind. simpl. f_equal. by apply toFixed2_sub.
Qed.

Lemma reversal_exact env referenceNumber switchReferenceNumber statusMessage
    db existingTx account res db' :
  List.find (byReference referenceNumber) (instapayTransactions db)
    = Some existingTx ->
  InstapayTransaction.status existingTx = PENDING ->
  List.find (fun a => Account.id a
                      =? InstapayTransaction.sourceAccountId existingTx)
            (accounts db) = Some account ->
  updateInstapayTransactionStatus env referenceNumber FAILED
    switchReferenceNumber statusMessage db = (Ok res, db') ->
  exact_range (Account.balance account) ->
  exact_range (InstapayTransaction.amount existingTx) ->
  balanceOf db' (InstapayTransaction.sourceAccountId existingTx)
    = Some (Account.balance account + InstapayTransaction.amount existingTx).
Proof.
  intros Hrec Hpending Hfind H Hb Ha. unfold byReference in Hrec.
  rewrite updateInstapayTransactionStatus_run, Hrec in H. cbv zeta in H.
  rewrite !bool_decide_eq_true_2 in H by done. cbn [andb] in H.
  rewrite Hfind in H. destruct (sequenceWritable env); [|done].
  destruct (ledgerHolds _ _); [done|].
  unfold finish in H. injection H as _ <-.
  unfold balanceOf. simpl accounts. rewrite find_post_same, Hfind. simpl.
  f_equal. by apply toFixed2_add.
Qed.

(** C9 as stated fails: the balances are computed in binary floating
    point.  Depositing 0.01 into 123456789012345.67 yields
    123456789012345.69, and depositing 1.00 into 9007199254740992.00 leaves
    the balance where it was. *)
Lemma C9_binary_rounding_deviation :
  balanceOf (snd (deposit env_20260115 (Input.mk 1 1 None)
                    (db_account 12345678901234567 active))) 1
    = Some 12345678901234569
  /\ balanceOf (snd (deposit env_20260115 (Input.mk 1 100 None)
                       (db_account 900719925474099200 active))) 1
    = Some 900719925474099200.
Proof. vm_compute. split; reflexivity. Qed.

(** C9, amended.  Each posting operation computes the new balance as
    [toFixed(2)] of the binary64 sum or difference of the parsed balance and
    amount.  When balance and amount are in the exact range (non-negative
    and below 10,000,000,000,000.00) the result is the exact decimal sum or
    difference, in cents: a deposit and a reversal post [balance + amount],
    a withdrawal and an Instapay send [balance - amount], an intrabank
    transfer both. *)
Theorem C9_exact_in_range :
  (forall env input db account tx db',
     List.find (fun a => Account.id a =? Input.accountId input) (accounts db)
       = Some account ->
     deposit env input db = (Ok tx, db') ->
     exact_range (Account.balance account) ->
     exact_range (Input.amount input) ->
     balanceOf db' (Input.accountId input)
       = Some (Account.balance account + Input.amount input))
  /\ (forall env input db account tx db',
       List.find (fun a => Account.id a =? Input.accountId input) (accounts db)
         = Some account ->
       withdraw env input db = (Ok tx, db') ->
       exact_range (Account.balance account) ->
       exact_range (Input.amount input) ->
       balanceOf db' (Input.accountId input)
         = Some (Account.balance account - Input.amount input))
  /\ (forall env1 env2 input db fromAccount toAccount tx db',
       List.find (fun a => Account.id a =? TransferInput.fromAccountId input)
                 (accounts db) = Some fromAccount ->
       List.find (fun a => bool_decide
                    (Account.accountNumber a
                     = TransferInput.toAccountNumber input))
                 (accounts db) = Some toAccount ->
       internalTransfer env1 env2 input db = (Ok tx, db') ->
       exact_range (Account.balance fromAccount) ->
       exact_range (Account.balance toAccount) ->
       exact_range (TransferInput.amount input) ->
       balanceOf db' (Account.id fromAccount)
         = Some (Account.balance fromAccount - TransferInput.amount input)
       /\ balanceOf db' (Account.id toAccount)
         = Some (Account.balance toAccount + TransferInput.amount input))
  /\ (forall env input db account res db',
       List.find
         (fun a => Account.id a
                   =? CreateInstapayTransactionInput.sourceAccountId input)
         (accounts db) = Some account ->
       createInstapayTransaction env input db = (Ok res, db') ->
       exact_range (Account.balance account) ->
       exact_range (CreateInstapayTransactionInput.amount input) ->
       balanceOf db' (CreateInstapayTransactionInput.sourceAccountId input)
         = Some (Account.balance account
                 - CreateInstapayTransactionInput.amount input))
  /\ (forall env referenceNumber switchReferenceNumber statusMessage db
              existingTx account res db',
       List.find (byReference referenceNumber) (instapayTransactions db)
         = Some existingTx ->
       InstapayTransaction.status existingTx = PENDING ->
       List.find (fun a => Account.id a
                           =? InstapayTransaction.sourceAccountId existingTx)
                 (accounts db) = Some account ->
       updateInstapayTransactionStatus env referenceNumber FAILED
         switchReferenceNumber statusMessage db = (Ok res, db') ->
       exact_range (Account.balance account) ->
       exact_range (InstapayTransaction.amount existingTx) ->
       balanceOf db' (InstapayTransaction.sourceAccountId existingTx)
         = Some (Account.balance account
                 + InstapayTransaction.amount existingTx)).
Proof.
  split; [exact deposit_exact|]. split; [exact withdraw_exact|].
  split; [exact internalTransfer_exact|].
  split; [exact createInstapayTransaction_exact|exact reversal_exact].
Qed.

(** The scenario of the specification: 1000.00 deposited into 0.00. *)
Lemma C9_exact_in_range_witness :
  balanceOf (snd (deposit env_20260115 (Input.mk 1 100000 None)
                    (db_account 0 active))) 1 = Some 100000.
Proof.
  destruct C9_exact_in_range as [Hdeposit _].
  apply (Hdeposit env_20260115 (Input.mk 1 100000 None) (db_account 0 active)
           (sample_account 0 active)
           (match fst (deposit env_20260115 (Input.mk 1 100000 None)
                         (db_account 0 active))
            with Ok tx => tx | Throw _ => None end)).
  - reflexivity.
  - vm_compute. reflexivity.
  - unfold exact_range. simpl. lia.
  - unfold exact_range. simpl. lia.
Defined.

End ExactPostings.

(** * Properties of the rest of the code *)

(** ** Account status *)

Section AccountStatus.

Lemma db_eta db :
  mkDb (accounts db) (transactions db) (transactionSequence db)
       (instapayTransactions db) = db.
Proof. by destruct db. Qed.

Lemma updateAccountStatus_run accountId status db :
  updateAccountStatus accountId status db =
    (Ok (List.find (fun a => Account.id a =? accountId)
           (map (mark accountId status) (accounts db))),
     set_accounts (map (mark accountId status)) db).
Proof. reflexivity. Qed.

Lemma find_mark_same accountId status l :
  List.find (fun a => Account.id a =? accountId)
            (map (mark accountId status) l) =
  set_account_status status
    <$> List.find (fun a => Account.id a =? accountId) l.
Proof.
  unfold mark. induction l as [|a l IH]; simpl; [done|].
  destruct (Account.id a =? accountId) eqn:E; simpl; rewrite E; done.
Qed.

Lemma find_mark_id accountId status i l :
  List.find (fun a => Account.id a =? i) (map (mark accountId status) l) =
  mark accountId status <$> List.find (fun a => Account.id a =? i) l.
Proof.
  induction l as [|a l IH]; simpl; [done|].
  assert (Account.id (mark accountId status a) = Account.id a) as ->
    by (unfold mark; by destruct (_ =? _)).
  destruct (Account.id a =? i); done.
Qed.

Lemma find_mark_number accountId status (n : string) l :
  List.find (fun a => bool_decide (Account.accountNumber a = n))
            (map (mark accountId status) l) =
  mark accountId status
    <$> List.find (fun a => bool_decide (Account.accountNumber a = n)) l.
Proof.
  induction l as [|a l IH]; simpl; [done|].
  assert (Account.accountNumber (mark accountId status a)
          = Account.accountNumber a) as ->
    by (unfold mark; by destruct (_ =? _)).
  destruct (bool_decide _); done.
Qed.

Lemma mark_absent accountId status l :
  List.find (fun a => Account.id a =? accountId) l = None ->
  map (mark accountId status) l = l.
Proof.
  unfold mark. induction l as [|a l IH]; simpl; [done|].
  destruct (Account.id a =? accountId); [done|]. intros H. by rewrite IH.
Qed.

Lemma mark_balance accountId status a :
  Account.balance (mark accountId status a) = Account.balance a.
Proof. unfold mark. by destruct (_ =? _). Qed.

(** X1. [updateAccountStatus] writes the status of the account with the
    given id and nothing else: it returns that account with its new status
    and every other column as before, and every balance, the ledger, the
    sequence counters and the Instapay records stay as they are.  When no
    account has the id it returns [null] and the database is unchanged;
    the tRPC procedure then throws [NOT_FOUND] and the REST handler answers
    404. *)
Theorem updateAccountStatus_frame accountId status db :
  let out := updateAccountStatus accountId status db in
  fst out
    = Ok (set_account_status status
            <$> List.find (fun a => Account.id a =? accountId) (accounts db))
  /\ (forall id, balanceOf (snd out) id = balanceOf db id)
  /\ (forall id, id <> accountId ->
        List.find (fun a => Account.id a =? id) (accounts (snd out))
        = List.find (fun a => Account.id a =? id) (accounts db))
  /\ transactions (snd out) = transactions db
  /\ transactionSequence (snd out) = transactionSequence db
  /\ instapayTransactions (snd out) = instapayTransactions db
  /\ (List.find (fun a => Account.id a =? accountId) (accounts db) = None ->
      snd out = db
      /\ account.updateStatus accountId status db
         = (Throw (TRPCError "NOT_FOUND" "Account not found"), db)
      /\ forall body s,
           restApiRouter.StatusBody.status body = Some s ->
           restApiRouter.account_status s = Some status ->
           restApiRouter.put_accounts_status accountId body db
           = (restApiRouter.failure 404 "NOT_FOUND" "Account not found", db)).
Proof.
  rewrite updateAccountStatus_run. cbv zeta. simpl fst. simpl snd.
  split; [by rewrite find_mark_same|]. split.
  { intros id. unfold balanceOf. simpl accounts. rewrite find_mark_id.
    destruct (List.find _ (accounts db)); simpl; [|done].
    by rewrite mark_balance. }
  split.
  { intros id Hne. simpl accounts. rewrite find_mark_id.
    destruct (List.find _ (accounts db)) as [a|] eqn:E; simpl; [|done].
    apply find_id_In in E. unfold mark.
    destruct (Account.id a =? accountId) eqn:E'; [lia|done]. }
  split; [done|]. split; [done|]. split; [done|].
  intros Hnone.
  assert (Hsame : set_accounts (map (mark accountId status)) db = db).
  { unfold set_accounts. rewrite (mark_absent _ _ _ Hnone). apply db_eta. }
  split; [exact Hsame|]. split.
  - unfold account.updateStatus. cbv [mbind M_bind].
    rewrite updateAccountStatus_run, find_mark_same, Hnone, Hsame. done.
  - intros body s Hs Hst.
    unfold restApiRouter.put_accounts_status, restApiRouter.handle.
    rewrite Hs. unfold default. cbn [from_option id]. rewrite Hst.
    cbv [mbind M_bind mret M_ret].
    rewrite updateAccountStatus_run, find_mark_same, Hnone, Hsame. done.
Qed.

Lemma updateAccountStatus_frame_witness :
  List.find (fun a => Account.id a =? 2) (accounts (db_account 70000 active))
    = None
  /\ account.updateStatus 2 closed (db_account 70000 active)
     = (Throw (TRPCError "NOT_FOUND" "Account not found"),
        db_account 70000 active).
Proof.
  split; [reflexivity|].
  destruct (updateAccountStatus_frame 2 closed (db_account 70000 active))
    as (_ & _ & _ & _ & _ & _ & Habsent).
  destruct Habsent as (_ & Hthrown & _); [reflexivity|exact Hthrown].
Defined.

End AccountStatus.

(** ** The REST transfer, case by case *)

Section RestTransferRun.

Import restApiRouter.

Lemma not_positive_false amount :
  0 < amount -> not_positive (Some amount) = false.
Proof.
  intros Hpos. unfold not_positive, Number.leb, Number.of_int.
  apply Z.leb_gt. simpl (0 * _). by apply parseFloat_pos.
Qed.

Lemma missing_false (s : string) : s <> EmptyString -> missing (Some s) = false.
Proof. intros H. unfold missing. by rewrite bool_decide_eq_false_2. Qed.

Lemma post_transactions_transfer_run env1 env2 body db source dest amount :
  TransferBody.sourceAccountNumber body = Some source ->
  source <> EmptyString ->
  TransferBody.destinationAccountNumber body = Some dest ->
  dest <> EmptyString ->
  TransferBody.amount body = Some amount -> 0 < amount ->
  source <> dest ->
  post_transactions_transfer env1 env2 body db =
    match List.find (fun a => bool_decide (Account.accountNumber a = source))
                    (accounts db),
          List.find (fun a => bool_decide (Account.accountNumber a = dest))
                    (accounts db) with
    | None, _ => (failure 404 "NOT_FOUND" "Source account not found", db)
    | Some _, None =>
        (failure 404 "NOT_FOUND" "Destination account not found", db)
    | Some sourceAccount, Some destAccount =>
      if bool_decide (Account.status sourceAccount = closed)
      then (failure 400 "ACCOUNT_CLOSED"
              "Cannot transfer from a closed account", db)
      else if bool_decide (Account.status destAccount = closed)
      then (failure 400 "ACCOUNT_CLOSED"
              "Cannot transfer to a closed account", db)
      else if Number.ltb (parseFloat (Account.balance sourceAccount))
                         (parseFloat amount)
      then (mkResponse 400 (Failure "INSUFFICIENT_BALANCE"
              (restApi.TextNumber "Insufficient balance. Available: "
                 (parseFloat (Account.balance sourceAccount)))), db)
      else
        let sender := restSenderData body amount sourceAccount destAccount in
        let receiver := restReceiverData body amount sourceAccount destAccount in
        let db1 := moved amount sourceAccount destAccount db in
        let failed :=
          failure 500 "INTERNAL_ERROR" "Failed to process transfer" in
        if sequenceWritable env1
        then
          if ledgerHolds db (nextReference env1 db)
          then (failed, advance env1 db1)
          else
            let senderTx := ledgerRow env1 db1 sender in
            let db2 := append senderTx (advance env1 db1) in
            if sequenceWritable env2
            then
              if ledgerHolds db2 (nextReference env2 db2)
              then (failed, advance env2 db2)
              else
                (mkResponse 201 (Success
                   (Transferred (Some (nextReference env1 db))
                      (parseFloat amount)
                      source
                      (parseFloat (CreateTransactionData.balanceAfter sender))
                      dest
                      (parseFloat (CreateTransactionData.balanceAfter receiver)))
                   (Some "Transfer successful")),
                 append (ledgerRow env2 db2 receiver) (advance env2 db2))
            else (failed, db2)
        else (failed, db1)
    end.
Proof.
  intros Hs Hse Hd Hde Ha Hpos Hne.
  unfold post_transactions_transfer, handle.
  rewrite Hs, Hd, Ha, !missing_false, not_positive_false by done.
  unfold default. cbn [orb from_option id].
  rewrite bool_decide_eq_false_2 by done. run.
  destruct (List.find _ (accounts db)) as [sourceAccount|]; [|done].
  destruct (List.find (fun a => bool_decide (_ = dest)) (accounts db))
    as [destAccount|]; [|done].
  destruct (bool_decide (Account.status sourceAccount = closed)); [done|].
  destruct (bool_decide (Account.status destAccount = closed)); [done|].
  destruct (Number.ltb _ _); [done|].
  rewrite !updateAccountBalance_run, createTransaction_run.
  destruct (sequenceWritable env1); [|done].
  change (ledgerHolds (set_accounts _ (set_accounts _ db)))
    with (ledgerHolds db).
  change (nextReference env1 (set_accounts _ (set_accounts _ db)))
    with (nextReference env1 db).
  destruct (ledgerHolds db (nextReference env1 db)); [done|].
  rewrite createTransaction_run.
  destruct (sequenceWritable env2); [|done].
  destruct (ledgerHolds _ _); done.
Qed.

End RestTransferRun.

(** ** Transfers over REST *)

Section RestTransfers.

Import restApiRouter.

Lemma unique_ids_same (l : list Account.t) a b :
  NoDup (map Account.id l) -> In a l -> In b l ->
  Account.id a = Account.id b -> a = b.
Proof.
  induction l as [|x l IH]; simpl; [done|].
  intros Hnd [->|Ha] [->|Hb] Hid; inversion Hnd as [|? ? Hnot Hnd']; subst.
  - done.
  - exfalso. apply Hnot. rewrite Hid. apply list_elem_of_In. by apply in_map.
  - exfalso. apply Hnot. rewrite <- Hid. apply list_elem_of_In.
    by apply in_map.
  - by apply (IH Hnd' Ha Hb).
Qed.

Lemma found_distinct db (source dest : string) sourceAccount destAccount :
  accountIdsUnique db -> source <> dest ->
  List.find (fun a => bool_decide (Account.accountNumber a = source))
            (accounts db) = Some sourceAccount ->
  List.find (fun a => bool_decide (Account.accountNumber a = dest))
            (accounts db) = Some destAccount ->
  Account.id sourceAccount <> Account.id destAccount.
Proof.
  intros Hu Hne Hs Hd Hid.
  apply find_number_In in Hs as [Hs Hsn]. apply find_number_In in Hd as [Hd Hdn].
  pose proof (unique_ids_same _ _ _ Hu Hs Hd Hid). congruence.
Qed.

Lemma moved_balances db amount sourceAccount destAccount :
  In sourceAccount (accounts db) -> In destAccount (accounts db) ->
  Account.id sourceAccount <> Account.id destAccount ->
  accountIdsUnique db ->
  exact_range (Account.balance sourceAccount) ->
  exact_range (Account.balance destAccount) ->
  exact_range amount ->
  let db1 := moved amount sourceAccount destAccount db in
  balanceOf db1 (Account.id sourceAccount)
    = Some (Account.balance sourceAccount - amount)
  /\ balanceOf db1 (Account.id destAccount)
    = Some (Account.balance destAccount + amount)
  /\ (forall id, id <> Account.id sourceAccount ->
        id <> Account.id destAccount -> balanceOf db1 id = balanceOf db id).
Proof.
  intros Hs Hd Hne Hu Hrs Hrd Hra db1. subst db1. unfold moved.
  assert (Hfind : forall a, In a (accounts db) ->
            List.find (fun x => Account.id x =? Account.id a) (accounts db)
            = Some a).
  { intros a Ha.
    destruct (find_id_exists (Account.id a) _ _ Ha eq_refl) as [a' Ha'].
    rewrite Ha'. f_equal.
    pose proof (find_id_In _ _ _ Ha') as Hid.
    apply find_some in Ha' as [Hin' _].
    by apply (unique_ids_same _ _ _ Hu Hin' Ha). }
  split; [|split].
  - rewrite balanceOf_post_other, balanceOf_post_same by done.
    unfold balanceOf. rewrite (Hfind _ Hs). simpl. f_equal.
    by apply toFixed2_sub.
  - rewrite balanceOf_post_same, balanceOf_post_other by done.
    unfold balanceOf. rewrite (Hfind _ Hd). simpl. f_equal.
    by apply toFixed2_add.
  - intros id H1 H2. by rewrite !balanceOf_post_other.
Qed.

(** X2. [POST /transactions/transfer], the success path.  Between two
    different, existing accounts that are not closed, with balances and
    amount in the exact range and the amount covered by the source balance,
    the handler answers 201 with the sender's reference number and the two
    new balances; the source balance goes down by the amount and the
    destination balance up by it, every other balance stays, and the ledger
    gains the sender's row (amount [-A]) and then the receiver's (amount
    [A]), each naming the other account. *)
Theorem rest_transfer_moves_money env1 env2 db body source dest amount
    sourceAccount destAccount :
  TransferBody.sourceAccountNumber body = Some source ->
  source <> EmptyString ->
  TransferBody.destinationAccountNumber body = Some dest ->
  dest <> EmptyString ->
  TransferBody.amount body = Some amount ->
  source <> dest ->
  List.find (fun a => bool_decide (Account.accountNumber a = source))
            (accounts db) = Some sourceAccount ->
  List.find (fun a => bool_decide (Account.accountNumber a = dest))
            (accounts db) = Some destAccount ->
  Account.status sourceAccount = active ->
  Account.status destAccount = active ->
  0 < amount <= Account.balance sourceAccount ->
  Account.balance sourceAccount < 10 ^ 15 ->
  exact_range (Account.balance destAccount) ->
  accountIdsUnique db -> issued db ->
  sequenceWritable env1 = true -> String.length (today env1) = 8%nat ->
  sequenceWritable env2 = true -> String.length (today env2) = 8%nat ->
  exists senderTx receiverTx db',
    post_transactions_transfer env1 env2 body db
      = (mkResponse 201 (Success
           (Transferred (Some (Transaction.referenceNumber senderTx))
              (parseFloat amount)
              source (parseFloat (Account.balance sourceAccount - amount))
              dest (parseFloat (Account.balance destAccount + amount)))
           (Some "Transfer successful")),
         db')
    /\ balanceOf db' (Account.id sourceAccount)
       = Some (Account.balance sourceAccount - amount)
    /\ balanceOf db' (Account.id destAccount)
       = Some (Account.balance destAccount + amount)
    /\ (forall id, id <> Account.id sourceAccount ->
          id <> Account.id destAccount -> balanceOf db' id = balanceOf db id)
    /\ transactions db' = transactions db ++ [senderTx; receiverTx]
    /\ (Transaction.accountId senderTx = Account.id sourceAccount
        /\ Transaction.type senderTx = INTERNAL_TRANSFER
        /\ Transaction.amount senderTx = - amount
        /\ Transaction.balanceAfter senderTx
           = Account.balance sourceAccount - amount
        /\ Transaction.relatedAccountNumber senderTx = Some dest)
    /\ (Transaction.accountId receiverTx = Account.id destAccount
        /\ Transaction.type receiverTx = INTERNAL_TRANSFER
        /\ Transaction.amount receiverTx = amount
        /\ Transaction.balanceAfter receiverTx
           = Account.balance destAccount + amount
        /\ Transaction.relatedAccountNumber receiverTx = Some source)
    /\ Transaction.referenceNumber senderTx
       <> Transaction.referenceNumber receiverTx.
Proof.
  intros Hs Hse Hd Hde Ha Hne Hfs Hfd Hsa Hda Hamt Hbs Hrd Hu Hi
         Hw1 Hl1 Hw2 Hl2.
  assert (Hpos : 0 < amount) by lia.
  assert (Hrs : exact_range (Account.balance sourceAccount))
    by (unfold exact_range; lia).
  assert (Hra : exact_range amount) by (unfold exact_range; lia).
  pose proof (found_distinct _ _ _ _ _ Hu Hne Hfs Hfd) as Hid.
  destruct (find_number_In _ _ _ Hfs) as [Hins Hns].
  destruct (find_number_In _ _ _ Hfd) as [Hind Hnd].
  destruct (moved_balances db amount _ _ Hins Hind Hid Hu Hrs Hrd Hra)
    as (Hb1 & Hb2 & Hb3).
  rewrite (post_transactions_transfer_run _ _ _ _ _ _ _ Hs Hse Hd Hde Ha Hpos Hne).
  rewrite Hfs, Hfd, Hsa, Hda. cbn [bool_decide decide_rel]. 
  rewrite !bool_decide_eq_false_2 by done.
  assert (Number.ltb (parseFloat (Account.balance sourceAccount))
                     (parseFloat amount) = false) as ->.
  { apply Z.ltb_ge, Z.le_ngt. rewrite parseFloat_lt by done. lia. }
  cbv zeta. rewrite Hw1.
  destruct (issued_fresh env1 db Hl1 Hi) as [-> _].
  set (db1 := moved amount sourceAccount destAccount db) in *.
  set (senderTx := ledgerRow env1 db1 _).
  assert (Hi2 : issued (append senderTx (advance env1 db1)))
    by by apply (issued_append env1 db1 senderTx).
  rewrite Hw2.
  destruct (issued_fresh env2 _ Hl2 Hi2) as [Hfresh2 _]. rewrite Hfresh2.
  set (db2 := append senderTx (advance env1 db1)) in *.
  set (receiverTx := ledgerRow env2 db2 _).
  exists senderTx, receiverTx, (append receiverTx (advance env2 db2)).
  assert (Htf : toFixed2 (parseFloat amount) = amount)
    by (apply toFixed2_parseFloat; unfold exact_range in Hra; lia).
  split.
  { unfold restSenderData, restReceiverData. simpl.
    by rewrite toFixed2_sub, toFixed2_add. }
  split; [exact Hb1|]. split; [exact Hb2|]. split; [exact Hb3|].
  split; [simpl; by rewrite <- app_assoc|].
  split.
  { subst senderTx. unfold ledgerRow, restSenderData. simpl.
    rewrite Htf, toFixed2_sub by done. by rewrite Hnd. }
  split.
  { subst receiverTx. unfold ledgerRow, restReceiverData. simpl.
    rewrite Htf, toFixed2_add by done. by rewrite Hns. }
  intros Href. unfold db2 in Hfresh2. rewrite ledgerHolds_append in Hfresh2.
  apply orb_false_elim in Hfresh2 as [_ Hfresh2].
  by apply bool_decide_eq_false in Hfresh2.
Qed.

Lemma rest_transfer_moves_money_witness :
  exists senderTx receiverTx db',
    fst (post_transactions_transfer env_20260115 env_20260115
           sample_transfer db_two_accounts)
      = mkResponse 201 (Success
          (Transferred (Some (Transaction.referenceNumber senderTx))
             (parseFloat 30000) "0011234567" (parseFloat 70000)
             "0027654321" (parseFloat 35000))
          (Some "Transfer successful"))
    /\ snd (post_transactions_transfer env_20260115 env_20260115
              sample_transfer db_two_accounts) = db'
    /\ balanceOf db' 1 = Some 70000 /\ balanceOf db' 2 = Some 35000
    /\ transactions db' = [senderTx; receiverTx].
Proof.
  destruct (rest_transfer_moves_money env_20260115 env_20260115
              db_two_accounts sample_transfer "0011234567" "0027654321"
              30000 (sample_account 100000 active) (second_account 5000))
    as (senderTx & receiverTx & db' & Hrun & Hb1 & Hb2 & _ & Htx & _);
    [reflexivity|done|reflexivity|done|reflexivity|done|reflexivity
    |reflexivity|reflexivity|reflexivity|simpl; lia|simpl; lia
    |unfold exact_range; simpl; lia
    |by apply (bool_decide_unpack _)|by intros r d n [H|H]
    |reflexivity|reflexivity|reflexivity|reflexivity|].
  exists senderTx, receiverTx, db'. rewrite Hrun.
  split; [reflexivity|]. split; [reflexivity|]. split; [exact Hb1|].
  split; [exact Hb2|exact Htx].
Defined.

End RestTransfers.

(** ** The Instapay callback endpoints *)

Section CallbackEndpoints.

Import restApiRouter.

(** A callback that returns, returns the record it has just written. *)
Lemma callback_returns_record env referenceNumber status
    switchReferenceNumber statusMessage db res db' :
  updateInstapayTransactionStatus env referenceNumber status
    switchReferenceNumber statusMessage db = (Ok res, db') ->
  exists existingTx,
    List.find (byReference referenceNumber) (instapayTransactions db)
      = Some existingTx
    /\ res = Some (settle referenceNumber status switchReferenceNumber
                          statusMessage existingTx existingTx)
    /\ List.find (byReference referenceNumber) (instapayTransactions db')
       = res.
Proof.
  intros H. rewrite updateInstapayTransactionStatus_run in H.
  unfold byReference.
  destruct (List.find _ (instapayTransactions db)) as [ex|] eqn:Hfind;
    [|done]. cbv zeta in H.
  assert (Hfin : exists db0,
    List.find (fun r => bool_decide
                 (InstapayTransaction.referenceNumber r = referenceNumber))
              (instapayTransactions db0) = Some ex
    /\ finish referenceNumber status switchReferenceNumber statusMessage
         ex db0 = (Ok res, db')).
  { destruct (_ && _); [|by eauto].
    destruct (List.find _ (accounts db)); [|by eauto].
    destruct (sequenceWritable env); [|done].
    destruct (ledgerHolds db (nextReference env db)); [done|].
    eexists. split; [|exact H]. exact Hfind. }
  destruct Hfin as (db0 & Hfind0 & Hfin).
  apply finish_record in Hfin as (Hres & Hfind' & _); [|done].
  injection Hres as ->. exists ex. by rewrite Hfind'.
Qed.

Lemma instapay_status_nonempty s st :
  instapay_status s = Some st -> s <> EmptyString.
Proof. by intros H ->. Qed.

Lemma post_instapay_callback_run env body db referenceNumber s status :
  CallbackBody.referenceNumber body = Some referenceNumber ->
  referenceNumber <> EmptyString ->
  CallbackBody.status body = Some s -> instapay_status s = Some status ->
  post_instapay_callback env body db =
    match updateInstapayTransactionStatus env referenceNumber status
            (CallbackBody.switchReferenceNumber body)
            (CallbackBody.message body) db with
    | (Ok (Some result), db') =>
        (mkResponse 200 (Success
           (Acknowledged referenceNumber (InstapayTransaction.status result))
           None), db')
    | (Ok None, db') =>
        (failure 404 "NOT_FOUND" "Instapay transaction not found", db')
    | (Throw _, db') =>
        (failure 500 "INTERNAL_ERROR" "Failed to process callback", db')
    end.
Proof.
  intros Hr Hre Hs Hst. unfold post_instapay_callback, handle.
  rewrite Hr, Hs, !missing_false by eauto using instapay_status_nonempty.
  unfold default. cbn [orb from_option id]. rewrite Hst.
  cbv [mbind M_bind mret M_ret].
  destruct (updateInstapayTransactionStatus _ _ _ _ _ db) as [[[r|]|e] db'];
    done.
Qed.

(** X3. A callback for a reference number that no Instapay record carries
    is answered with an internal error and changes nothing: the REST
    handler answers 500 [INTERNAL_ERROR], the tRPC procedure throws
    [INTERNAL_SERVER_ERROR] with the message "Instapay transaction not
    found". *)
Theorem callback_unknown_reference env db referenceNumber :
  referenceNumber <> EmptyString ->
  List.find (byReference referenceNumber) (instapayTransactions db) = None ->
  (forall body s status,
     CallbackBody.referenceNumber body = Some referenceNumber ->
     CallbackBody.status body = Some s -> instapay_status s = Some status ->
     post_instapay_callback env body db
       = (failure 500 "INTERNAL_ERROR" "Failed to process callback", db))
  /\ (forall driver input,
        switch.CallbackInput.referenceNumber input = referenceNumber ->
        switch.instapayCallback env driver input db
          = (Throw (TRPCError "INTERNAL_SERVER_ERROR"
                      "Instapay transaction not found"), db)).
Proof.
  intros Hne Hfind. unfold byReference in Hfind. split.
  - intros body s status Hr Hs Hst.
    rewrite (post_instapay_callback_run _ _ _ _ _ _ Hr Hne Hs Hst).
    by rewrite updateInstapayTransactionStatus_run, Hfind.
  - intros driver input <-. unfold switch.instapayCallback, zod, min1.
    rewrite bool_decide_eq_false_2 by done.
    unfold tryCatch. cbv [mbind M_bind mret M_ret].
    by rewrite updateInstapayTransactionStatus_run, Hfind.
Qed.






(** X5. A callback for a record on file, delivered while the sequence
    counter is writable, is acknowledged by the REST handler with 200 and
    the status it carried, and the record is left in that status. *)
Theorem rest_callback_acknowledged env db body referenceNumber s status
    existingTx :
  CallbackBody.referenceNumber body = Some referenceNumber ->
  referenceNumber <> EmptyString ->
  CallbackBody.status body = Some s -> instapay_status s = Some status ->
  List.find (byReference referenceNumber) (instapayTransactions db)
    = Some existingTx ->
  issued db -> String.length (today env) = 8%nat ->
  sequenceWritable env = true ->
  exists db',
    post_instapay_callback env body db
      = (mkResponse 200 (Success (Acknowledged referenceNumber status) None),
         db')
    /\ statusOf db' referenceNumber = Some status.
Proof.
  intros Hr Hre Hs Hst Hfind Hi Hlen Hw.
  rewrite (post_instapay_callback_run _ _ _ _ _ _ Hr Hre Hs Hst).
  destruct (updateInstapayTransactionStatus _ _ _ _ _ db)
    as [[res|e] db'] eqn:Hrun.
  - apply callback_returns_record in Hrun as (ex & Hex & -> & Hfind').
    pose proof (find_reference_In _ _ _ Hex) as Href.
    exists db'. rewrite settle_status by done. split; [done|].
    unfold statusOf. rewrite Hfind'. simpl. by rewrite settle_status.
  - exfalso. rewrite updateInstapayTransactionStatus_run in Hrun.
    unfold byReference in Hfind. rewrite Hfind in Hrun. cbv zeta in Hrun.
    unfold finish in Hrun.
    destruct (_ && _); [|done].
    destruct (List.find _ (accounts db)); [|done].
    rewrite Hw in Hrun. destruct (issued_fresh env db Hlen Hi) as [Hl _].
    by rewrite Hl in Hrun.
Qed.

Lemma issued_db_sent status : issued (db_sent status).
Proof.
  assert (Hone : forall r d n,
            r = "TXN20260115000001" -> String.length d = 8%nat ->
            r = reference d n -> n <= lastSequence (db_sent status) d).
  { intros r d n -> Hlen Href.
    change "TXN20260115000001" with (reference "20260115" 1) in Href.
    apply reference_inj_date in Href as [<- <-]; done. }
  intros r d n [H|H] Hlen Href; apply (Hone r d n); try done.
  - unfold ledgerHolds in H. simpl in H. rewrite orb_false_r in H.
    by apply bool_decide_eq_true in H.
  - unfold instapayHolds in H. simpl in H. rewrite orb_false_r in H.
    by apply bool_decide_eq_true in H.
Qed.

Lemma callback_unknown_reference_witness :
  post_instapay_callback env_20260115 (sample_callback "SUCCESS")
    (db_account 70000 active)
  = (failure 500 "INTERNAL_ERROR" "Failed to process callback",
     db_account 70000 active).
Proof.
  destruct (callback_unknown_reference env_20260115 (db_account 70000 active)
              "TXN20260115000001") as [Hrest _]; [done|reflexivity|].
  apply (Hrest (sample_callback "SUCCESS") "SUCCESS" SUCCESS); reflexivity.
Defined.

Lemma rest_callback_acknowledged_witness :
  exists db',
    post_instapay_callback env_20260115 (sample_callback "FAILED")
      (db_sent PENDING)
    = (mkResponse 200
         (Success (Acknowledged "TXN20260115000001" FAILED) None), db')
    /\ statusOf db' "TXN20260115000001" = Some FAILED.
Proof.
  apply (rest_callback_acknowledged env_20260115 (db_sent PENDING)
           (sample_callback "FAILED") "TXN20260115000001" "FAILED" FAILED
           (sample_instapay PENDING));
    [reflexivity|done|reflexivity|reflexivity|reflexivity
    |apply issued_db_sent|reflexivity|reflexivity].
Defined.


End CallbackEndpoints.

(** ** What a refused REST request leaves behind *)

Section RestRefusals.

Import restApiRouter.

Lemma deposit_refusal env body db r db' :
  restApi.post_transactions_deposit env body db = (r, db') ->
  400 <= restApi.status r < 500 -> db' = db.
Proof.
  unfold restApi.post_transactions_deposit, restApi.try_catch.
  destruct (restApi.invalid body); [by intros [= <- <-]|]. run.
  destruct (List.find _ (accounts db)) as [account|]; [|by intros [= <- <-]].
  destruct (bool_decide _); [by intros [= <- <-]|].
  rewrite updateAccountBalance_run, createTransaction_run.
  destruct (sequenceWritable env); [destruct (ledgerHolds _ _)|];
    intros [= <- <-]; simpl; lia.
Qed.

Lemma withdrawal_refusal env body db r db' :
  restApi.post_transactions_withdrawal env body db = (r, db') ->
  400 <= restApi.status r < 500 -> db' = db.
Proof.
  unfold restApi.post_transactions_withdrawal, restApi.try_catch.
  destruct (restApi.invalid body); [by intros [= <- <-]|]. run.
  destruct (List.find _ (accounts db)) as [account|]; [|by intros [= <- <-]].
  destruct (bool_decide _); [by intros [= <- <-]|].
  destruct (Number.ltb _ _); [by intros [= <- <-]|].
  rewrite updateAccountBalance_run, createTransaction_run.
  destruct (sequenceWritable env); [destruct (ledgerHolds _ _)|];
    intros [= <- <-]; simpl; lia.
Qed.

Lemma transfer_refusal env1 env2 body db r db' :
  post_transactions_transfer env1 env2 body db = (r, db') ->
  400 <= status r < 500 -> db' = db.
Proof.
  unfold post_transactions_transfer, handle.
  destruct (_ || _); [by intros [= <- <-]|].
  destruct (bool_decide _); [by intros [= <- <-]|]. run.
  destruct (List.find _ (accounts db)) as [sourceAccount|];
    [|by intros [= <- <-]].
  destruct (List.find _ (accounts db)) as [destAccount|];
    [|by intros [= <- <-]].
  destruct (bool_decide _); [by intros [= <- <-]|].
  destruct (bool_decide _); [by intros [= <- <-]|].
  destruct (Number.ltb _ _); [by intros [= <- <-]|].
  rewrite !updateAccountBalance_run, createTransaction_run.
  destruct (sequenceWritable env1); [|intros [= <- <-]; simpl; lia].
  destruct (ledgerHolds _ _); [intros [= <- <-]; simpl; lia|].
  rewrite createTransaction_run.
  destruct (sequenceWritable env2); [destruct (ledgerHolds _ _)|];
    intros [= <- <-]; simpl; lia.
Qed.

Lemma status_refusal id body db r db' :
  put_accounts_status id body db = (r, db') ->
  400 <= status r < 500 -> db' = db.
Proof.
  unfold put_accounts_status, handle.
  destruct (account_status _) as [st|]; [|by intros [= <- <-]].
  cbv [mbind M_bind mret M_ret]. rewrite updateAccountStatus_run.
  rewrite find_mark_same.
  destruct (List.find _ (accounts db)) as [account|] eqn:Hfind; simpl.
  - intros [= <- <-]. simpl. lia.
  - intros [= <- <-] _. unfold set_accounts.
    rewrite (mark_absent _ _ _ Hfind). apply db_eta.
Qed.

Lemma callback_refusal env body db r db' :
  post_instapay_callback env body db = (r, db') ->
  400 <= status r < 500 -> db' = db.
Proof.
  unfold post_instapay_callback, handle.
  destruct (_ || _); [by intros [= <- <-]|].
  destruct (instapay_status _) as [st|]; [|by intros [= <- <-]].
  cbv [mbind M_bind mret M_ret].
  destruct (updateInstapayTransactionStatus _ _ _ _ _ db)
    as [[res|e] db0] eqn:Hrun.
  - apply callback_returns_record in Hrun as (ex & _ & -> & _).
    intros [= <- <-]. simpl. lia.
  - intros [= <- <-]. simpl. lia.
Qed.

(** X6. A REST request that is refused with a 4xx status has changed
    nothing: whenever the deposit, withdrawal, transfer, account status or
    Instapay callback handler answers with a status from 400 to 499, the
    database is exactly as it was before the request. *)
Theorem rest_refusal_changes_nothing :
  (forall env body db r db',
     restApi.post_transactions_deposit env body db = (r, db') ->
     400 <= restApi.status r < 500 -> db' = db)
  /\ (forall env body db r db',
        restApi.post_transactions_withdrawal env body db = (r, db') ->
        400 <= restApi.status r < 500 -> db' = db)
  /\ (forall env1 env2 body db r db',
        post_transactions_transfer env1 env2 body db = (r, db') ->
        400 <= status r < 500 -> db' = db)
  /\ (forall id body db r db',
        put_accounts_status id body db = (r, db') ->
        400 <= status r < 500 -> db' = db)
  /\ (forall env body db r db',
        post_instapay_callback env body db = (r, db') ->
        400 <= status r < 500 -> db' = db).
Proof.
  repeat split.
  - apply deposit_refusal.
  - apply withdrawal_refusal.
  - apply transfer_refusal.
  - apply status_refusal.
  - apply callback_refusal.
Qed.

Lemma rest_refusal_changes_nothing_witness :
  let out := restApi.post_transactions_withdrawal env_20260115 sample_posting
               (db_account 10000 active) in
  restApi.status (fst out) = 400 /\ snd out = db_account 10000 active.
Proof.
  intros out. split; [by vm_compute|].
  apply (proj1 (proj2 rest_refusal_changes_nothing) env_20260115
           sample_posting (db_account 10000 active) (fst out) (snd out)).
  - apply surjective_pairing.
  - assert (restApi.status (fst out) = 400) as -> by (by vm_compute). lia.
Defined.

End RestRefusals.

(** ** Postings over REST *)

Section RestPostings.

Import restApiRouter.

(** X7. A transfer is not atomic.  When the counter refuses the write for
    the second reference number, [POST /transactions/transfer] answers 500,
    yet both balances have been written, the sender's ledger row is on file
    and the receiver's row is missing. *)
Theorem rest_transfer_not_atomic env1 env2 db body source dest amount
    sourceAccount destAccount :
  TransferBody.sourceAccountNumber body = Some source ->
  source <> EmptyString ->
  TransferBody.destinationAccountNumber body = Some dest ->
  dest <> EmptyString ->
  TransferBody.amount body = Some amount ->
  source <> dest ->
  List.find (fun a => bool_decide (Account.accountNumber a = source))
            (accounts db) = Some sourceAccount ->
  List.find (fun a => bool_decide (Account.accountNumber a = dest))
            (accounts db) = Some destAccount ->
  Account.status sourceAccount = active ->
  Account.status destAccount = active ->
  0 < amount <= Account.balance sourceAccount ->
  Account.balance sourceAccount < 10 ^ 15 ->
  exact_range (Account.balance destAccount) ->
  accountIdsUnique db -> issued db ->
  sequenceWritable env1 = true -> String.length (today env1) = 8%nat ->
  sequenceWritable env2 = false ->
  exists senderTx db',
    post_transactions_transfer env1 env2 body db
      = (failure 500 "INTERNAL_ERROR" "Failed to process transfer", db')
    /\ balanceOf db' (Account.id sourceAccount)
       = Some (Account.balance sourceAccount - amount)
    /\ balanceOf db' (Account.id destAccount)
       = Some (Account.balance destAccount + amount)
    /\ transactions db' = transactions db ++ [senderTx]
    /\ Transaction.accountId senderTx = Account.id sourceAccount
    /\ Transaction.amount senderTx = - amount.
Proof.
  intros Hs Hse Hd Hde Ha Hne Hfs Hfd Hsa Hda Hamt Hbs Hrd Hu Hi
         Hw1 Hl1 Hw2.
  assert (Hpos : 0 < amount) by lia.
  assert (Hrs : exact_range (Account.balance sourceAccount))
    by (unfold exact_range; lia).
  assert (Hra : exact_range amount) by (unfold exact_range; lia).
  pose proof (found_distinct _ _ _ _ _ Hu Hne Hfs Hfd) as Hid.
  destruct (find_number_In _ _ _ Hfs) as [Hins Hns].
  destruct (find_number_In _ _ _ Hfd) as [Hind Hnd].
  destruct (moved_balances db amount _ _ Hins Hind Hid Hu Hrs Hrd Hra)
    as (Hb1 & Hb2 & Hb3).
  rewrite (post_transactions_transfer_run _ _ _ _ _ _ _ Hs Hse Hd Hde Ha Hpos Hne).
  rewrite Hfs, Hfd, Hsa, Hda.
  rewrite !bool_decide_eq_false_2 by done.
  assert (Number.ltb (parseFloat (Account.balance sourceAccount))
                     (parseFloat amount) = false) as ->.
  { apply Z.ltb_ge, Z.le_ngt. rewrite parseFloat_lt by done. lia. }
  cbv zeta. rewrite Hw1, Hw2.
  destruct (issued_fresh env1 db Hl1 Hi) as [-> _].
  eexists _, _. split; [reflexivity|].
  split; [exact Hb1|]. split; [exact Hb2|]. split; [reflexivity|].
  split; [reflexivity|]. simpl. f_equal.
  apply toFixed2_parseFloat. unfold exact_range in Hra. lia.
Qed.

(** X8. [POST /transactions/deposit], the success path.  For an account
    that is not closed, with balance and amount in the exact range, the
    handler answers 201 with the reference number of the new ledger row and
    the new balance; the balance has gone up by the amount and the ledger
    has gained one DEPOSIT row for that amount. *)
Theorem rest_deposit_posts env db body accountNumber amount account :
  restApi.Body.accountNumber body = Some accountNumber ->
  accountNumber <> EmptyString ->
  restApi.Body.amount body = Some amount ->
  List.find (fun a => bool_decide (Account.accountNumber a = accountNumber))
            (accounts db) = Some account ->
  Account.status account = active ->
  0 < amount < 10 ^ 15 -> exact_range (Account.balance account) ->
  issued db -> sequenceWritable env = true ->
  String.length (today env) = 8%nat ->
  exists row db',
    restApi.post_transactions_deposit env body db
      = (restApi.mkResponse 201
           (restApi.Posted (Some (Transaction.referenceNumber row)) DEPOSIT
              (parseFloat amount)
              (parseFloat (Account.balance account + amount))
              "Deposit successful"),
         db')
    /\ balanceOf db' (Account.id account)
       = Some (Account.balance account + amount)
    /\ transactions db' = transactions db ++ [row]
    /\ Transaction.accountId row = Account.id account
    /\ Transaction.type row = DEPOSIT
    /\ Transaction.amount row = amount
    /\ Transaction.balanceAfter row = Account.balance account + amount
    /\ Transaction.referenceNumber row = nextReference env db.
Proof.
  intros Hn Hne Ha Hfind Hst Hamt Hb Hi Hw Hlen.
  assert (Hpos : 0 < amount) by lia.
  assert (Hra : exact_range amount) by (unfold exact_range; lia).
  rewrite (post_transactions_deposit_run _ _ _ _ _ Hn Hne Ha Hpos), Hfind, Hst.
  rewrite bool_decide_eq_false_2 by done. cbv zeta. rewrite Hw.
  destruct (issued_fresh env db Hlen Hi) as [-> _].
  assert (Htf : toFixed2 (parseFloat amount) = amount)
    by (apply toFixed2_parseFloat; lia).
  assert (Hdata : CreateTransactionData.balanceAfter
                    (restDepositData body amount account)
                  = Account.balance account + amount)
    by by apply toFixed2_add.
  rewrite Hdata.
  set (db1 := set_accounts _ db).
  exists (ledgerRow env db1 (restDepositData body amount account)).
  eexists. split; [reflexivity|]. split.
  { subst db1. unfold balanceOf. simpl accounts. rewrite find_post_same.
    destruct (find_number_In _ _ _ Hfind) as [Hin _].
    by destruct (find_id_exists (Account.id account) (accounts db) account
                   Hin eq_refl) as [a' ->]. }
  split; [reflexivity|]. split; [reflexivity|]. split; [reflexivity|].
  split; [exact Htf|]. split; [exact Hdata|reflexivity].
Qed.

(** X9. [POST /transactions/withdrawal], the success path.  For an account
    that is not closed, with balance and amount in the exact range and the
    amount covered by the balance, the handler answers 201; the balance has
    gone down by the amount, stays non-negative, and the ledger has gained
    one WITHDRAWAL row with the negated amount. *)
Theorem rest_withdrawal_posts env db body accountNumber amount account :
  restApi.Body.accountNumber body = Some accountNumber ->
  accountNumber <> EmptyString ->
  restApi.Body.amount body = Some amount ->
  List.find (fun a => bool_decide (Account.accountNumber a = accountNumber))
            (accounts db) = Some account ->
  Account.status account = active ->
  0 < amount <= Account.balance account ->
  Account.balance account < 10 ^ 15 ->
  issued db -> sequenceWritable env = true ->
  String.length (today env) = 8%nat ->
  exists row db',
    restApi.post_transactions_withdrawal env body db
      = (restApi.mkResponse 201
           (restApi.Posted (Some (Transaction.referenceNumber row)) WITHDRAWAL
              (parseFloat amount)
              (parseFloat (Account.balance account - amount))
              "Withdrawal successful"),
         db')
    /\ balanceOf db' (Account.id account)
       = Some (Account.balance account - amount)
    /\ 0 <= Account.balance account - amount
    /\ transactions db' = transactions db ++ [row]
    /\ Transaction.accountId row = Account.id account
    /\ Transaction.type row = WITHDRAWAL
    /\ Transaction.amount row = - amount
    /\ Transaction.balanceAfter row = Account.balance account - amount
    /\ Transaction.referenceNumber row = nextReference env db.
Proof.
  intros Hn Hne Ha Hfind Hst Hamt Hb Hi Hw Hlen.
  assert (Hpos : 0 < amount) by lia.
  assert (Hra : exact_range amount) by (unfold exact_range; lia).
  assert (Hrb : exact_range (Account.balance account))
    by (unfold exact_range; lia).
  rewrite (post_transactions_withdrawal_run _ _ _ _ _ Hn Hne Ha Hpos),
    Hfind, Hst.
  rewrite bool_decide_eq_false_2 by done.
  assert (Number.ltb (parseFloat (Account.balance account))
                     (parseFloat amount) = false) as ->.
  { apply Z.ltb_ge, Z.le_ngt. rewrite parseFloat_lt by done. lia. }
  cbv zeta. rewrite Hw.
  destruct (issued_fresh env db Hlen Hi) as [-> _].
  assert (Htf : toFixed2 (parseFloat amount) = amount)
    by (apply toFixed2_parseFloat; lia).
  assert (Hdata : CreateTransactionData.balanceAfter
                    (restWithdrawalData body amount account)
                  = Account.balance account - amount)
    by by apply toFixed2_sub.
  rewrite Hdata.
  set (db1 := set_accounts _ db).
  exists (ledgerRow env db1 (restWithdrawalData body amount account)).
  eexists. split; [reflexivity|]. split.
  { subst db1. unfold balanceOf. simpl accounts. rewrite find_post_same.
    destruct (find_number_In _ _ _ Hfind) as [Hin _].
    by destruct (find_id_exists (Account.id account) (accounts db) account
                   Hin eq_refl) as [a' ->]. }
  split; [lia|].
  split; [reflexivity|]. split; [reflexivity|]. split; [reflexivity|].
  split; [simpl; by rewrite Htf|]. split; [exact Hdata|reflexivity].
Qed.

(** X10. Closing an account shuts the REST postings on it.  Once
    [updateAccountStatus] has closed the account, a deposit to its account
    number and a withdrawal from it are answered with 400 [ACCOUNT_CLOSED];
    a transfer out of it is answered with 400 [ACCOUNT_CLOSED] when the
    destination account exists and with 404 [NOT_FOUND] when it does not;
    each request leaves the database as the closing left it. *)
Theorem closed_account_refuses_rest_postings env1 env2 db accountNumber
    account :
  accountNumber <> EmptyString ->
  List.find (fun a => bool_decide (Account.accountNumber a = accountNumber))
            (accounts db) = Some account ->
  let db1 := snd (updateAccountStatus (Account.id account) closed db) in
  (forall body amount,
     restApi.Body.accountNumber body = Some accountNumber ->
     restApi.Body.amount body = Some amount -> 0 < amount ->
     restApi.post_transactions_deposit env1 body db1
       = (restApi.mkResponse 400
            (restApi.Failure "ACCOUNT_CLOSED"
               (restApi.Text "Cannot deposit to a closed account")), db1)
     /\ restApi.post_transactions_withdrawal env1 body db1
        = (restApi.mkResponse 400
             (restApi.Failure "ACCOUNT_CLOSED"
                (restApi.Text "Cannot withdraw from a closed account")), db1))
  /\ (forall body dest amount,
        TransferBody.sourceAccountNumber body = Some accountNumber ->
        TransferBody.destinationAccountNumber body = Some dest ->
        dest <> EmptyString -> dest <> accountNumber ->
        TransferBody.amount body = Some amount -> 0 < amount ->
        post_transactions_transfer env1 env2 body db1
          = (match List.find
                     (fun a => bool_decide (Account.accountNumber a = dest))
                     (accounts db) with
             | Some _ => failure 400 "ACCOUNT_CLOSED"
                           "Cannot transfer from a closed account"
             | None => failure 404 "NOT_FOUND" "Destination account not found"
             end, db1)).
Proof.
  intros Hne Hfind db1.
  assert (Hfind1 :
    List.find (fun a => bool_decide (Account.accountNumber a = accountNumber))
              (accounts db1)
    = Some (set_account_status closed account)).
  { subst db1. rewrite updateAccountStatus_run. simpl.
    rewrite find_mark_number, Hfind. simpl. unfold mark.
    by rewrite Z.eqb_refl. }
  split.
  - intros body amount Hn Ha Hpos. split.
    + rewrite (post_transactions_deposit_run _ _ _ _ _ Hn Hne Ha Hpos).
      by rewrite Hfind1.
    + rewrite (post_transactions_withdrawal_run _ _ _ _ _ Hn Hne Ha Hpos).
      by rewrite Hfind1.
  - intros body dest amount Hs Hd Hde Hdn Ha Hpos.
    rewrite (post_transactions_transfer_run _ _ _ _ _ _ _ Hs Hne Hd Hde Ha Hpos)
      by done.
    rewrite Hfind1.
    assert (Hfd1 :
      List.find (fun a => bool_decide (Account.accountNumber a = dest))
                (accounts db1)
      = mark (Account.id account) closed
          <$> List.find (fun a => bool_decide (Account.accountNumber a = dest))
                        (accounts db)).
    { subst db1. rewrite updateAccountStatus_run. simpl.
      by rewrite find_mark_number. }
    rewrite Hfd1.
    by destruct (List.find (fun a => bool_decide (_ = dest)) (accounts db)).
Qed.

(** X11. Closing an active account and reopening it is a round trip: the
    database is exactly as before, when every account under that id was
    active. *)
Theorem close_then_reopen accountId db :
  (forall a, In a (accounts db) -> Account.id a = accountId ->
             Account.status a = active) ->
  snd (updateAccountStatus accountId active
         (snd (updateAccountStatus accountId closed db))) = db.
Proof.
  intros Hact. rewrite !updateAccountStatus_run. simpl.
  unfold set_accounts. simpl. rewrite <- (db_eta db) at 5. f_equal.
  rewrite map_map.
  induction (accounts db) as [|a l IH]; simpl; [done|].
  rewrite IH by (intros; apply Hact; simpl; auto). f_equal.
  unfold mark. destruct (Account.id a =? accountId) eqn:E; simpl.
  - rewrite E. unfold set_account_status. simpl.
    rewrite <- (Hact a) by (simpl; auto; lia). by destruct a.
  - by rewrite E.
Qed.

Lemma rest_transfer_not_atomic_witness :
  exists senderTx db',
    post_transactions_transfer env_20260115 env_store_down sample_transfer
      db_two_accounts
    = (failure 500 "INTERNAL_ERROR" "Failed to process transfer", db')
    /\ balanceOf db' 1 = Some 70000 /\ balanceOf db' 2 = Some 35000
    /\ transactions db' = [senderTx].
Proof.
  destruct (rest_transfer_not_atomic env_20260115 env_store_down
              db_two_accounts sample_transfer "0011234567" "0027654321"
              30000 (sample_account 100000 active) (second_account 5000))
    as (senderTx & db' & Hrun & Hb1 & Hb2 & Htx & _);
    [reflexivity|done|reflexivity|done|reflexivity|done|reflexivity
    |reflexivity|reflexivity|reflexivity|simpl; lia|simpl; lia
    |unfold exact_range; simpl; lia
    |by apply (bool_decide_unpack _)|by intros r d n [H|H]
    |reflexivity|reflexivity|reflexivity|].
  exists senderTx, db'. split; [exact Hrun|]. split; [exact Hb1|].
  split; [exact Hb2|exact Htx].
Defined.

Lemma rest_deposit_posts_witness :
  exists row db',
    restApi.post_transactions_deposit env_20260115 sample_posting
      (db_account 70000 active)
    = (restApi.mkResponse 201
         (restApi.Posted (Some (Transaction.referenceNumber row)) DEPOSIT
            (parseFloat 30000) (parseFloat 100000) "Deposit successful"),
       db')
    /\ balanceOf db' 1 = Some 100000
    /\ transactions db' = [row].
Proof.
  destruct (rest_deposit_posts env_20260115 (db_account 70000 active)
              sample_posting "0011234567" 30000 (sample_account 70000 active))
    as (row & db' & Hrun & Hbal & Htx & _);
    [reflexivity|done|reflexivity|reflexivity|reflexivity|lia
    |unfold exact_range; simpl; lia|by intros r d n [H|H]
    |reflexivity|reflexivity|].
  exists row, db'. split; [exact Hrun|]. split; [exact Hbal|exact Htx].
Defined.

Lemma rest_withdrawal_posts_witness :
  exists row db',
    restApi.post_transactions_withdrawal env_20260115 sample_posting
      (db_account 70000 active)
    = (restApi.mkResponse 201
         (restApi.Posted (Some (Transaction.referenceNumber row)) WITHDRAWAL
            (parseFloat 30000) (parseFloat 40000) "Withdrawal successful"),
       db')
    /\ balanceOf db' 1 = Some 40000
    /\ Transaction.amount row = -30000.
Proof.
  destruct (rest_withdrawal_posts env_20260115 (db_account 70000 active)
              sample_posting "0011234567" 30000 (sample_account 70000 active))
    as (row & db' & Hrun & Hbal & _ & _ & _ & _ & Hamt & _);
    [reflexivity|done|reflexivity|reflexivity|reflexivity|simpl; lia
    |simpl; lia|by intros r d n [H|H]|reflexivity|reflexivity|].
  exists row, db'. split; [exact Hrun|]. split; [exact Hbal|exact Hamt].
Defined.

Lemma closed_account_refuses_rest_postings_witness :
  let db1 := snd (updateAccountStatus 1 closed db_two_accounts) in
  restApi.post_transactions_deposit env_20260115 sample_posting db1
  = (restApi.mkResponse 400
       (restApi.Failure "ACCOUNT_CLOSED"
          (restApi.Text "Cannot deposit to a closed account")), db1)
  /\ restApi.post_transactions_withdrawal env_20260115 sample_posting db1
     = (restApi.mkResponse 400
          (restApi.Failure "ACCOUNT_CLOSED"
             (restApi.Text "Cannot withdraw from a closed account")), db1)
  /\ post_transactions_transfer env_20260115 env_20260115 sample_transfer db1
     = (failure 400 "ACCOUNT_CLOSED" "Cannot transfer from a closed account",
        db1)
  /\ post_transactions_transfer env_20260115 env_20260115
       (TransferBody.mk (Some "0011234567") (Some "0039999999") (Some 30000)
          None) db1
     = (failure 404 "NOT_FOUND" "Destination account not found", db1).
Proof.
  intros db1.
  destruct (closed_account_refuses_rest_postings env_20260115 env_20260115
              db_two_accounts "0011234567" (sample_account 100000 active))
    as [Hpost Htransfer]; [done|reflexivity|].
  destruct (Hpost sample_posting 30000) as [Hdep Hwd];
    [reflexivity|reflexivity|lia|].
  split; [exact Hdep|]. split; [exact Hwd|]. split.
  - apply (Htransfer sample_transfer "0027654321" 30000);
      [reflexivity|reflexivity|done|done|reflexivity|lia].
  - apply (Htransfer _ "0039999999" 30000);
      [reflexivity|reflexivity|done|done|reflexivity|lia].
Defined.

Lemma close_then_reopen_witness :
  snd (updateAccountStatus 1 active
         (snd (updateAccountStatus 1 closed db_two_accounts)))
  = db_two_accounts.
Proof.
  apply (close_then_reopen 1 db_two_accounts).
  intros a [<-|[<-|[]]] Hid; reflexivity.
Defined.

End RestPostings.

(** ** Sending over the switch *)

Section SwitchSend.

(** X12. A transfer that [createInstapayTransaction] rejects by one of its
    own rules (source account missing or not active, amount not positive or
    above 50,000, balance too low) has still drawn a reference number: the
    counter of the day has advanced by one, and nothing else has changed. *)
Theorem instapay_rejection_consumes_reference env input db message db' :
  createInstapayTransaction env input db = (Throw (JsError message), db') ->
  db' = advance env db
  /\ lastSequence db' (today env) = lastSequence db (today env) + 1
  /\ accounts db' = accounts db
  /\ transactions db' = transactions db
  /\ instapayTransactions db' = instapayTransactions db.
Proof.
  intros H. rewrite createInstapayTransaction_run in H.
  destruct (sequenceWritable env); [|done]. cbv zeta in H.
  assert (db' = advance env db) as ->.
  { destruct (List.find _ (accounts db)) as [sourceAccount|];
      [|by injection H as _ <-].
    destruct (negb _); [by injection H as _ <-|].
    destruct (Number.leb _ _); [by injection H as _ <-|].
    destruct (Number.gtb _ _); [by injection H as _ <-|].
    destruct (Number.ltb _ _); [by injection H as _ <-|].
    destruct (ledgerHolds _ _); [done|]. by destruct (instapayHolds _ _). }
  split; [done|]. split; [apply lastSequence_advance|done].
Qed.

Lemma instapay_rejection_consumes_reference_witness :
  let out := createInstapayTransaction env_20260115 (sample_input 60000)
               (db_account 70000 closed) in
  fst out = Throw (JsError "Source account is not active")
  /\ lastSequence (snd out) "20260115" = 1
  /\ accounts (snd out) = accounts (db_account 70000 closed).
Proof.
  intros out.
  destruct (instapay_rejection_consumes_reference env_20260115
              (sample_input 60000) (db_account 70000 closed)
              "Source account is not active" (snd out))
    as (_ & Hseq & Hacc & _); [reflexivity|].
  split; [reflexivity|]. split; [exact Hseq|exact Hacc].
Defined.

Lemma zod_passes : zod [] = mret tt.
Proof. reflexivity. Qed.

Lemma amount_in_limits_true amount :
  0 < amount <= 5000000 -> switch.amount_in_limits amount = true.
Proof.
  intros Ha. unfold switch.amount_in_limits, Number.gtb, Number.leb.
  apply andb_true_intro. split.
  - apply Z.ltb_lt. unfold Number.of_int. simpl (0 * _).
    apply parseFloat_pos. lia.
  - apply Z.leb_le. rewrite <- parseFloat_50000.
    apply Z.le_ngt. rewrite parseFloat_lt; [lia| |]; unfold exact_range; lia.
Qed.

Lemma send_input_accepted input :
  switch.SendInput.bankCode input <> EmptyString ->
  switch.SendInput.bankName input <> EmptyString ->
  switch.SendInput.accountNumber input <> EmptyString ->
  switch.SendInput.accountName input <> EmptyString ->
  switch.amount_in_limits (switch.SendInput.amount input) = true ->
  min1 (switch.SendInput.bankCode input) "Bank code is required"
  ++ min1 (switch.SendInput.bankName input) "Bank name is required"
  ++ min1 (switch.SendInput.accountNumber input) "Account number is required"
  ++ min1 (switch.SendInput.accountName input) "Account name is required"
  ++ (if switch.amount_in_limits (switch.SendInput.amount input) then []
      else ["Amount must be between 0.01 and 50,000"]) = [].
Proof.
  intros H1 H2 H3 H4 ->. unfold min1.
  by rewrite !bool_decide_eq_false_2.
Qed.

(** X13. What [switch.instapaySend] does with an input that passes its
    schema when the source account cannot send.  For an unknown account it
    throws [NOT_FOUND] and nothing has changed; for an account that is not
    active it throws [INTERNAL_SERVER_ERROR] "Source account is not active",
    and for a balance below the amount [INTERNAL_SERVER_ERROR] "Insufficient
    balance" (exact range): in both cases no balance and no ledger row has
    changed, but the reference counter has advanced by one. *)
Theorem instapaySend_refusals env driver input db :
  switch.SendInput.bankCode input <> EmptyString ->
  switch.SendInput.bankName input <> EmptyString ->
  switch.SendInput.accountNumber input <> EmptyString ->
  switch.SendInput.accountName input <> EmptyString ->
  0 < switch.SendInput.amount input <= 5000000 ->
  sequenceWritable env = true ->
  let found :=
    List.find (fun a => Account.id a =? switch.SendInput.sourceAccountId input)
              (accounts db) in
  (found = None ->
   switch.instapaySend env driver input db
     = (Throw (TRPCError "NOT_FOUND" "Source account not found"), db))
  /\ (forall sourceAccount,
        found = Some sourceAccount ->
        Account.status sourceAccount = closed ->
        switch.instapaySend env driver input db
          = (Throw (TRPCError "INTERNAL_SERVER_ERROR"
                      "Source account is not active"), advance env db))
  /\ (forall sourceAccount,
        found = Some sourceAccount ->
        Account.status sourceAccount = active ->
        exact_range (Account.balance sourceAccount) ->
        Account.balance sourceAccount < switch.SendInput.amount input ->
        switch.instapaySend env driver input db
          = (Throw (TRPCError "INTERNAL_SERVER_ERROR" "Insufficient balance"),
             advance env db)).
Proof.
  intros H1 H2 H3 H4 Ha Hw found. subst found.
  pose proof (amount_in_limits_true _ Ha) as Hlim.
  unfold switch.instapaySend.
  rewrite (send_input_accepted input H1 H2 H3 H4 Hlim), zod_passes.
  unfold tryCatch. cbv [mbind M_bind mret M_ret getAccountById gets].
  split; [by intros ->|]. split.
  - intros sourceAccount Hfind Hst. rewrite Hfind.
    rewrite createInstapayTransaction_run, Hw. cbv zeta.
    cbn [CreateInstapayTransactionInput.sourceAccountId]. rewrite Hfind, Hst.
    reflexivity.
  - intros sourceAccount Hfind Hst Hb Hlt. rewrite Hfind.
    rewrite createInstapayTransaction_run, Hw. cbv zeta.
    cbn [CreateInstapayTransactionInput.sourceAccountId
         CreateInstapayTransactionInput.amount].
    rewrite Hfind, Hst.
    apply andb_prop in Hlim as [Hpos Hmax].
    unfold Number.gtb in Hpos. unfold Number.leb in Hmax.
    assert (Number.leb (parseFloat (switch.SendInput.amount input))
                       (Number.of_int 0) = false) as ->
      by (apply Z.leb_gt; by apply Z.ltb_lt).
    assert (Number.gtb (parseFloat (switch.SendInput.amount input))
                       (Number.of_int 50000) = false) as ->
      by (apply Z.ltb_ge; by apply Z.leb_le).
    assert (Number.ltb (parseFloat (Account.balance sourceAccount))
                       (parseFloat (switch.SendInput.amount input)) = true)
      as ->.
    { apply Z.ltb_lt. apply parseFloat_lt; [done| |done].
      unfold exact_range. lia. }
    reflexivity.
Qed.

Lemma instapaySend_refusals_witness :
  switch.instapaySend env_20260115 "ER_LOCK_WAIT_TIMEOUT"
    (switch.SendInput.mk 1 "BDO" "BDO Unibank" "1234567890" "Juan Dela Cruz"
       60000)
    (db_account 70000 closed)
  = (Throw (TRPCError "INTERNAL_SERVER_ERROR" "Source account is not active"),
     advance env_20260115 (db_account 70000 closed)).
Proof.
  destruct (instapaySend_refusals env_20260115 "ER_LOCK_WAIT_TIMEOUT"
              (switch.SendInput.mk 1 "BDO" "BDO Unibank" "1234567890"
                 "Juan Dela Cruz" 60000)
              (db_account 70000 closed))
    as (_ & Hclosed & _); [done|done|done|done|simpl; lia|reflexivity|].
  apply (Hclosed (sample_account 70000 closed)); reflexivity.
Defined.

Lemma reference_nonempty dateStr sequence :
  reference dateStr sequence <> EmptyString.
Proof. done. Qed.

(** X14. Sending and asking.  When [switch.instapaySend] accepts a transfer
    (input passing the schema, active source account, balance and amount in
    the exact range, amount covered, counter writable), it returns the
    reference number just drawn with status PENDING and a switch payload
    that repeats the input and names the source account's number; the
    source balance has gone down by the amount; and [switch.instapayStatus]
    asked for that reference number then reports PENDING and the same
    amount and recipient, without changing anything. *)
Theorem instapaySend_then_status env driver input db sourceAccount :
  switch.SendInput.bankCode input <> EmptyString ->
  switch.SendInput.bankName input <> EmptyString ->
  switch.SendInput.accountNumber input <> EmptyString ->
  switch.SendInput.accountName input <> EmptyString ->
  let A := switch.SendInput.amount input in
  let B := Account.balance sourceAccount in
  let ref := nextReference env db in
  0 < A <= 5000000 -> A <= B -> B < 10 ^ 15 ->
  List.find (fun a => Account.id a =? switch.SendInput.sourceAccountId input)
            (accounts db) = Some sourceAccount ->
  Account.status sourceAccount = active ->
  issued db -> sequenceWritable env = true ->
  String.length (today env) = 8%nat ->
  exists db',
    switch.instapaySend env driver input db
      = (Ok (switch.SendOutput.mk ref PENDING
               "Transaction created and pending switch processing"
               (switch.SwitchPayload.mk ref
                  (Account.accountNumber sourceAccount)
                  (switch.SendInput.bankCode input)
                  (switch.SendInput.bankName input)
                  (switch.SendInput.accountNumber input)
                  (switch.SendInput.accountName input)
                  A)),
         db')
    /\ balanceOf db' (switch.SendInput.sourceAccountId input) = Some (B - A)
    /\ switch.instapayStatus ref db'
       = (Ok (switch.StatusOutput.mk ref None PENDING None
                (Account.accountNumber sourceAccount)
                (switch.SendInput.bankCode input)
                (switch.SendInput.bankName input)
                (switch.SendInput.accountNumber input)
                (switch.SendInput.accountName input)
                A),
          db').
Proof.
  intros H1 H2 H3 H4 A B ref HA HAB HB Hfind Hst Hi Hw Hlen.
  pose proof (amount_in_limits_true _ HA) as Hlim.
  assert (HrB : exact_range B) by (unfold exact_range; lia).
  assert (HrA : exact_range A) by (unfold exact_range; lia).
  destruct (instapay_guards B A HrB HA HAB) as (Hg1 & Hg2 & Hg3).
  destruct (issued_fresh env db Hlen Hi) as [Hledger Hinstapay].
  unfold switch.instapaySend.
  rewrite (send_input_accepted input H1 H2 H3 H4 Hlim), zod_passes.
  unfold tryCatch. cbv [mbind M_bind mret M_ret getAccountById gets].
  rewrite Hfind, createInstapayTransaction_run, Hw. cbv zeta.
  cbn [CreateInstapayTransactionInput.sourceAccountId
       CreateInstapayTransactionInput.amount].
  rewrite Hfind, Hst. rewrite bool_decide_eq_true_2 by done. cbn [negb].
  fold A B. rewrite Hg1, Hg2, Hg3, Hledger, Hinstapay.
  set (rec := instapayRecord env db _).
  set (db1 := append _ _).
  exists (record rec db1). split; [reflexivity|]. split.
  - unfold balanceOf. simpl accounts. rewrite find_post_same, Hfind. simpl.
    f_equal. by apply toFixed2_sub.
  - assert (Hrec : List.find (byReference ref)
                     (instapayTransactions (record rec db1)) = Some rec).
    { apply find_record_fresh; [|done]. by apply instapayHolds_find. }
    unfold switch.instapayStatus, zod, min1.
    rewrite bool_decide_eq_false_2 by apply reference_nonempty.
    cbv [mbind M_bind mret M_ret getInstapayTransactionByReference gets].
    unfold byReference in Hrec. rewrite Hrec. reflexivity.
Qed.

Lemma instapaySend_then_status_witness :
  exists out db',
    switch.instapaySend env_20260115 "ER_LOCK_WAIT_TIMEOUT"
      (switch.SendInput.mk 1 "BDO" "BDO Unibank" "1234567890"
         "Juan Dela Cruz" 60000)
      (db_account 70000 active) = (Ok out, db')
    /\ switch.SendOutput.referenceNumber out = "TXN20260115000001"
    /\ balanceOf db' 1 = Some 10000.
Proof.
  destruct (instapaySend_then_status env_20260115 "ER_LOCK_WAIT_TIMEOUT"
              (switch.SendInput.mk 1 "BDO" "BDO Unibank" "1234567890"
                 "Juan Dela Cruz" 60000)
              (db_account 70000 active) (sample_account 70000 active))
    as (db' & Hrun & Hbal & _);
    [done|done|done|done|simpl; lia|simpl; lia|simpl; lia|reflexivity
    |reflexivity|by intros r d n [H|H]|reflexivity|reflexivity|].
  eexists _, db'. split; [exact Hrun|]. split; [reflexivity|exact Hbal].
Defined.

End SwitchSend.

(** ** Reference numbers never collide *)

Section Numbering.

Lemma createTransaction_no_duplicate env data db :
  issued db -> String.length (today env) = 8%nat ->
  fst (createTransaction env data db) <> Throw DuplicateEntry.
Proof.
  intros Hi Hlen. rewrite createTransaction_run.
  destruct (sequenceWritable env); [|done].
  by destruct (issued_fresh env db Hlen Hi) as [-> _].
Qed.

Lemma createInstapayTransaction_no_duplicate env input db :
  issued db -> String.length (today env) = 8%nat ->
  fst (createInstapayTransaction env input db) <> Throw DuplicateEntry.
Proof.
  intros Hi Hlen. rewrite createInstapayTransaction_run.
  destruct (sequenceWritable env); [|done]. cbv zeta.
  destruct (List.find _ (accounts db)); [|done].
  destruct (negb _); [done|]. destruct (Number.leb _ _); [done|].
  destruct (Number.gtb _ _); [done|]. destruct (Number.ltb _ _); [done|].
  by destruct (issued_fresh env db Hlen Hi) as [-> ->].
Qed.

Lemma updateInstapayTransactionStatus_no_duplicate env referenceNumber status
    switchReferenceNumber statusMessage db :
  issued db -> String.length (today env) = 8%nat ->
  fst (updateInstapayTransactionStatus env referenceNumber status
         switchReferenceNumber statusMessage db) <> Throw DuplicateEntry.
Proof.
  intros Hi Hlen. rewrite updateInstapayTransactionStatus_run.
  destruct (List.find _ (instapayTransactions db)); [|done]. cbv zeta.
  unfold finish.
  destruct (_ && _); [|done]. destruct (List.find _ (accounts db)); [|done].
  destruct (sequenceWritable env); [|done].
  by destruct (issued_fresh env db Hlen Hi) as [-> _].
Qed.

(** X15. Reference numbers never collide.  Call a database well numbered
    when every reference number on file was drawn from the counter of its
    date.  From a well-numbered database, on a date of eight characters,
    [createTransaction], [createInstapayTransaction] and
    [updateInstapayTransactionStatus] never fail on the UNIQUE constraint
    of a reference number, and whatever their outcome they leave the
    database well numbered. *)
Theorem numbering_never_collides env db :
  issued db -> String.length (today env) = 8%nat ->
  (forall data,
     fst (createTransaction env data db) <> Throw DuplicateEntry
     /\ issued (snd (createTransaction env data db)))
  /\ (forall input,
        fst (createInstapayTransaction env input db) <> Throw DuplicateEntry
        /\ issued (snd (createInstapayTransaction env input db)))
  /\ (forall referenceNumber status switchReferenceNumber statusMessage,
        fst (updateInstapayTransactionStatus env referenceNumber status
               switchReferenceNumber statusMessage db)
        <> Throw DuplicateEntry
        /\ issued (snd (updateInstapayTransactionStatus env referenceNumber
                          status switchReferenceNumber statusMessage db))).
Proof.
  intros Hi Hlen. split; [|split].
  - intros data. split.
    + by apply createTransaction_no_duplicate.
    + by apply createTransaction_issued.
  - intros input. split.
    + by apply createInstapayTransaction_no_duplicate.
    + by apply createInstapayTransaction_issued.
  - intros referenceNumber status sw msg. split.
    + by apply updateInstapayTransactionStatus_no_duplicate.
    + by apply updateInstapayTransactionStatus_issued.
Qed.

Lemma numbering_never_collides_witness :
  issued db_empty
  /\ fst (createTransaction env_20260115
            (CreateTransactionData.mk 1 DEPOSIT 100 100 None None None)
            db_empty) <> Throw DuplicateEntry.
Proof.
  split; [apply issued_empty|].
  apply (numbering_never_collides env_20260115 db_empty issued_empty eq_refl).
Defined.

End Numbering.

(** ** Account numbers and new accounts *)

Section NewAccounts.

Lemma accountsHold_find db (n : string) :
  accountsHold db n = false <->
  List.find (fun a => bool_decide (Account.accountNumber a = n)) (accounts db)
  = None.
Proof.
  unfold accountsHold. induction (accounts db) as [|a l IH]; simpl; [done|].
  destruct (bool_decide _); [done|]. exact IH.
Qed.

Lemma drawAccountNumber_run random branchCode db : forall remaining attempts,
  drawAccountNumber random branchCode attempts remaining db =
    match List.find
            (fun k => negb (accountsHold db (branchCode +:+ pretty (random k))))
            (seq attempts remaining) with
    | Some k => (Ok (branchCode +:+ pretty (random k)), db)
    | None =>
        (Throw (JsError "Failed to generate unique account number"), db)
    end.
Proof.
  induction remaining as [|remaining IH]; intros attempts; simpl; [done|]. run.
  destruct (accountsHold db (branchCode +:+ pretty (random attempts))) eqn:E;
    simpl.
  - destruct (List.find _ (accounts db)) as [a|] eqn:Hfind.
    + apply IH.
    + apply accountsHold_find in Hfind. congruence.
  - apply accountsHold_find in E. by rewrite E.
Qed.

Lemma generateAccountNumber_inv random branchCode db accountNumber db' :
  generateAccountNumber random branchCode db = (Ok accountNumber, db') ->
  db' = db
  /\ accountsHold db accountNumber = false
  /\ exists k,
       (k < 100)%nat
       /\ accountNumber = branchCode +:+ pretty (random k)
       /\ forall j, (j < k)%nat ->
            accountsHold db (branchCode +:+ pretty (random j)) = true.
Proof.
  unfold generateAccountNumber. rewrite drawAccountNumber_run.
  destruct (List.find _ (seq 0 100)) as [k|] eqn:Hfind; [|done].
  intros [= <- <-]. split; [done|].
  pose proof (find_some _ _ Hfind) as [Hin Hfree].
  apply negb_true_iff in Hfree. split; [done|].
  exists k. apply in_seq in Hin. split; [lia|]. split; [done|].
  intros j Hj.
  assert (Hgen : forall n start,
    List.find (fun k => negb (accountsHold db (branchCode +:+ pretty (random k))))
              (seq start n) = Some k ->
    (start <= j < k)%nat ->
    accountsHold db (branchCode +:+ pretty (random j)) = true).
  { induction n as [|n IH]; intros start; simpl; [done|].
    destruct (accountsHold db (branchCode +:+ pretty (random start))) eqn:E;
      simpl.
    - intros Hf Hr. destruct (decide (j = start)) as [->|]; [done|].
      apply (IH (S start) Hf). lia.
    - intros [= <-]. lia. }
  apply (Hgen 100%nat 0%nat Hfind). lia.
Qed.


(** X16. [generateAccountNumber] returns the first of its draws that no
    account holds: the number is the branch code followed by that draw, it
    is free, every earlier draw was taken, and it was found within the
    first 100 draws.  The database is only read. *)
Theorem generateAccountNumber_first_free random branchCode db accountNumber
    db' :
  generateAccountNumber random branchCode db = (Ok accountNumber, db') ->
  db' = db
  /\ accountsHold db accountNumber = false
  /\ exists k,
       (k < 100)%nat
       /\ accountNumber = branchCode +:+ pretty (random k)
       /\ forall j, (j < k)%nat ->
            accountsHold db (branchCode +:+ pretty (random j)) = true.
Proof. apply generateAccountNumber_inv. Qed.

Lemma generateAccountNumber_first_free_witness :
  generateAccountNumber (fun k => 1234567 + Z.of_nat k) "001"
    (db_account 0 active)
  = (Ok "0011234568", db_account 0 active)
  /\ accountsHold (db_account 0 active) "0011234568" = false.
Proof.
  split; [reflexivity|].
  apply (generateAccountNumber_first_free (fun k => 1234567 + Z.of_nat k)
           "001" (db_account 0 active) "0011234568" (db_account 0 active)).
  reflexivity.
Defined.

(** X17. [generateAccountNumber] gives up exactly when its first 100 draws
    are all taken: it then throws "Failed to generate unique account
    number", whatever the later draws would have been. *)
Theorem generateAccountNumber_gives_up random branchCode db :
  (forall k, (k < 100)%nat ->
     accountsHold db (branchCode +:+ pretty (random k)) = true)
  <-> generateAccountNumber random branchCode db
      = (Throw (JsError "Failed to generate unique account number"), db).
Proof.
  unfold generateAccountNumber. rewrite drawAccountNumber_run. split.
  - intros Hall.
    destruct (List.find _ (seq 0 100)) as [k|] eqn:Hfind; [|done].
    apply find_some in Hfind as [Hin Hfree]. apply in_seq in Hin.
    rewrite Hall in Hfree by lia. done.
  - destruct (List.find _ (seq 0 100)) as [k|] eqn:Hfind; [done|].
    intros _ k Hk.
    apply negb_false_iff.
    apply (find_none _ _ Hfind k). apply in_seq. lia.
Qed.

Lemma insertId_fresh ids x : In x ids -> x < insertId ids.
Proof.
  unfold insertId. induction ids as [|y ids IH]; simpl; [done|].
  intros [->|Hin]; [lia|]. specialize (IH Hin). lia.
Qed.

Lemma find_appended (l : list Account.t) r :
  (forall a, In a l -> Account.id a <> Account.id r) ->
  List.find (fun a => Account.id a =? Account.id r) (l ++ [r]) = Some r.
Proof.
  induction l as [|a l IH]; simpl; intros Hne.
  - by rewrite Z.eqb_refl.
  - destruct (Account.id a =? Account.id r) eqn:E.
    + exfalso. apply (Hne a); [auto|lia].
    + apply IH. intros a' Ha'. apply Hne. auto.
Qed.

Lemma find_appended_other (l : list Account.t) r i :
  Account.id r <> i ->
  List.find (fun a => Account.id a =? i) (l ++ [r])
  = List.find (fun a => Account.id a =? i) l.
Proof.
  intros Hne. induction l as [|a l IH]; simpl.
  - destruct (Account.id r =? i) eqn:E; [lia|done].
  - by destruct (Account.id a =? i).
Qed.

Lemma find_number_appended (l : list Account.t) r :
  List.find (fun a => bool_decide
               (Account.accountNumber a = Account.accountNumber r)) l = None ->
  List.find (fun a => bool_decide
               (Account.accountNumber a = Account.accountNumber r)) (l ++ [r])
  = Some r.
Proof.
  induction l as [|a l IH]; simpl.
  - by rewrite bool_decide_eq_true_2.
  - destruct (bool_decide _); [done|]. exact IH.
Qed.

Lemma pretty_N_go_grows (x : N) s :
  (String.length s <= String.length (pretty_N_go x s))%nat.
Proof.
  revert s. induction (N.lt_wf_0 x) as [x _ IH]. intros s.
  destruct (decide (x = 0)%N) as [->|Hx]; [by rewrite pretty_N_go_0|].
  rewrite pretty_N_go_step by lia.
  etransitivity; [|apply IH; apply N.div_lt; lia]. simpl. lia.
Qed.

Lemma pretty_N_go_length_ge (k : nat) (x : N) s :
  (10 ^ N.of_nat k <= x)%N ->
  (String.length s + S k <= String.length (pretty_N_go x s))%nat.
Proof.
  revert x s. induction k as [|k IH]; intros x s Hx.
  - rewrite pretty_N_go_step by (simpl in Hx; lia).
    etransitivity; [|apply pretty_N_go_grows]. simpl. lia.
  - assert (0 < x)%N.
    { pose proof (N.pow_nonzero 10 (N.of_nat (S k))). lia. }
    rewrite pretty_N_go_step by lia.
    etransitivity; [|apply IH]; [simpl; lia|].
    rewrite Nat2N.inj_succ, N.pow_succ_r' in Hx.
    apply N.div_le_lower_bound; lia.
Qed.

(** A number of [k + 1] digits prints as [k + 1] characters. *)
Lemma pretty_Z_length (k : nat) (z : Z) :
  10 ^ Z.of_nat k <= z < 10 ^ Z.of_nat (S k) ->
  String.length (pretty z) = S k /\ all_digits (pretty z) = true.
Proof.
  intros Hz.
  assert (0 < 10 ^ Z.of_nat k) by (apply Z.pow_pos_nonneg; lia).
  destruct (pretty_Z_digits k z ltac:(lia)) as [Hd Hl]. split; [|done].
  apply Nat.le_antisymm; [done|].
  destruct z as [|p|p]; [lia| |lia].
  unfold pretty, pretty_Z, pretty, pretty_positive, pretty, pretty_N.
  rewrite decide_False by done.
  apply (pretty_N_go_length_ge k (N.pos p) EmptyString).
  apply N2Z.inj_le. rewrite N2Z.inj_pow, nat_N_Z. simpl (Z.of_N 10). lia.
Qed.

Lemma createAccount_inv random customerId branchCode db res db' :
  createAccount random customerId branchCode db = (Ok res, db') ->
  exists accountNumber,
    let account :=
      Account.mk (insertId (map Account.id (accounts db))) customerId
        branchCode accountNumber 0 "REGULAR_SAVING" active in
    res = Some account
    /\ db' = set_accounts (fun l => l ++ [account]) db
    /\ accountsHold db accountNumber = false.
Proof.
  unfold createAccount. cbv [mbind M_bind].
  destruct (generateAccountNumber random branchCode db)
    as [[accountNumber|e] db0] eqn:Hgen; [|done].
  apply generateAccountNumber_inv in Hgen as (-> & Hfree & _).
  unfold insertAccount. cbn [Account.accountNumber]. rewrite Hfree.
  intros [= <- <-]. exists accountNumber. cbv zeta.
  split; [|done]. cbn [Account.id].
  set (account := Account.mk _ _ _ _ _ _ _).
  change (insertId (map Account.id (accounts db))) with (Account.id account).
  apply find_appended. intros a Ha.
  assert (Account.id a < Account.id account); [|lia].
  apply insertId_fresh. by apply in_map.
Qed.

Lemma createAccount_throw_unchanged random customerId branchCode db e db' :
  createAccount random customerId branchCode db = (Throw e, db') -> db' = db.
Proof.
  unfold createAccount. cbv [mbind M_bind].
  unfold generateAccountNumber. rewrite drawAccountNumber_run.
  destruct (List.find _ (seq 0 100)); [|by intros [= _ <-]].
  unfold insertAccount. cbn [Account.accountNumber].
  destruct (accountsHold _ _); [by intros [= _ <-]|].
  unfold getAccountById, gets. done.
Qed.

Lemma accountsHold_In db (n : string) :
  accountsHold db n = false ->
  ~ In n (map Account.accountNumber (accounts db)).
Proof.
  unfold accountsHold. intros H Hin. apply in_map_iff in Hin as (a & <- & Ha).
  assert (existsb (fun x => bool_decide
            (Account.accountNumber x = Account.accountNumber a))
            (accounts db) = true); [|congruence].
  apply existsb_exists. exists a. split; [done|]. by apply bool_decide_eq_true.
Qed.

(** X18. [createAccount] keeps the keys of the accounts table: when ids
    and account numbers are unique before, they are unique after, whether
    the account was opened or the call threw. *)
Theorem createAccount_keeps_keys random customerId branchCode db :
  accountIdsUnique db -> accountNumbersUnique db ->
  let out := createAccount random customerId branchCode db in
  accountIdsUnique (snd out) /\ accountNumbersUnique (snd out).
Proof.
  intros Hid Hnum out. subst out.
  destruct (createAccount random customerId branchCode db) as [[res|e] db']
    eqn:Hrun; simpl.
  - apply createAccount_inv in Hrun as (n & _ & -> & Hfree).
    unfold accountIdsUnique, accountNumbersUnique. simpl.
    rewrite !map_app. simpl. split.
    + apply NoDup_app. split; [done|]. split; [|apply NoDup_singleton].
      intros x Hx Hx'. apply list_elem_of_singleton in Hx'. subst x.
      apply list_elem_of_In in Hx.
      pose proof (insertId_fresh _ _ Hx). lia.
    + apply NoDup_app. split; [done|]. split; [|apply NoDup_singleton].
      intros x Hx Hx'. apply list_elem_of_singleton in Hx'. subst x.
      apply list_elem_of_In in Hx. by apply (accountsHold_In db n).
  - by apply createAccount_throw_unchanged in Hrun as ->.
Qed.

Lemma createAccount_keeps_keys_witness :
  accountIdsUnique
    (snd (createAccount (fun k => 1234567 + Z.of_nat k) 7 "001"
            (db_account 0 active))).
Proof.
  apply (createAccount_keeps_keys (fun k => 1234567 + Z.of_nat k) 7 "001"
           (db_account 0 active)); by apply (bool_decide_unpack _).
Defined.

(** X19. Opening an account.  For a branch code of three characters,
    when one of the first 100 draws is free (a draw is a number of seven
    digits), [createAccount] appends one account and returns it: it carries
    the customer id and branch code given, the branch code followed by the
    first free draw as its number, balance 0.00, product REGULAR_SAVING and
    status active, under an id above every id on file.  Nothing else in the
    database changes, the new account is found by its number and by its id,
    and its number has ten characters, all digits when the branch code is
    made of digits. *)
Theorem createAccount_opens random customerId branchCode db k :
  (k < 100)%nat ->
  (forall j, (j < k)%nat ->
     accountsHold db (branchCode +:+ pretty (random j)) = true) ->
  accountsHold db (branchCode +:+ pretty (random k)) = false ->
  String.length branchCode = 3%nat -> 1000000 <= random k <= 9999999 ->
  let account :=
    Account.mk (insertId (map Account.id (accounts db))) customerId branchCode
      (branchCode +:+ pretty (random k)) 0 "REGULAR_SAVING" active in
  let db' := set_accounts (fun l => l ++ [account]) db in
  createAccount random customerId branchCode db = (Ok (Some account), db')
  /\ (forall a, In a (accounts db) -> Account.id a < Account.id account)
  /\ getAccountByNumber (Account.accountNumber account) db'
     = (Ok (Some account), db')
  /\ getAccountById (Account.id account) db' = (Ok (Some account), db')
  /\ balanceOf db' (Account.id account) = Some 0
  /\ (forall id, id <> Account.id account ->
        balanceOf db' id = balanceOf db id)
  /\ String.length (Account.accountNumber account) = 10%nat
  /\ (all_digits branchCode = true ->
      all_digits (Account.accountNumber account) = true).
Proof.
  intros Hk Htaken Hfree Hlen Hrange account db'.
  assert (Hnew : forall a, In a (accounts db) ->
                   Account.id a < Account.id account).
  { intros a Ha. apply insertId_fresh. by apply in_map. }
  assert (Hbyid : List.find (fun a => Account.id a =? Account.id account)
                    (accounts db') = Some account).
  { apply find_appended. intros a Ha. specialize (Hnew a Ha). lia. }
  assert (Hdraw : generateAccountNumber random branchCode db
                  = (Ok (branchCode +:+ pretty (random k)), db)).
  { unfold generateAccountNumber. rewrite drawAccountNumber_run.
    assert (Hgen : forall n start, (start <= k < start + n)%nat ->
      List.find
        (fun k => negb (accountsHold db (branchCode +:+ pretty (random k))))
        (seq start n) = Some k).
    { induction n as [|n IH]; intros start Hr; simpl; [lia|].
      destruct (decide (start = k)) as [->|Hne]; [by rewrite Hfree|].
      rewrite Htaken by lia. simpl. apply IH. lia. }
    by rewrite (Hgen 100%nat 0%nat) by lia. }
  split.
  { unfold createAccount. cbv [mbind M_bind]. rewrite Hdraw.
    unfold insertAccount. cbn [Account.accountNumber]. rewrite Hfree.
    rewrite <- Hbyid. reflexivity. }
  split; [exact Hnew|]. split.
  { unfold getAccountByNumber, gets. f_equal. f_equal.
    apply find_number_appended. by apply accountsHold_find. }
  split; [rewrite <- Hbyid; reflexivity|]. split.
  { unfold balanceOf. by rewrite Hbyid. }
  split.
  { intros id Hne. unfold balanceOf. simpl accounts.
    by rewrite find_appended_other. }
  destruct (pretty_Z_length 6 (random k) ltac:(simpl; lia)) as [Hl Hd].
  split.
  { simpl. rewrite length_app, Hlen, Hl. done. }
  intros Hdig. simpl. rewrite all_digits_app, Hdig, Hd. done.
Qed.

Lemma createAccount_opens_witness :
  exists account db',
    createAccount (fun k => 1234567 + Z.of_nat k) 7 "001"
      (db_account 0 active) = (Ok (Some account), db')
    /\ Account.accountNumber account = "0011234568"
    /\ Account.id account = 2
    /\ balanceOf db' 2 = Some 0.
Proof.
  destruct (createAccount_opens (fun k => 1234567 + Z.of_nat k) 7 "001"
              (db_account 0 active) 1)
    as (Hrun & _ & _ & _ & Hbal & _).
  - lia.
  - intros j Hj. assert (j = 0%nat) as -> by lia. reflexivity.
  - reflexivity.
  - reflexivity.
  - simpl. lia.
  - eexists _, _. split; [exact Hrun|]. split; [reflexivity|].
    split; [reflexivity|exact Hbal].
Defined.

Lemma generateAccountNumber_gives_up_witness :
  generateAccountNumber (fun _ => 1234567) "001" (db_account 0 active)
  = (Throw (JsError "Failed to generate unique account number"),
     db_account 0 active).
Proof.
  apply (generateAccountNumber_gives_up (fun _ => 1234567) "001"
           (db_account 0 active)).
  intros k Hk. reflexivity.
Defined.

End NewAccounts.


(** ** Customers *)

Section Customers.

Lemma filter_nil_length {A} (f : A -> bool) l :
  (0 <? length (List.filter f l))%nat = false <->
  forall a, In a l -> f a = false.
Proof.
  rewrite Nat.ltb_ge. split.
  - intros Hlen a Ha. destruct (f a) eqn:E; [|done].
    assert (In a (List.filter f l)) as Hin by (apply filter_In; auto).
    destruct (List.filter f l); [done|simpl in Hlen; lia].
  - intros Hall. induction l as [|a l IH]; simpl; [lia|].
    rewrite (Hall a) by (simpl; auto). apply IH. intros a' Ha'.
    apply Hall. simpl. auto.
Qed.

Lemma deleteCustomer_run id st :
  deleteCustomer id st =
    if existsb (fun a => Account.customerId a =? id) (accounts (core st))
    then (Throw (JsError "Cannot delete customer with existing accounts"), st)
    else (Ok true,
          set_customers (List.filter (fun c => negb (Customer.id c =? id))) st).
Proof.
  unfold deleteCustomer. cbv zeta.
  destruct (existsb _ _) eqn:E.
  - apply existsb_exists in E as (a & Ha & Hid).
    destruct (0 <? _)%nat eqn:E'; [done|].
    rewrite filter_nil_length in E'. rewrite (E' a Ha) in Hid. done.
  - destruct (0 <? _)%nat eqn:E'; [|done].
    apply Nat.ltb_lt in E'.
    destruct (List.filter _ _) as [|a l] eqn:Hf; [simpl in E'; lia|].
    assert (In a (List.filter (fun a => Account.customerId a =? id)
                    (accounts (core st)))) as Hin by (rewrite Hf; simpl; auto).
    apply filter_In in Hin as [Hin Hid].
    assert (existsb (fun a => Account.customerId a =? id)
              (accounts (core st)) = true)
      by (apply existsb_exists; eauto).
    congruence.
Qed.

(** X20. A customer with accounts cannot be deleted.  When an account
    carries the customer id, [deleteCustomer] throws "Cannot delete customer
    with existing accounts" and the store is unchanged; the tRPC procedure
    passes the message on as [BAD_REQUEST], the REST handler answers 500
    "Failed to delete customer". *)
Theorem deleteCustomer_refuses_owner id st a :
  In a (accounts (core st)) -> Account.customerId a = id ->
  deleteCustomer id st
    = (Throw (JsError "Cannot delete customer with existing accounts"), st)
  /\ (forall driver,
        customer.delete driver id st
        = (Throw (TRPCError "BAD_REQUEST"
                    "Cannot delete customer with existing accounts"), st))
  /\ delete_customer id st
     = (restApiRouter.failure 500 "INTERNAL_ERROR" "Failed to delete customer",
        st).
Proof.
  intros Ha Hid.
  assert (Hrun : deleteCustomer id st
    = (Throw (JsError "Cannot delete customer with existing accounts"), st)).
  { rewrite deleteCustomer_run.
    assert (existsb (fun a => Account.customerId a =? id)
              (accounts (core st)) = true) as ->; [|done].
    apply existsb_exists. exists a. split; [done|lia]. }
  split; [done|]. split.
  - intros driver. unfold customer.delete. by rewrite Hrun.
  - unfold delete_customer. by rewrite Hrun.
Qed.

Lemma deleteCustomer_refuses_owner_witness :
  deleteCustomer 1 sample_store
  = (Throw (JsError "Cannot delete customer with existing accounts"),
     sample_store).
Proof.
  apply (deleteCustomer_refuses_owner 1 sample_store
           (sample_account 70000 active)); [simpl; auto|reflexivity].
Defined.

(** X21. [deleteCustomer] never leaves an account without its customer:
    in a store where every account belongs to a customer on file, that is
    still so after [deleteCustomer], whatever its outcome; and when it
    returns, exactly the customers with the given id are gone, the accounts
    and the API keys are as they were. *)
Theorem deleteCustomer_keeps_owners id st :
  everyAccountOwned st ->
  let out := deleteCustomer id st in
  everyAccountOwned (snd out)
  /\ (forall ok, fst out = Ok ok ->
        customers (snd out)
        = List.filter (fun c => negb (Customer.id c =? id)) (customers st)
        /\ (forall c, In c (customers (snd out)) <->
                      In c (customers st) /\ Customer.id c <> id)
        /\ core (snd out) = core st
        /\ apiKeys (snd out) = apiKeys st).
Proof.
  intros Hown out. subst out. rewrite deleteCustomer_run.
  destruct (existsb _ _) eqn:E; simpl; [by split|].
  split.
  - intros a Ha. destruct (Hown a Ha) as (c & Hc & Hid).
    exists c. split; [|done]. apply filter_In. split; [done|].
    apply negb_true_iff, Z.eqb_neq. intros Heq.
    assert (existsb (fun a => Account.customerId a =? id)
              (accounts (core st)) = true); [|congruence].
    apply existsb_exists. exists a. split; [done|lia].
  - intros ok _. split; [done|]. split; [|done].
    intros c. rewrite filter_In, negb_true_iff, Z.eqb_neq. done.
Qed.

Lemma deleteCustomer_keeps_owners_witness :
  everyAccountOwned (snd (deleteCustomer 2 sample_store))
  /\ customers (snd (deleteCustomer 2 sample_store))
     = [Customer.mk 1 "Juan Dela Cruz"].
Proof.
  destruct (deleteCustomer_keeps_owners 2 sample_store) as [Hown _].
  - intros a [<-|[]]. exists (Customer.mk 1 "Juan Dela Cruz").
    split; [simpl; auto|reflexivity].
  - split; [exact Hown|reflexivity].
Defined.

(** X22. Opening an account ties the customer down: once [createAccount]
    has opened an account for a customer id, [deleteCustomer] refuses that
    id and leaves the store as it is. *)
Theorem opened_account_blocks_deletion random customerId branchCode st
    account st' :
  onCore (createAccount random customerId branchCode) st
    = (Ok (Some account), st') ->
  Account.customerId account = customerId
  /\ In account (accounts (core st'))
  /\ deleteCustomer customerId st'
     = (Throw (JsError "Cannot delete customer with existing accounts"), st').
Proof.
  unfold onCore.
  destruct (createAccount random customerId branchCode (core st))
    as [res db'] eqn:Hrun.
  intros [= -> <-].
  apply createAccount_inv in Hrun as (n & [= ->] & -> & _).
  assert (Hin : In (Account.mk (insertId (map Account.id (accounts (core st))))
                      customerId branchCode n 0 "REGULAR_SAVING" active)
                   (accounts (core (set_core (fun _ =>
                      set_accounts (fun l => l ++ [Account.mk
                        (insertId (map Account.id (accounts (core st))))
                        customerId branchCode n 0 "REGULAR_SAVING" active])
                        (core st)) st)))).
  { simpl. apply in_or_app. right. simpl. auto. }
  split; [done|]. split; [exact Hin|].
  rewrite deleteCustomer_run.
  match goal with |- (if ?b then _ else _) = _ => assert (b = true) as -> end;
    [|done].
  apply existsb_exists. eexists. split; [exact Hin|]. simpl. lia.
Qed.

Lemma opened_account_blocks_deletion_witness :
  exists account st',
    onCore (createAccount (fun k => 1234567 + Z.of_nat k) 2 "001") sample_store
      = (Ok (Some account), st')
    /\ deleteCustomer 2 st'
       = (Throw (JsError "Cannot delete customer with existing accounts"),
          st').
Proof.
  eexists _, _. split; [reflexivity|].
  eapply (opened_account_blocks_deletion (fun k => 1234567 + Z.of_nat k) 2
            "001" sample_store).
  reflexivity.
Defined.

End Customers.

(** ** API keys and the routes *)

Section ApiKeys.

Lemma find_switchOff id (h : string) l :
  List.find (fun k => bool_decide (ApiKey.keyHash k = h))
            (map (switchOff id) l)
  = switchOff id
      <$> List.find (fun k => bool_decide (ApiKey.keyHash k = h)) l.
Proof.
  induction l as [|k l IH]; simpl; [done|].
  assert (ApiKey.keyHash (switchOff id k) = ApiKey.keyHash k) as ->
    by (unfold switchOff; by destruct (_ =? _)).
  by destruct (bool_decide _).
Qed.

(** X23. A revoked key is locked out.  Once [DELETE /api-keys/:id] has
    been handled for the id of a key, every request that presents the key
    is answered by [authenticateApiKey] with 401 "API key is inactive": no
    route reaches its handler and the store is left as the revocation left
    it. *)
Theorem revoked_key_is_refused sha256 key keyRecord st :
  key <> EmptyString ->
  List.find (fun k => bool_decide (ApiKey.keyHash k = sha256 key))
            (apiKeys st) = Some keyRecord ->
  let st1 := snd (revoke (ApiKey.id keyRecord) st) in
  forall now usedAt,
    authenticateApiKey sha256 now usedAt (Some key) st1
      = (Answered (restApiRouter.failure 401 "UNAUTHORIZED"
                     "API key is inactive"), st1)
    /\ (forall R gate (handler : Store -> R * Store),
          route sha256 now usedAt gate handler (Some key) st1
          = (Refused (restApiRouter.failure 401 "UNAUTHORIZED"
                        "API key is inactive"), st1)).
Proof.
  intros Hne Hfind st1 now usedAt.
  assert (Hauth : authenticateApiKey sha256 now usedAt (Some key) st1
    = (Answered (restApiRouter.failure 401 "UNAUTHORIZED"
                   "API key is inactive"), st1)).
  { unfold authenticateApiKey. rewrite missing_false by done.
    unfold hashApiKey, default. cbn [from_option id].
    subst st1. unfold revoke. cbn [snd apiKeys set_apiKeys].
    fold (switchOff (ApiKey.id keyRecord)).
    rewrite find_switchOff, Hfind. simpl. unfold switchOff.
    rewrite Z.eqb_refl. reflexivity. }
  split; [exact Hauth|]. intros R gate handler. unfold route.
  by rewrite Hauth.
Qed.

Lemma authenticateApiKey_frame sha256 now usedAt header st info st' :
  authenticateApiKey sha256 now usedAt header st = (Next info, st') ->
  core st' = core st /\ customers st' = customers st
  /\ exists keyRecord,
       List.find (fun k => bool_decide
                    (ApiKey.keyHash k
                     = sha256 (default EmptyString header)))
                 (apiKeys st) = Some keyRecord
       /\ ApiKey.isActive keyRecord <> 0
       /\ ApiKeyInfo.permissions info = ApiKey.permissions keyRecord
       /\ apiKeys st' = map (touch (ApiKey.id keyRecord) usedAt) (apiKeys st).
Proof.
  unfold authenticateApiKey. destruct (restApiRouter.missing header); [done|].
  unfold hashApiKey.
  destruct (List.find _ (apiKeys st)) as [keyRecord|]; [|done].
  destruct (ApiKey.isActive keyRecord =? 0) eqn:E; [done|].
  destruct (match ApiKey.expiresAt keyRecord with
            | Some _ => _ | None => _ end); [done|].
  intros [= <- <-]. split; [done|]. split; [done|].
  exists keyRecord. split; [done|]. split; [lia|]. done.
Qed.

(** X24. Who may do what.  For a request whose key [authenticateApiKey]
    accepts: a key with [read] permission is refused with 403 "API key lacks
    write permission" by the deposit, withdrawal, transfer and account
    status routes; a key without [admin] permission is refused with 403 "API
    key lacks admin permission" by the routes that delete a customer and
    revoke an API key; in both cases the posting tables and the customers
    are untouched.  The Instapay callback route has no gate of its own: its
    handler runs for every accepted key, a [read] key included. *)
Theorem permissions_gate_the_routes sha256 now usedAt header st info st' :
  authenticateApiKey sha256 now usedAt header st = (Next info, st') ->
  core st' = core st /\ customers st' = customers st
  /\ (ApiKeyInfo.permissions info = read ->
      (forall env body,
         routes.post_transactions_deposit sha256 now usedAt env body header st
         = (needsWrite, st'))
      /\ (forall env body,
            routes.post_transactions_withdrawal sha256 now usedAt env body
              header st = (needsWrite, st'))
      /\ (forall env1 env2 body,
            routes.post_transactions_transfer sha256 now usedAt env1 env2 body
              header st = (needsWrite, st'))
      /\ (forall id body,
            routes.put_accounts_status sha256 now usedAt id body header st
            = (needsWrite, st')))
  /\ (ApiKeyInfo.permissions info <> admin ->
      (forall id,
         routes.delete_customers sha256 now usedAt id header st
         = (needsAdmin, st'))
      /\ (forall id,
            routes.delete_api_keys sha256 now usedAt id header st
            = (needsAdmin, st')))
  /\ (forall env body,
        routes.post_instapay_callback sha256 now usedAt env body header st
        = (Handled
             (fst (restApiRouter.post_instapay_callback env body (core st))),
           set_core
             (fun _ =>
                snd (restApiRouter.post_instapay_callback env body (core st)))
             st')).
Proof.
  intros Hauth.
  destruct (authenticateApiKey_frame _ _ _ _ _ _ _ Hauth) as (Hc & Hcu & _).
  split; [done|]. split; [done|].
  unfold routes.post_transactions_deposit, routes.post_transactions_withdrawal,
    routes.post_transactions_transfer, routes.put_accounts_status,
    routes.delete_customers, routes.delete_api_keys,
    routes.post_instapay_callback, route.
  rewrite Hauth. split; [|split].
  - intros Hp. unfold requireWritePermission. simpl. rewrite Hp. done.
  - intros Hp. unfold requireAdminPermission. simpl.
    destruct (ApiKeyInfo.permissions info); done.
  - intros env body. unfold unguarded, posting. rewrite Hc.
    by destruct (restApiRouter.post_instapay_callback env body (core st)).
Qed.

Lemma permissions_gate_the_routes_witness :
  fst (routes.post_transactions_deposit sample_digest 0 0 env_20260115
         sample_posting (Some "sb_reader") sample_store)
  = Refused (restApiRouter.failure 403 "FORBIDDEN"
               "API key lacks write permission")
  /\ fst (routes.post_instapay_callback sample_digest 0 0 env_20260115
            (sample_callback "FAILED") (Some "sb_reader") sample_store)
     = Handled (restApiRouter.failure 500 "INTERNAL_ERROR"
                  "Failed to process callback").
Proof.
  destruct (permissions_gate_the_routes sample_digest 0 0 (Some "sb_reader")
              sample_store (ApiKeyInfo.mk 1 "integration" read)
              (set_apiKeys (map (touch 1 0)) sample_store) eq_refl)
    as (_ & _ & Hread & _ & Hcallback).
  destruct (Hread eq_refl) as (Hdeposit & _).
  split.
  - by rewrite Hdeposit.
  - rewrite Hcallback. reflexivity.
Defined.

Lemma revoked_key_is_refused_witness :
  fst (routes.post_transactions_deposit sample_digest 0 0 env_20260115
         sample_posting (Some "sb_writer")
         (snd (revoke 2 sample_store)))
  = Refused (restApiRouter.failure 401 "UNAUTHORIZED" "API key is inactive").
Proof.
  destruct (revoked_key_is_refused sample_digest "sb_writer"
              (sample_key 2 "sb_writer" write) sample_store)
    with (now := 0) (usedAt := 0) as [_ Hroute]; [done|reflexivity|].
  unfold routes.post_transactions_deposit. by rewrite Hroute.
Defined.

Lemma hex_length bytes : String.length (hex bytes) = (2 * length bytes)%nat.
Proof. induction bytes as [|b bytes IH]; simpl; [done|]. rewrite IH. lia. Qed.

Lemma hex_digit_inj (m n : N) :
  (m < 16)%N -> (n < 16)%N -> hex_digit m = hex_digit n -> m = n.
Proof.
  intros Hm Hn.
  rewrite <- (N2Nat.id m), <- (N2Nat.id n).
  assert (N.to_nat m < 16)%nat as Hi by lia.
  assert (N.to_nat n < 16)%nat as Hj by lia.
  revert Hi Hj. generalize (N.to_nat m) (N.to_nat n). clear. intros i j Hi Hj.
  do 16 (destruct i as [|i];
         [do 16 (destruct j as [|j]; [by vm_compute|]); lia|]).
  lia.
Qed.

Lemma hex_inj bytes bytes' : hex bytes = hex bytes' -> bytes = bytes'.
Proof.
  revert bytes'. induction bytes as [|b bytes IH]; intros [|b' bytes'];
    simpl; try done.
  intros [= H1 H2 H3].
  pose proof (Byte.to_N_bounded b). pose proof (Byte.to_N_bounded b').
  apply hex_digit_inj in H1;
    [|apply N.Div0.div_lt_upper_bound; lia
     |apply N.Div0.div_lt_upper_bound; lia].
  apply hex_digit_inj in H2; [|apply N.mod_lt; lia|apply N.mod_lt; lia].
  f_equal; [|by apply IH].
  assert (Byte.to_N b = Byte.to_N b') as Hn.
  { rewrite (N.div_mod (Byte.to_N b) 16), (N.div_mod (Byte.to_N b') 16) by lia.
    by rewrite H1, H2. }
  pose proof (Byte.of_to_N b) as Hb. rewrite Hn, Byte.of_to_N in Hb.
  by injection Hb.
Qed.

(** X25. The shape of a generated API key.  From 32 random bytes
    [generateApiKey] makes a key of 67 characters, [sb_] followed by the
    bytes in hexadecimal; its prefix is the first 11 characters, [sb_] and
    the first four bytes; its hash is the digest that [authenticateApiKey]
    computes from the key; and different bytes make different keys. *)
Theorem generateApiKey_format sha256 randomBytes :
  length randomBytes = 32%nat ->
  let generated := generateApiKey sha256 randomBytes in
  Generated.key generated = "sb_" +:+ hex randomBytes
  /\ String.length (Generated.key generated) = 67%nat
  /\ Generated.prefix generated = "sb_" +:+ hex (take 4 randomBytes)
  /\ String.length (Generated.prefix generated) = 11%nat
  /\ Generated.hash generated
     = hashApiKey sha256 (Generated.key generated)
  /\ (forall randomBytes',
        Generated.key (generateApiKey sha256 randomBytes')
        = Generated.key generated -> randomBytes' = randomBytes).
Proof.
  intros Hlen generated. subst generated. unfold generateApiKey.
  cbn [Generated.key Generated.prefix Generated.hash].
  assert (Hkey : forall bytes,
            "sb_" +:+ hex bytes
            = String "s" (String "b" (String "_" (hex bytes)))) by done.
  assert (Hprefix : String.substring 0 8 (hex randomBytes)
                    = hex (take 4 randomBytes)).
  { do 4 (destruct randomBytes as [|? randomBytes]; [done|]). simpl.
    by destruct (hex randomBytes). }
  split; [done|]. split.
  { rewrite Hkey. simpl. by rewrite hex_length, Hlen. }
  split; [rewrite !Hkey; simpl; by rewrite Hprefix|]. split.
  { rewrite Hkey. simpl. rewrite Hprefix, hex_length, length_take, Hlen.
    done. }
  split; [done|].
  intros randomBytes' Hhex. rewrite !Hkey in Hhex.
  injection Hhex as Hhex. by apply hex_inj.
Qed.

Lemma generateApiKey_format_witness :
  Generated.prefix
    (generateApiKey sample_digest sample_bytes) = "sb_abababab".
Proof.
  destruct (generateApiKey_format sample_digest sample_bytes)
    as (_ & _ & Hprefix & _); [reflexivity|].
  rewrite Hprefix. reflexivity.
Defined.

(** X26. A generated key opens the door.  When the hash that
    [generateApiKey] returned is stored in an API key record that is active
    and has not expired, a request presenting the generated key passes
    [authenticateApiKey] with the name and permissions of that record; the
    only change is the [lastUsedAt] of the keys with the record's id. *)
Theorem generated_key_authenticates sha256 randomBytes st keyRecord now
    usedAt :
  let generated := generateApiKey sha256 randomBytes in
  List.find (fun k => bool_decide
               (ApiKey.keyHash k = Generated.hash generated))
            (apiKeys st) = Some keyRecord ->
  ApiKey.isActive keyRecord <> 0 ->
  (forall expiresAt,
     ApiKey.expiresAt keyRecord = Some expiresAt -> now <= expiresAt) ->
  authenticateApiKey sha256 now usedAt (Some (Generated.key generated)) st
  = (Next (ApiKeyInfo.mk (ApiKey.id keyRecord) (ApiKey.name keyRecord)
             (ApiKey.permissions keyRecord)),
     set_apiKeys (map (touch (ApiKey.id keyRecord) usedAt)) st).
Proof.
  intros generated Hfind Hactive Hexp. subst generated.
  unfold authenticateApiKey, generateApiKey in *.
  cbn [Generated.key Generated.hash] in *.
  rewrite missing_false by done.
  unfold hashApiKey, default. cbn [from_option id]. rewrite Hfind.
  destruct (ApiKey.isActive keyRecord =? 0) eqn:E; [lia|].
  destruct (ApiKey.expiresAt keyRecord) as [expiresAt|]; [|done].
  specialize (Hexp expiresAt eq_refl).
  destruct (expiresAt <? now) eqn:E'; [lia|done].
Qed.

Lemma generated_key_authenticates_witness :
  let generated := generateApiKey sample_digest sample_bytes in
  let st :=
    set_apiKeys
      (fun l => l ++ [sample_key 4 (Generated.hash generated) write])
      sample_store in
  fst (authenticateApiKey sample_digest 10 11
         (Some (Generated.key generated)) st)
  = Next (ApiKeyInfo.mk 4 "integration" write).
Proof.
  intros generated st.
  pose proof (generated_key_authenticates sample_digest sample_bytes
                st (sample_key 4 (Generated.hash generated) write) 10 11)
    as Hauth.
  cbv zeta in Hauth. fold generated in Hauth.
  rewrite Hauth; [reflexivity|reflexivity|done|done].
Defined.

End ApiKeys.

(** ** The total on the dashboard *)

Section DashboardTotal.

Lemma post_absent i newBalance (l : list Account.t) :
  (forall x, In x l -> Account.id x <> i) -> map (post i newBalance) l = l.
Proof.
  induction l as [|x l IH]; simpl; [done|]. intros Hne.
  rewrite IH by (intros; apply Hne; auto). unfold post.
  destruct (Account.id x =? i) eqn:E; [|done].
  exfalso. apply (Hne x); [auto|lia].
Qed.

Lemma sumActive_post (l : list Account.t) a newBalance :
  NoDup (map Account.id l) -> In a l -> Account.status a = active ->
  sumActive (map (post (Account.id a) newBalance) l)
  = sumActive l + newBalance - Account.balance a.
Proof.
  induction l as [|x l IH]; simpl; [done|].
  intros Hnd Hin Hact. inversion Hnd as [|? ? Hnot Hnd']; subst.
  destruct (Z.eq_dec (Account.id x) (Account.id a)) as [Heq|Hne].
  - assert (x = a) as ->.
    { destruct Hin as [|Hin]; [done|]. exfalso. apply Hnot. rewrite Heq.
      apply list_elem_of_In. by apply in_map. }
    rewrite post_absent.
    + unfold post. rewrite Z.eqb_refl. unfold sumActive. simpl.
      rewrite Hact. rewrite !bool_decide_eq_true_2 by done. simpl. lia.
    + intros y Hy Hid. apply Hnot. rewrite <- Hid.
      apply list_elem_of_In. by apply in_map.
  - destruct Hin as [->|Hin]; [done|].
    specialize (IH Hnd' Hin Hact).
    unfold post at 1. destruct (Account.id x =? Account.id a) eqn:E; [lia|].
    unfold sumActive in *. simpl.
    destruct (bool_decide (Account.status x = active)); simpl; lia.
Qed.

Lemma post_ids i newBalance (l : list Account.t) :
  map Account.id (map (post i newBalance) l) = map Account.id l.
Proof.
  rewrite map_map. apply map_ext. intros a. unfold post.
  by destruct (_ =? _).
Qed.

Lemma leb_zero_false amount :
  Number.leb (parseFloat amount) (Number.of_int 0) = false -> 0 < amount.
Proof.
  unfold Number.leb, Number.of_int. simpl (0 * _). intros H.
  apply Z.leb_gt in H. destruct (Z.lt_ge_cases 0 amount) as [|Hle]; [done|].
  pose proof (parseFloat_nonpos amount Hle). lia.
Qed.

Lemma not_closed (a : Account.t) :
  bool_decide (Account.status a = closed) = false -> Account.status a = active.
Proof. intros H. apply bool_decide_eq_false in H. by destruct (Account.status a). Qed.

Lemma deposit_moves_total env body db r db' amount :
  restApi.post_transactions_deposit env body db = (r, db') ->
  restApi.status r = 201 ->
  restApi.Body.amount body = Some amount -> amount < 10 ^ 15 ->
  accountIdsUnique db ->
  (forall a, In a (accounts db) -> exact_range (Account.balance a)) ->
  totalBalance db' = totalBalance db + amount.
Proof.
  intros H Hst Ha Hlt Hu Hall. revert H.
  unfold restApi.post_transactions_deposit, restApi.try_catch.
  unfold restApi.invalid. rewrite Ha.
  destruct (restApi.Body.accountNumber body) as [accountNumber|];
    [|by intros [= <- <-]].
  destruct (bool_decide (accountNumber = EmptyString)); cbn [orb];
    [by intros [= <- <-]|].
  destruct (Number.leb _ _) eqn:Hpos; [by intros [= <- <-]|].
  apply leb_zero_false in Hpos. unfold default. cbn [from_option id]. run.
  destruct (List.find _ (accounts db)) as [account|] eqn:Hfind;
    [|by intros [= <- <-]].
  destruct (bool_decide _) eqn:Hopen; [by intros [= <- <-]|].
  apply not_closed in Hopen.
  rewrite updateAccountBalance_run, createTransaction_run.
  destruct (sequenceWritable env);
    [destruct (ledgerHolds _ _)|]; intros [= <- <-]; try done.
  apply find_number_In in Hfind as [Hin _].
  unfold totalBalance. simpl accounts.
  rewrite sumActive_post by done.
  rewrite toFixed2_add; [lia|by apply Hall|unfold exact_range; lia].
Qed.

Lemma withdrawal_moves_total env body db r db' amount :
  restApi.post_transactions_withdrawal env body db = (r, db') ->
  restApi.status r = 201 ->
  restApi.Body.amount body = Some amount -> amount < 10 ^ 15 ->
  accountIdsUnique db ->
  (forall a, In a (accounts db) -> exact_range (Account.balance a)) ->
  totalBalance db' = totalBalance db - amount.
Proof.
  intros H Hst Ha Hlt Hu Hall. revert H.
  unfold restApi.post_transactions_withdrawal, restApi.try_catch.
  unfold restApi.invalid. rewrite Ha.
  destruct (restApi.Body.accountNumber body) as [accountNumber|];
    [|by intros [= <- <-]].
  destruct (bool_decide (accountNumber = EmptyString)); cbn [orb];
    [by intros [= <- <-]|].
  destruct (Number.leb _ _) eqn:Hpos; [by intros [= <- <-]|].
  apply leb_zero_false in Hpos. unfold default. cbn [from_option id]. run.
  destruct (List.find _ (accounts db)) as [account|] eqn:Hfind;
    [|by intros [= <- <-]].
  destruct (bool_decide _) eqn:Hopen; [by intros [= <- <-]|].
  apply not_closed in Hopen.
  destruct (Number.ltb _ _); [by intros [= <- <-]|].
  rewrite updateAccountBalance_run, createTransaction_run.
  destruct (sequenceWritable env);
    [destruct (ledgerHolds _ _)|]; intros [= <- <-]; try done.
  apply find_number_In in Hfind as [Hin _].
  unfold totalBalance. simpl accounts.
  rewrite sumActive_post by done.
  rewrite toFixed2_sub; [lia|by apply Hall|unfold exact_range; lia].
Qed.

Lemma transfer_keeps_total env1 env2 body db r db' amount :
  restApiRouter.post_transactions_transfer env1 env2 body db = (r, db') ->
  restApiRouter.status r = 201 ->
  restApiRouter.TransferBody.amount body = Some amount -> amount < 10 ^ 15 ->
  accountIdsUnique db ->
  (forall a, In a (accounts db) -> exact_range (Account.balance a)) ->
  totalBalance db' = totalBalance db.
Proof.
  intros H Hst Ha Hlt Hu Hall. revert H.
  unfold restApiRouter.post_transactions_transfer, restApiRouter.handle.
  rewrite Ha.
  destruct (restApiRouter.TransferBody.sourceAccountNumber body) as [source|];
    [|by intros [= <- <-]].
  destruct (restApiRouter.TransferBody.destinationAccountNumber body)
    as [dest|]; [|rewrite orb_true_r; by intros [= <- <-]].
  destruct (restApiRouter.missing _ || restApiRouter.missing _); cbn [orb];
    [by intros [= <- <-]|].
  destruct (restApiRouter.not_positive _) eqn:Hpos; [by intros [= <- <-]|].
  apply leb_zero_false in Hpos.
  unfold default. cbn [from_option id].
  destruct (bool_decide (source = dest)) eqn:Hne; [by intros [= <- <-]|].
  apply bool_decide_eq_false in Hne. run.
  destruct (List.find (fun a => bool_decide (_ = source)) (accounts db))
    as [sourceAccount|] eqn:Hfs; [|by intros [= <- <-]].
  destruct (List.find (fun a => bool_decide (_ = dest)) (accounts db))
    as [destAccount|] eqn:Hfd; [|by intros [= <- <-]].
  destruct (bool_decide (Account.status sourceAccount = closed)) eqn:Hos;
    [by intros [= <- <-]|].
  destruct (bool_decide (Account.status destAccount = closed)) eqn:Hod;
    [by intros [= <- <-]|].
  apply not_closed in Hos. apply not_closed in Hod.
  destruct (Number.ltb _ _); [by intros [= <- <-]|].
  pose proof (found_distinct _ _ _ _ _ Hu Hne Hfs Hfd) as Hid.
  apply find_number_In in Hfs as [Hins _].
  apply find_number_In in Hfd as [Hind _].
  assert (Htotal : totalBalance (moved amount sourceAccount destAccount db)
                   = totalBalance db).
  { unfold totalBalance, moved. simpl accounts.
    rewrite sumActive_post.
    - rewrite sumActive_post by done.
      rewrite toFixed2_add, toFixed2_sub;
        [lia|by apply Hall|unfold exact_range; lia|by apply Hall
        |unfold exact_range; lia].
    - by rewrite post_ids.
    - apply in_map_iff. exists destAccount. split; [|done].
      unfold post. destruct (_ =? _) eqn:E; [lia|done].
    - done. }
  rewrite !updateAccountBalance_run, createTransaction_run.
  destruct (sequenceWritable env1); [|by intros [= <- <-]].
  destruct (ledgerHolds _ _); [by intros [= <- <-]|].
  rewrite createTransaction_run.
  destruct (sequenceWritable env2);
    [destruct (ledgerHolds _ _)|]; intros [= <- <-]; try done.
Qed.

(** X27. The total on the dashboard moves with the postings.  With unique
    account ids and every balance and the amount in the exact range, an
    accepted REST deposit (status 201) raises [totalBalance], the sum over
    the active accounts, by exactly the amount, an accepted withdrawal
    lowers it by exactly the amount, and an accepted transfer leaves it as
    it is: money is neither made nor lost. *)
Theorem postings_move_the_total :
  (forall env body db r db' amount,
     restApi.post_transactions_deposit env body db = (r, db') ->
     restApi.status r = 201 ->
     restApi.Body.amount body = Some amount -> amount < 10 ^ 15 ->
     accountIdsUnique db ->
     (forall a, In a (accounts db) -> exact_range (Account.balance a)) ->
     totalBalance db' = totalBalance db + amount)
  /\ (forall env body db r db' amount,
        restApi.post_transactions_withdrawal env body db = (r, db') ->
        restApi.status r = 201 ->
        restApi.Body.amount body = Some amount -> amount < 10 ^ 15 ->
        accountIdsUnique db ->
        (forall a, In a (accounts db) -> exact_range (Account.balance a)) ->
        totalBalance db' = totalBalance db - amount)
  /\ (forall env1 env2 body db r db' amount,
        restApiRouter.post_transactions_transfer env1 env2 body db = (r, db') ->
        restApiRouter.status r = 201 ->
        restApiRouter.TransferBody.amount body = Some amount ->
        amount < 10 ^ 15 ->
        accountIdsUnique db ->
        (forall a, In a (accounts db) -> exact_range (Account.balance a)) ->
        totalBalance db' = totalBalance db).
Proof.
  split; [|split].
  - apply deposit_moves_total.
  - apply withdrawal_moves_total.
  - apply transfer_keeps_total.
Qed.

Lemma postings_move_the_total_witness :
  let out := restApi.post_transactions_deposit env_20260115 sample_posting
               (db_account 70000 active) in
  restApi.status (fst out) = 201
  /\ totalBalance (db_account 70000 active) = 70000
  /\ totalBalance (snd out) = 70000 + 30000.
Proof.
  intros out. split; [by vm_compute|]. split; [reflexivity|].
  apply (proj1 postings_move_the_total env_20260115 sample_posting
           (db_account 70000 active) (fst out) (snd out) 30000).
  - apply surjective_pairing.
  - by vm_compute.
  - reflexivity.
  - lia.
  - by apply (bool_decide_unpack _).
  - intros a [<-|[]]. unfold exact_range. simpl. lia.
Defined.

End DashboardTotal.

(** ** A callback delivered again after it failed *)

Section CallbackRetry.

(** X28. A FAILED callback that is delivered again after an internal error
    credits the account twice.  When the refund has been written and the
    counter then refuses the reference number of the reversal, the callback
    throws with the record still PENDING and the balance already at
    [B + A]; the next delivery of the same callback finds the record
    PENDING, refunds again, and leaves the balance at [B + 2A] with a single
    reversal row on the ledger. *)
Theorem failed_callback_retry_credits_twice env1 env2 db referenceNumber
    switchReferenceNumber statusMessage existingTx sourceAccount :
  let id := InstapayTransaction.sourceAccountId existingTx in
  let A := InstapayTransaction.amount existingTx in
  let B := Account.balance sourceAccount in
  List.find (byReference referenceNumber) (instapayTransactions db)
    = Some existingTx ->
  InstapayTransaction.status existingTx = PENDING ->
  List.find (fun a => Account.id a =? id) (accounts db) = Some sourceAccount ->
  0 <= A -> 0 <= B -> B + A + A < 10 ^ 15 ->
  issued db ->
  sequenceWritable env1 = false ->
  sequenceWritable env2 = true -> String.length (today env2) = 8%nat ->
  exists db1 updatedTx reversal db2,
    updateInstapayTransactionStatus env1 referenceNumber FAILED
      switchReferenceNumber statusMessage db = (Throw StoreError, db1)
    /\ statusOf db1 referenceNumber = Some PENDING
    /\ balanceOf db1 id = Some (B + A)
    /\ transactions db1 = transactions db
    /\ updateInstapayTransactionStatus env2 referenceNumber FAILED
         switchReferenceNumber statusMessage db1 = (Ok (Some updatedTx), db2)
    /\ InstapayTransaction.status updatedTx = FAILED
    /\ balanceOf db2 id = Some (B + A + A)
    /\ transactions db2 = transactions db ++ [reversal]
    /\ Transaction.amount reversal = A.
Proof.
  intros id A B Hrec Hpending Hfind HA HB Hsum Hi Hw1 Hw2 Hlen.
  assert (HrA : exact_range A) by (unfold exact_range; lia).
  assert (HrB : exact_range B) by (unfold exact_range; lia).
  assert (HrBA : exact_range (B + A)) by (unfold exact_range; lia).
  pose proof (find_reference_In _ _ _ Hrec) as Href.
  unfold byReference in Hrec.
  set (db1 := set_accounts (map (post id (B + A))) db).
  assert (Hrun1 : updateInstapayTransactionStatus env1 referenceNumber FAILED
            switchReferenceNumber statusMessage db = (Throw StoreError, db1)).
  { rewrite updateInstapayTransactionStatus_run, Hrec. cbv zeta.
    rewrite Hpending, !bool_decide_eq_true_2 by done. cbn [andb].
    fold id. rewrite Hfind, Hw1. fold A B.
    by rewrite (toFixed2_add B A HrB HrA). }
  assert (Hacc1 : List.find (fun a => Account.id a =? id) (accounts db1)
                  = Some (Account.set_balance (B + A) sourceAccount)).
  { subst db1. simpl accounts. by rewrite find_post_same, Hfind. }
  destruct (issued_fresh env2 db1 Hlen Hi) as [Hfresh _].
  destruct (updateInstapayTransactionStatus env2 referenceNumber FAILED
              switchReferenceNumber statusMessage db1)
    as [res db2] eqn:Hrun2.
  pose proof Hrun2 as Hdelivered.
  rewrite updateInstapayTransactionStatus_run in Hrun2.
  change (instapayTransactions db1) with (instapayTransactions db) in Hrun2.
  rewrite Hrec in Hrun2. cbv zeta in Hrun2.
  rewrite Hpending, !bool_decide_eq_true_2 in Hrun2 by done.
  cbn [andb] in Hrun2. fold id A in Hrun2.
  rewrite Hacc1, Hw2, Hfresh in Hrun2.
  change (Account.balance (Account.set_balance (B + A) sourceAccount))
    with (B + A) in Hrun2.
  rewrite (toFixed2_add (B + A) A HrBA HrA) in Hrun2.
  set (db1' := set_accounts (map (post id (B + A + A))) db1) in Hrun2.
  set (reversal := reversalRow env2 db1' referenceNumber statusMessage
                     existingTx (Account.set_balance (B + A) sourceAccount))
    in Hrun2.
  apply finish_record in Hrun2 as (-> & _ & Ha & Ht & _); [|exact Hrec].
  exists db1. eexists _, reversal, db2.
  split; [exact Hrun1|]. split.
  { unfold statusOf, byReference.
    change (instapayTransactions db1) with (instapayTransactions db).
    by rewrite Hrec, <- Hpending. }
  split; [unfold balanceOf; by rewrite Hacc1|]. split; [done|].
  split; [exact Hdelivered|]. split; [by apply settle_status|]. split.
  { unfold balanceOf. rewrite Ha.
    change (accounts (append reversal (advance env2 db1')))
      with (map (post id (B + A + A)) (accounts db1)).
    by rewrite find_post_same, Hacc1. }
  split; [by rewrite Ht|].
  unfold reversal, reversalRow. simpl. fold A.
  apply toFixed2_parseFloat. unfold exact_range in HrA. lia.
Qed.

Lemma failed_callback_retry_credits_twice_witness :
  let deliver env :=
    updateInstapayTransactionStatus env "TXN20260115000001" FAILED None
      (Some "Recipient account not found") in
  let db1 := snd (deliver env_store_down (db_sent PENDING)) in
  balanceOf db1 1 = Some 70000
  /\ balanceOf (snd (deliver env_20260115 db1)) 1 = Some 130000.
Proof.
  intros deliver db1.
  destruct (failed_callback_retry_credits_twice env_store_down env_20260115
              (db_sent PENDING) "TXN20260115000001" None
              (Some "Recipient account not found")
              (sample_instapay PENDING) (sample_account 10000 active))
    as (db1' & updatedTx & reversal & db2 & Hrun1 & _ & Hb1 & _ & Hrun2
        & _ & Hb2 & _);
    [reflexivity|reflexivity|reflexivity|simpl; lia|simpl; lia|simpl; lia
    |apply issued_db_sent|reflexivity|reflexivity|reflexivity|].
  subst db1. unfold deliver. rewrite Hrun1. simpl snd.
  rewrite Hrun2. split; [exact Hb1|exact Hb2].
Defined.

End CallbackRetry.

(** ** The tRPC postings and the status of an account *)

Section StatusBlind.

Import transaction.

Lemma mark_post i newBalance j status (l : list Account.t) :
  map (post i newBalance) (map (mark j status) l)
  = map (mark j status) (map (post i newBalance) l).
Proof.
  rewrite !map_map. apply map_ext. intros a. unfold post, mark. simpl.
  destruct (Account.id a =? i) eqn:Ei, (Account.id a =? j) eqn:Ej; simpl;
    rewrite ?Ei, ?Ej; done.
Qed.

Lemma set_accounts_mark_post i newBalance j status db :
  set_accounts (map (post i newBalance))
    (set_accounts (map (mark j status)) db)
  = set_accounts (map (mark j status))
      (set_accounts (map (post i newBalance)) db).
Proof. unfold set_accounts. cbn [accounts]. by rewrite mark_post. Qed.

Lemma mark_id j status a : Account.id (mark j status a) = Account.id a.
Proof. unfold mark. by destruct (_ =? _). Qed.

Lemma mark_number j status a :
  Account.accountNumber (mark j status a) = Account.accountNumber a.
Proof. unfold mark. by destruct (_ =? _). Qed.

Lemma deposit_status_blind accountId status env input db :
  deposit env input (set_accounts (map (mark accountId status)) db)
  = (fst (deposit env input db),
     set_accounts (map (mark accountId status)) (snd (deposit env input db))).
Proof.
  unfold deposit. destruct (negb _); [done|]. run.
  change (accounts (set_accounts (map (mark accountId status)) db))
    with (map (mark accountId status) (accounts db)).
  rewrite find_mark_id.
  destruct (List.find _ (accounts db)) as [account|]; [|done].
  cbn [fmap option_fmap option_map]. rewrite mark_balance.
  rewrite !updateAccountBalance_run, !createTransaction_run.
  destruct (sequenceWritable env); [|by cbn [fst snd]; rewrite set_accounts_mark_post].
  change (ledgerHolds (set_accounts _ (set_accounts _ db)))
    with (ledgerHolds db).
  change (ledgerHolds (set_accounts _ db)) with (ledgerHolds db).
  change (nextReference env (set_accounts _ (set_accounts _ db)))
    with (nextReference env db).
  change (nextReference env (set_accounts _ db)) with (nextReference env db).
  destruct (ledgerHolds db (nextReference env db));
    cbn [fst snd]; rewrite set_accounts_mark_post; reflexivity.
Qed.

Lemma withdraw_status_blind accountId status env input db :
  withdraw env input (set_accounts (map (mark accountId status)) db)
  = (fst (withdraw env input db),
     set_accounts (map (mark accountId status)) (snd (withdraw env input db))).
Proof.
  unfold withdraw. destruct (negb _); [done|]. run.
  change (accounts (set_accounts (map (mark accountId status)) db))
    with (map (mark accountId status) (accounts db)).
  rewrite find_mark_id.
  destruct (List.find _ (accounts db)) as [account|]; [|done].
  cbn [fmap option_fmap option_map]. rewrite mark_balance.
  destruct (Number.gtb _ _); [done|].
  rewrite !updateAccountBalance_run, !createTransaction_run.
  destruct (sequenceWritable env); [|by cbn [fst snd]; rewrite set_accounts_mark_post].
  change (ledgerHolds (set_accounts _ (set_accounts _ db)))
    with (ledgerHolds db).
  change (ledgerHolds (set_accounts _ db)) with (ledgerHolds db).
  change (nextReference env (set_accounts _ (set_accounts _ db)))
    with (nextReference env db).
  change (nextReference env (set_accounts _ db)) with (nextReference env db).
  destruct (ledgerHolds db (nextReference env db));
    cbn [fst snd]; rewrite set_accounts_mark_post; reflexivity.
Qed.

Lemma internalTransfer_status_blind accountId status env1 env2 input db :
  internalTransfer env1 env2 input
    (set_accounts (map (mark accountId status)) db)
  = (fst (internalTransfer env1 env2 input db),
     set_accounts (map (mark accountId status))
       (snd (internalTransfer env1 env2 input db))).
Proof.
  rewrite !internalTransfer_run.
  destruct (negb (_ =? _)%nat); [done|].
  destruct (negb (amount_is_positive _)); [done|].
  change (accounts (set_accounts (map (mark accountId status)) db))
    with (map (mark accountId status) (accounts db)).
  rewrite find_mark_id, find_mark_number.
  destruct (List.find _ (accounts db)) as [fromAccount|]; [|done].
  destruct (List.find _ (accounts db)) as [toAccount|]; [|done].
  cbn [fmap option_fmap option_map].
  rewrite !mark_id, !mark_balance.
  destruct (_ =? _); [done|]. destruct (Number.gtb _ _); [done|].
  assert (senderData input (mark accountId status fromAccount)
            (mark accountId status toAccount)
          = senderData input fromAccount toAccount) as ->
    by (unfold senderData; by rewrite !mark_id, !mark_balance, !mark_number).
  assert (receiverData input (mark accountId status fromAccount)
            (mark accountId status toAccount)
          = receiverData input fromAccount toAccount) as ->
    by (unfold receiverData; by rewrite !mark_id, !mark_balance, !mark_number).
  cbv zeta.
  destruct (sequenceWritable env1); [|by cbn [fst snd]; rewrite !set_accounts_mark_post].
  change (ledgerHolds (set_accounts _ db)) with (ledgerHolds db).
  change (nextReference env1 (set_accounts _ db)) with (nextReference env1 db).
  destruct (ledgerHolds db (nextReference env1 db));
    [by cbn [fst snd]; rewrite !set_accounts_mark_post|].
  rewrite !set_accounts_mark_post.
  destruct (sequenceWritable env2); [|reflexivity].
  match goal with
  | |- (if ?c then _ else _) = (fst (if ?c' then _ else _), _) =>
      change c with c'; destruct c'; reflexivity
  end.
Qed.

(** X29. The tRPC procedures [deposit], [withdraw] and [internalTransfer]
    never look at the status of an account: setting the status of any
    account with [updateAccountStatus] before the procedure gives the same
    result, and the same database, as setting it afterwards.  A closed
    account is therefore credited and debited exactly as an active one. *)
Theorem trpc_postings_ignore_status accountId status env env' input transfer
    db :
  let setStatus db := snd (updateAccountStatus accountId status db) in
  deposit env input (setStatus db)
    = (fst (deposit env input db), setStatus (snd (deposit env input db)))
  /\ withdraw env input (setStatus db)
    = (fst (withdraw env input db), setStatus (snd (withdraw env input db)))
  /\ internalTransfer env env' transfer (setStatus db)
    = (fst (internalTransfer env env' transfer db),
       setStatus (snd (internalTransfer env env' transfer db))).
Proof.
  intros setStatus. unfold setStatus. rewrite !updateAccountStatus_run.
  cbn [snd]. split; [|split].
  - apply deposit_status_blind.
  - apply withdraw_status_blind.
  - apply internalTransfer_status_blind.
Qed.

End StatusBlind.
